(** * Elevator_data_generator: the generation engine of scr/generate_dataset.py

    A shallow embedding of [GenerateDataset] and the properties of its
    specification.

    Conventions of the embedding.
    - Python [int] is [Z].  Python [float] is modelled by the exact rational
      it denotes ([Q]): the rounding error of binary64 arithmetic is outside
      this model, the rounding the program asks for ([round(x, 3)], the
      microsecond rounding of [timedelta]) is inside it.  Where a property
      is decided by the rounding of binary64 itself, the sum of the floor
      weights, the code is embedded a second time in [Binary64], whose
      numbers are the rationals that are doubles and whose operations
      round to the nearest double; a bound on a value computed in a few
      float operations is otherwise stated with [float_margin].
    - A JSON document is the value [json.load] returns.  Members of an
      object are kept in document order, which decides the first error the
      validator reports.
    - An exception is a value of [exn]; code that can raise returns an
      [outcome].  The unbounded [while True] loop takes fuel, and
      [OutOfFuel] is the only way fuel shows in a result.
    - The random module is an oracle: a stream of raw naturals consumed one
      per call.  [random.choices] returns a population element of positive
      weight, [random.randint] an integer between its bounds; which one is
      decided by the raw number. *)

From Stdlib Require Import ZArith QArith Qround Qabs Qminmax Qpower Lqa String Ascii DecimalString.
From stdpp Require Import base tactics list strings gmap numbers option.

#[local] Set Warnings "-register-all".
#[local] Open Scope string_scope.
#[local] Open Scope Z_scope.

(** ** Python exceptions and results *)

Inductive exn : Type :=
| ValueError (msg : string)
| KeyError (key : string)
| TypeError
| ZeroDivisionError
| OverflowError
| IndexError.

Inductive outcome (A : Type) : Type :=
| Ok (a : A)
| Raise (e : exn)
| OutOfFuel.

Arguments Ok {A} a.
Arguments Raise {A} e.
Arguments OutOfFuel {A}.

(** Sequencing: the first exception, or running out of fuel, ends the
    computation. *)
Definition bind {A B : Type} (m : outcome A) (k : A -> outcome B) : outcome B :=
  match m with
  | Ok a => k a
  | Raise e => Raise e
  | OutOfFuel => OutOfFuel
  end.

Notation "'let*' x ':=' m 'in' k" := (bind m (fun x => k))
  (at level 10, x pattern, m at level 100, k at level 200).

(** [if not cond: raise ValueError(msg)] *)
Definition require (cond : bool) (msg : string) : outcome unit :=
  if cond then Ok tt else Raise (ValueError msg).

(** ** Numbers *)

Definition Qltb (x y : Q) : bool := negb (Qle_bool y x).

(** Rounding to the nearest integer, ties to the even one: Python's
    [round] and the microsecond rounding of [timedelta]. *)
Definition round_half_even (q : Q) : Z :=
  let f := Qfloor q in
  match (q - inject_Z f ?= 1 # 2)%Q with
  | Lt => f
  | Gt => f + 1
  | Eq => if Z.even f then f else f + 1
  end.

(** [round(x, 3)] *)
Definition round3 (x : Q) : Q :=
  (inject_Z (round_half_even (x * 1000)) / 1000)%Q.

(** [min(a, b)] of two numbers: [b] when [b < a], else [a]. *)
Definition min2 (a b : Q) : Q := if Qltb b a then b else a.

(** [sum(values)] *)
Definition sum (values : list Q) : Q := foldl Qplus 0%Q values.

(** [str(n)] of an int. *)
Definition str (n : Z) : string := NilZero.string_of_int (Z.to_int n).

(** [range(lo, hi)] *)
Definition range (lo hi : Z) : list Z := seqZ lo (hi - lo).

(** A capacity looked up with [dict.get]: an int or [None]. *)
Definition pyval : Type := option Z.

(** [a < b]: ordering is not defined when [None] is involved. *)
Definition py_lt (a b : pyval) : outcome bool :=
  match a, b with
  | Some x, Some y => Ok (x <? y)
  | _, _ => Raise TypeError
  end.

(** [a - b] *)
Definition py_sub (a b : pyval) : outcome Z :=
  match a, b with
  | Some x, Some y => Ok (x - y)
  | _, _ => Raise TypeError
  end.

(** [a / b] on ints (true division). *)
Definition py_truediv (a b : Z) : outcome Q :=
  if b =? 0 then Raise ZeroDivisionError else Ok (inject_Z a / inject_Z b)%Q.

(** [a / b] on floats. *)
Definition py_fdiv (a b : Q) : outcome Q :=
  if Qeq_bool b 0 then Raise ZeroDivisionError else Ok (a / b)%Q.

(** [min(iterable)]: the first item is the candidate and every later item
    is compared with the candidate, [item < candidate]. *)
Fixpoint min_from (cur : pyval) (rest : list pyval) : outcome pyval :=
  match rest with
  | [] => Ok cur
  | v :: rest' => let* b := py_lt v cur in min_from (if b then v else cur) rest'
  end.

Definition py_min (values : list pyval) : outcome pyval :=
  match values with
  | [] => Raise (ValueError "min() arg is an empty sequence")
  | v :: rest => min_from v rest
  end.

(** [max(iterable)], with [item > candidate], that is [candidate < item]. *)
Fixpoint max_from (cur : pyval) (rest : list pyval) : outcome pyval :=
  match rest with
  | [] => Ok cur
  | v :: rest' => let* b := py_lt cur v in max_from (if b then v else cur) rest'
  end.

Definition py_max (values : list pyval) : outcome pyval :=
  match values with
  | [] => Raise (ValueError "max() arg is an empty sequence")
  | v :: rest => max_from v rest
  end.

(** ** JSON values, as [json.load] returns them *)

Inductive json : Type :=
| JNull
| JBool (b : bool)
| JInt (z : Z)
| JFloat (q : Q)
| JStr (s : string)
| JList (items : list json)
| JDict (members : list (string * json)).

(** [isinstance(v, int)], with the int.  [bool] is a subclass of [int]:
    [True] is 1 and [False] is 0. *)
Definition as_int (v : json) : option Z :=
  match v with
  | JInt z => Some z
  | JBool b => Some (if b then 1 else 0)
  | _ => None
  end.

(** [isinstance(v, (int, float))], with the number. *)
Definition as_num (v : json) : option Q :=
  match v with
  | JFloat q => Some q
  | _ => inject_Z <$> as_int v
  end.

Definition as_dict (v : json) : option (list (string * json)) :=
  match v with JDict members => Some members | _ => None end.

Definition as_list (v : json) : option (list json) :=
  match v with JList items => Some items | _ => None end.

Definition as_str (v : json) : option string :=
  match v with JStr s => Some s | _ => None end.

(** [d.get(key)] on the members of a dict. *)
Fixpoint dict_get (members : list (string * json)) (key : string) : option json :=
  match members with
  | [] => None
  | (k, v) :: rest => if String.eqb k key then Some v else dict_get rest key
  end.

Definition is_str_of (key : string) (v : json) : bool :=
  match v with JStr s => String.eqb s key | _ => false end.

Definition is_substring (key s : string) : bool :=
  match String.index 0 key s with Some _ => true | None => false end.

(** [key in data]: key membership for a dict, element membership for a
    list, substring test for a str, TypeError for a value that is not
    iterable. *)
Definition contains (data : json) (key : string) : outcome bool :=
  match data with
  | JDict members => Ok (bool_decide (is_Some (dict_get members key)))
  | JList items => Ok (existsb (is_str_of key) items)
  | JStr s => Ok (is_substring key s)
  | _ => Raise TypeError
  end.

(** [data[key]] with a str key: KeyError when a dict lacks the key,
    TypeError for every other value. *)
Definition getitem (data : json) (key : string) : outcome json :=
  match data with
  | JDict members =>
      match dict_get members key with
      | Some v => Ok v
      | None => Raise (KeyError key)
      end
  | _ => Raise TypeError
  end.

(** [all(key in data for key in keys)], stopping at the first miss. *)
Fixpoint all_in (data : json) (keys : list string) : outcome bool :=
  match keys with
  | [] => Ok true
  | key :: rest =>
      let* b := contains data key in
      if b then all_in data rest else Ok false
  end.

(** ** Simulation parameters: the attributes [load_elevator_variables] assigns *)

(** One entry of [peak_hours]; [end_hour] is the value under the key
    ["end"]. *)
Record interval : Type := {
  start_hour : Z;
  end_hour : Z
}.

Record params : Type := {
  floor_capacities : gmap string Z;
  floor_types : gmap string string;
  rows_generated : Z;
  floor_number : Z;
  negative_floor_number : Z;
  min_time_interval_seconds : Z;
  max_time_interval_seconds : Z;
  interval_per_floor_seconds : Q;
  peak_hours : list interval;
  peak_multiplier : Q;
  random_minutes_min : Z;
  random_minutes_max : Z
}.

(** What [open] and [json.load] made of ./scr/elevator_variables.json. *)
Inductive config_file : Type :=
| FileNotFound
| JSONDecodeError
| Parsed (data : json).

Definition required_keys : list string :=
  [ "floor_capacities"; "floor_types"; "rows_generated"; "floor_number";
    "min_time_interval_seconds"; "max_time_interval_seconds"; "peak_hours";
    "peak_multiplier"; "random_minutes_range" ].

(** The loop over [data["floor_capacities"].items()]. *)
Fixpoint validate_capacities (members : list (string * json))
  : outcome (list (string * Z)) :=
  match members with
  | [] => Ok []
  | (floor_type, capacity) :: rest =>
      match as_int capacity with
      | Some c =>
          if c <=? 0
          then Raise (ValueError ("Invalid capacity for " ++ floor_type ++ "."))
          else let* cs := validate_capacities rest in Ok ((floor_type, c) :: cs)
      | None => Raise (ValueError ("Invalid capacity for " ++ floor_type ++ "."))
      end
  end.

(** The loop over [data["floor_types"].items()]; a key of a JSON object is
    always a str. *)
Fixpoint validate_floor_types (members : list (string * json))
  : outcome (list (string * string)) :=
  match members with
  | [] => Ok []
  | (floor, floor_type) :: rest =>
      match as_str floor_type with
      | Some t => let* ts := validate_floor_types rest in Ok ((floor, t) :: ts)
      | None => Raise (ValueError "Invalid floor type mapping.")
      end
  end.

(** [isinstance(data[key], int) and data[key] > 0], else ValueError. *)
Definition positive_int (data : json) (key msg : string) : outcome Z :=
  let* v := getitem data key in
  match as_int v with
  | Some z => if z <=? 0 then Raise (ValueError msg) else Ok z
  | None => Raise (ValueError msg)
  end.

(** [all(isinstance(interval, dict) for interval in data["peak_hours"])] *)
Fixpoint all_dicts (items : list json) : option (list (list (string * json))) :=
  match items with
  | [] => Some []
  | v :: rest =>
      match as_dict v, all_dicts rest with
      | Some d, Some ds => Some (d :: ds)
      | _, _ => None
      end
  end.

(** One peak interval: both keys present, both values ints. *)
Definition validate_peak_interval (peak_interval : list (string * json))
  : outcome interval :=
  match dict_get peak_interval "start", dict_get peak_interval "end" with
  | Some s, Some e =>
      match as_int s, as_int e with
      | Some s', Some e' => Ok {| start_hour := s'; end_hour := e' |}
      | _, _ => Raise (ValueError "Invalid peak hour interval.")
      end
  | _, _ => Raise (ValueError "Invalid peak hour interval.")
  end.

Fixpoint validate_peak_hours (intervals : list (list (string * json)))
  : outcome (list interval) :=
  match intervals with
  | [] => Ok []
  | peak_interval :: rest =>
      let* i := validate_peak_interval peak_interval in
      let* others := validate_peak_hours rest in
      Ok (i :: others)
  end.

(** The validation of [data["random_minutes_range"]]. *)
Definition validate_random_minutes_range (v : json) : outcome (Z * Z) :=
  let bad := Raise (ValueError "Invalid 'random_minutes_range' format.") in
  match as_dict v with
  | None => bad
  | Some members =>
      match dict_get members "min", dict_get members "max" with
      | Some lo, Some hi =>
          match as_int lo, as_int hi with
          | Some lo', Some hi' => Ok (lo', hi')
          | _, _ => bad
          end
      | _, _ => bad
      end
  end.

(** [load_elevator_variables], lines 41-155, after the file has been read. *)
Definition validate (data : json) : outcome params :=
  let* present := all_in data required_keys in
  let* _ := require present "Invalid JSON structure." in
  (* floor_capacities *)
  let* fc := getitem data "floor_capacities" in
  let* fc_members :=
    match as_dict fc with
    | Some members => Ok members
    | None => Raise (ValueError "Invalid 'floor_capacities' data type.")
    end in
  let* capacities := validate_capacities fc_members in
  (* floor_types *)
  let* ft := getitem data "floor_types" in
  let* ft_members :=
    match as_dict ft with
    | Some members => Ok members
    | None => Raise (ValueError "Invalid 'floor_types' data type.")
    end in
  let* types := validate_floor_types ft_members in
  (* rows_generated, floor_number *)
  let* rows := positive_int data "rows_generated" "Invalid 'rows_generated' value." in
  let* floors := positive_int data "floor_number" "Invalid 'floor_number' value." in
  (* negative_floor_number: read without a presence check *)
  let* nf := getitem data "negative_floor_number" in
  let* negative :=
    match as_int nf with
    | Some z =>
        if 0 <? z then Raise (ValueError "Invalid 'negative_floor_number' value.")
        else Ok z
    | None => Raise (ValueError "Invalid 'negative_floor_number' value.")
    end in
  (* time intervals *)
  let* min_s := positive_int data "min_time_interval_seconds"
                  "Invalid 'min_time_interval_seconds' value." in
  let* max_s := positive_int data "max_time_interval_seconds"
                  "Invalid 'max_time_interval_seconds' value." in
  (* interval_per_floor_seconds: read without a presence check *)
  let* ipf := getitem data "interval_per_floor_seconds" in
  let* per_floor :=
    match as_num ipf with
    | Some q =>
        if Qle_bool 0 q then Ok q
        else Raise (ValueError "Invalid 'interval_per_floor_seconds' value.")
    | None => Raise (ValueError "Invalid 'interval_per_floor_seconds' value.")
    end in
  (* peak_hours *)
  let* ph := getitem data "peak_hours" in
  let* ph_dicts :=
    match as_list ph with
    | Some items =>
        match all_dicts items with
        | Some ds => Ok ds
        | None => Raise (ValueError "Invalid 'peak_hours' format.")
        end
    | None => Raise (ValueError "Invalid 'peak_hours' format.")
    end in
  let* peaks := validate_peak_hours ph_dicts in
  (* peak_multiplier *)
  let* pm := getitem data "peak_multiplier" in
  let* multiplier :=
    match as_num pm with
    | Some q =>
        if Qle_bool 0 q && Qle_bool q 1 then Ok q
        else Raise (ValueError "Invalid 'peak_multiplier' value.")
    | None => Raise (ValueError "Invalid 'peak_multiplier' value.")
    end in
  (* random_minutes_range *)
  let* rm := getitem data "random_minutes_range" in
  let* (rm_min, rm_max) := validate_random_minutes_range rm in
  Ok {| floor_capacities := list_to_map capacities;
        floor_types := list_to_map types;
        rows_generated := rows;
        floor_number := floors;
        negative_floor_number := negative;
        min_time_interval_seconds := min_s;
        max_time_interval_seconds := max_s;
        interval_per_floor_seconds := per_floor;
        peak_hours := peaks;
        peak_multiplier := multiplier;
        random_minutes_min := rm_min;
        random_minutes_max := rm_max |}.

(** [load_elevator_variables]: a missing or malformed file is turned into
    a ValueError by the [except] clause; nothing else is caught there. *)
Definition load_elevator_variables (file : config_file) : outcome params :=
  match file with
  | FileNotFound => Raise (ValueError "Error loading elevator variables: file not found")
  | JSONDecodeError => Raise (ValueError "Error loading elevator variables: invalid JSON")
  | Parsed data => validate data
  end.

(** ** datetime *)

(** A naive [datetime], as the number of microseconds since
    0001-01-01 00:00:00 ([datetime.min]). *)
Definition datetime : Type := Z.

Definition us_per_second : Z := 1000000.
Definition us_per_hour : Z := 3600 * us_per_second.
Definition us_per_day : Z := 24 * us_per_hour.

(** One microsecond past [datetime.max], 9999-12-31 23:59:59.999999;
    3652059 is [date.max.toordinal()]. *)
Definition datetime_end : Z := 3652059 * us_per_day.

(** [t.hour] *)
Definition hour (t : datetime) : Z := (t / us_per_hour) mod 24.

(** [timedelta(minutes=m)] in microseconds: rounded to the nearest
    microsecond, ties to even. *)
Definition timedelta_minutes (m : Q) : Z :=
  round_half_even (m * inject_Z (60 * us_per_second)).

(** [t + delta]: OverflowError outside [datetime.min .. datetime.max]. *)
Definition datetime_add (t : datetime) (delta : Z) : outcome datetime :=
  if (0 <=? t + delta) && (t + delta <? datetime_end)
  then Ok (t + delta)
  else Raise OverflowError.

Definition days_in_months (leap : bool) : list Z :=
  [31; if leap then 29 else 28; 31; 30; 31; 30; 31; 31; 30; 31; 30; 31].

(** Month and day of the month for the zero-based day [n] of a year. *)
Fixpoint month_day (lengths : list Z) (month n : Z) : Z * Z :=
  match lengths with
  | [] => (month, n + 1)
  | len :: rest =>
      if n <? len then (month, n + 1) else month_day rest (month + 1) (n - len)
  end.

(** Year, month and day of the zero-based day number [n]: 400-year cycles
    of 146097 days, centuries of 36524, 4-year cycles of 1461, years of
    365. *)
Definition ymd (n : Z) : Z * Z * Z :=
  let n400 := n / 146097 in
  let r400 := n mod 146097 in
  let n100 := r400 / 36524 in
  let r100 := r400 mod 36524 in
  let n4 := r100 / 1461 in
  let r4 := r100 mod 1461 in
  let n1 := r4 / 365 in
  let r1 := r4 mod 365 in
  let year := n400 * 400 + n100 * 100 + n4 * 4 + n1 + 1 in
  if (n1 =? 4) || (n100 =? 4) then (year - 1, 12, 31)
  else
    let leap := (n1 =? 3) && (negb (n4 =? 24) || (n100 =? 3)) in
    let (month, day) := month_day (days_in_months leap) 1 r1 in
    (year, month, day).

Fixpoint zeros (n : nat) : string :=
  match n with O => "" | S n' => "0" ++ zeros n' end.

(** A non-negative number in at least [width] digits, zero-padded. *)
Definition zfill (width : nat) (n : Z) : string :=
  let s := str n in zeros (width - String.length s) ++ s.

(** [t.strftime("%Y-%m-%d %H:%M:%S")].  The fields are written by the C
    library's [strftime]: two digits for the month, the day and the time
    fields, and for [%Y] the year as a decimal number without padding, as
    glibc writes it, so that a year before 1000 has fewer than four
    digits. *)
Definition strftime (t : datetime) : string :=
  let '(year, month, day) := ymd (t / us_per_day) in
  let seconds := (t mod us_per_day) / us_per_second in
  str year ++ "-" ++ zfill 2 month ++ "-" ++ zfill 2 day ++ " " ++
  zfill 2 (seconds / 3600) ++ ":" ++ zfill 2 ((seconds / 60) mod 60) ++ ":" ++
  zfill 2 (seconds mod 60).

(** [_is_leap(year)] *)
Definition is_leap (year : Z) : bool :=
  (year mod 4 =? 0) && (negb (year mod 100 =? 0) || (year mod 400 =? 0)).

(** [_days_before_year(year)]: the days before January 1st of [year]. *)
Definition days_before_year (year : Z) : Z :=
  let y := year - 1 in
  y * 365 + y / 4 - y / 100 + y / 400.

(** [_days_in_month(year, month)], for a month from 1 to 12. *)
Definition days_in_month (year month : Z) : Z :=
  nth (Z.to_nat (month - 1)) (days_in_months (is_leap year)) 0.

(** [_days_before_month(year, month)]: the table of a common year and the
    leap day after February. *)
Definition days_before_month (year month : Z) : Z :=
  nth (Z.to_nat (month - 1)) [0; 31; 59; 90; 120; 151; 181; 212; 243; 273; 304; 334] 0
  + (if (2 <? month) && is_leap year then 1 else 0).

(** [_ymd2ord(year, month, day)]: the ordinal of a date, 1 for
    0001-01-01. *)
Definition ymd2ord (year month day : Z) : Z :=
  days_before_year year + days_before_month year month + day.

(** [datetime(1000, 1, 1)], the first datetime whose year has four
    digits. *)
Definition year_1000 : datetime := (ymd2ord 1000 1 1 - 1) * us_per_day.

(** [datetime(year, month, day, hour, minute, second)]: the fields are
    checked in this order. *)
Definition datetime_of (year month day hour minute second : Z) : outcome datetime :=
  let* _ := require ((1 <=? year) && (year <=? 9999)) "year is out of range" in
  let* _ := require ((1 <=? month) && (month <=? 12)) "month must be in 1..12" in
  let* _ := require ((1 <=? day) && (day <=? days_in_month year month))
              "day is out of range for month" in
  let* _ := require ((0 <=? hour) && (hour <=? 23)) "hour must be in 0..23" in
  let* _ := require ((0 <=? minute) && (minute <=? 59)) "minute must be in 0..59" in
  let* _ := require ((0 <=? second) && (second <=? 59)) "second must be in 0..59" in
  Ok (((ymd2ord year month day - 1) * 86400 + hour * 3600 + minute * 60 + second)
      * us_per_second).

(** ** The random module *)

(** The generator: a stream of raw naturals and how many were consumed. *)
Record rng : Type := {
  raw : nat -> nat;
  pos : nat
}.

Definition next_raw (g : rng) : nat * rng :=
  (raw g (pos g), {| raw := raw g; pos := S (pos g) |}).

(** The population elements a weighted draw can return: those of positive
    weight. *)
Definition support (population : list Z) (weights : list Q) : list Z :=
  fst <$> List.filter (fun pw => Qltb 0 (snd pw)) (zip population weights).

(** [random.choices(population, weights=weights)[0]]: the weights are
    accumulated, their number is compared with the population's, the
    total is read from the end of the accumulated list (IndexError when
    there is none) and has to be positive; the bisection of the
    accumulated weights then stops at an element whose own weight is
    positive. *)
Definition choices (population : list Z) (weights : list Q) (g : rng)
  : outcome (Z * rng) :=
  if negb (length weights =? length population)%nat
  then Raise (ValueError "The number of weights does not match the population")
  else if (length weights =? 0)%nat then Raise IndexError
  else if negb (Qltb 0 (sum weights))
  then Raise (ValueError "Total of weights must be greater than zero")
  else
    match support population weights with
    | [] => Raise (ValueError "Total of weights must be greater than zero")
    | x :: xs =>
        let (k, g') := next_raw g in
        Ok (nth (k mod length (x :: xs))%nat (x :: xs) x, g')
    end.

(** [random.randint(a, b)] *)
Definition randint (a b : Z) (g : rng) : outcome (Z * rng) :=
  if b <? a then Raise (ValueError "empty range for randrange()")
  else
    let (k, g') := next_raw g in
    Ok (a + Z.of_nat k mod (b - a + 1), g').

(** ** The store, seen from the engine *)

(** Modelled from the spec: the persisted entity [ElevatorState] that
    [get_last_elevator_state()] returns; the store, [ElevatorStateManager]
    of scr/crud_elevator.py, is not among the sources.  The engine reads
    [next_floor], [demand_floor] and [call_datetime] of it. *)
Record ElevatorState : Type := {
  last_current_floor : Z;
  last_demand_floor : Z;
  last_next_floor : Z;
  last_call_datetime : datetime
}.

(** One iteration of the generation loop: the arguments of its
    [create_elevator_state] call, and the [call_datetime] the loop carries
    on with. *)
Record generated_state : Type := {
  currentFloor : Z;
  demandFloor : Z;
  nextFloor : Z;
  date_str : string;
  callDatetime : datetime
}.

(** ** GenerateDataset *)

(** The simulation cursor: [self.current_floor], [self.demand_floor],
    [self.start_time]. *)
Record cursor : Type := {
  current_floor : Z;
  demand_floor : Z;
  start_time : datetime
}.

Definition floor_range (p : params) : list Z :=
  range (negative_floor_number p) (floor_number p).

(** [self.floor_capacities.get(self.floor_types.get(str(floor), "Residential"))] *)
Definition floor_capacity (p : params) (floor : Z) : pyval :=
  floor_capacities p !! default "Residential" (floor_types p !! str floor).

(** Sequencing a list of computations, first failure first. *)
Fixpoint for_each {A B : Type} (f : A -> outcome B) (l : list A) : outcome (list B) :=
  match l with
  | [] => Ok []
  | x :: rest => let* y := f x in let* ys := for_each f rest in Ok (y :: ys)
  end.

(** [floor_weights_mapping], lines 157-186: the value assigned to
    [self.weight_list]. *)
Definition floor_weights_mapping (p : params) : outcome (list Q) :=
  let floor_capacities_mapping := floor_capacity p <$> floor_range p in
  let* min_capacity := py_min floor_capacities_mapping in
  let* max_capacity := py_max floor_capacities_mapping in
  let* base_weight := py_truediv 1 (floor_number p) in
  let* weights :=
    for_each (fun capacity =>
                let* num := py_sub capacity min_capacity in
                let* den := py_sub max_capacity min_capacity in
                let* ratio := py_truediv num den in
                Ok (base_weight + ratio)%Q)
             floor_capacities_mapping in
  let total_weight := sum weights in
  for_each (fun weight =>
              let* w := py_fdiv weight total_weight in Ok (round3 w))
           weights.

(** ** Binary64 *)

(** The engine's floats are IEEE 754 binary64 numbers.  A finite double
    is a rational, and an operation on doubles returns the double nearest
    to the exact result, ties to the even significand; subnormal numbers
    are included.  Overflow to infinity is left out: the sums and quotients
    of [floor_weights_mapping] are of numbers between 0 and 5 and of as
    many terms as the building has floors. *)
Module Binary64.

(** The binade of a number that is not 0: the integer [e] with
    [2^e <= |x| < 2^(e+1)]. *)
Definition binade (x : Q) : Z :=
  let e := Z.log2 (Z.abs (Qnum x)) - Z.log2 (Zpos (Qden x)) in
  if Qltb (Qabs x) (2 ^ e) then e - 1 else e.

(** The exponent of the last place of the double nearest to [x]: 52 places
    below the binade, and never below that of the subnormal numbers. *)
Definition last_place (x : Q) : Z := Z.max (binade x - 52) (-1074).

(** The double nearest to [x], ties to the even significand. *)
Definition round (x : Q) : Q :=
  if Qeq_bool x 0 then 0%Q
  else (inject_Z (round_half_even (x / 2 ^ last_place x)) * 2 ^ last_place x)%Q.

(** [a / b] on ints: the quotient correctly rounded; OverflowError when
    it is too large for a float. *)
Definition truediv (a b : Z) : outcome Q :=
  if b =? 0 then Raise ZeroDivisionError
  else
    let q := round (inject_Z a / inject_Z b) in
    if Qle_bool (2 ^ 1024) (Qabs q) then Raise OverflowError else Ok q.

(** [a + b] on floats. *)
Definition add (a b : Q) : Q := round (a + b).

(** [a / b] on floats. *)
Definition fdiv (a b : Q) : outcome Q :=
  if Qeq_bool b 0 then Raise ZeroDivisionError else Ok (round (a / b)).

(** [round(x, 3)] on a float: the decimal nearest to the value of the
    double, ties to even, and the double nearest to that decimal. *)
Definition round3 (x : Q) : Q :=
  round (inject_Z (round_half_even (x * 1000)) / 1000).

(** [sum(values)] on floats: added from left to right, each partial sum
    rounded, as CPython adds them up to version 3.11 (later versions
    compensate the rounding of the partial sums). *)
Definition sum (values : list Q) : Q := foldl add 0%Q values.

(** [floor_weights_mapping], lines 157-186, in binary64. *)
Definition floor_weights_mapping (p : params) : outcome (list Q) :=
  let floor_capacities_mapping := floor_capacity p <$> floor_range p in
  let* min_capacity := py_min floor_capacities_mapping in
  let* max_capacity := py_max floor_capacities_mapping in
  let* base_weight := truediv 1 (floor_number p) in
  let* weights :=
    for_each (fun capacity =>
                let* num := py_sub capacity min_capacity in
                let* den := py_sub max_capacity min_capacity in
                let* ratio := truediv num den in
                Ok (add base_weight ratio))
             floor_capacities_mapping in
  let total_weight := sum weights in
  for_each (fun weight =>
              let* w := fdiv weight total_weight in Ok (round3 w))
           weights.

End Binary64.

(** The unit roundoff of binary64, 2^-53. *)
Definition roundoff : Q := 1 # 9007199254740992.

(** The number of elements of a list, as a rational. *)
Definition count (l : list Q) : Q := inject_Z (Z.of_nat (length l)).

(** [pick_random_floor_weighted], lines 189-195. *)
Definition pick_random_floor_weighted (p : params) (weight_list : list Q) (g : rng)
  : outcome (Z * rng) :=
  choices (floor_range p) weight_list g.

(** [pick_next_door], lines 197-206: the [while True] loop, one iteration
    per unit of fuel. *)
Fixpoint pick_next_door (fuel : nat) (p : params) (weight_list : list Q)
    (c : cursor) (g : rng) : outcome (Z * rng) :=
  match fuel with
  | O => OutOfFuel
  | S fuel' =>
      let* (next_floor, g') := choices (floor_range p) weight_list g in
      if negb (next_floor =? demand_floor c) then Ok (next_floor, g')
      else pick_next_door fuel' p weight_list c g'
  end.

(** [obtain_table_last_state], lines 208-220; [last_state] is what
    [get_last_elevator_state()] returned and [today] is
    [datetime.today()]. *)
Definition obtain_table_last_state (p : params) (weight_list : list Q)
    (last_state : option ElevatorState) (today : datetime) (g : rng)
  : outcome (cursor * rng) :=
  match last_state with
  | Some last =>
      Ok ({| current_floor := last_next_floor last;
             demand_floor := last_demand_floor last;
             start_time := last_call_datetime last |}, g)
  | None =>
      let* (cf, g1) := pick_random_floor_weighted p weight_list g in
      let* (df, g2) := pick_random_floor_weighted p weight_list g1 in
      Ok ({| current_floor := cf; demand_floor := df; start_time := today |}, g2)
  end.

(** The local [current_floor_interval_lag], lines 225-232, in minutes. *)
Definition current_floor_interval_lag (p : params) (c : cursor) : Q :=
  let current_floor_distance := Z.abs (current_floor c - demand_floor c) in
  ((if current_floor_distance <=? 1
    then inject_Z (min_time_interval_seconds p)
    else min2 (inject_Z (max_time_interval_seconds p))
              (inject_Z current_floor_distance * interval_per_floor_seconds p))
   / 60)%Q.

(** The local [next_floor_interval_lag], lines 235-243, in minutes. *)
Definition next_floor_interval_lag (p : params) (c : cursor) (next_floor : Z) : Q :=
  let next_floor_distance := Z.abs (next_floor - demand_floor c) in
  ((if next_floor_distance <=? 1
    then inject_Z (min_time_interval_seconds p)
    else min2 (inject_Z (max_time_interval_seconds p))
              (inject_Z next_floor_distance * interval_per_floor_seconds p))
   / 60)%Q.

(** The local [peak_interval_multiplier], lines 246-252. *)
Definition peak_interval_multiplier (p : params) (c : cursor) : Q :=
  if existsb (fun interval =>
                (start_hour interval <=? hour (start_time c))
                && (hour (start_time c) <? end_hour interval))
             (peak_hours p)
  then peak_multiplier p
  else 1%Q.

(** [calculate_interval_minutes], lines 222-261, with [self.next_floor]
    as an argument. *)
Definition calculate_interval_minutes (p : params) (c : cursor) (next_floor : Z)
    (g : rng) : outcome (Q * rng) :=
  let* (random_minutes, g') :=
    randint (random_minutes_min p) (random_minutes_max p) g in
  Ok ((inject_Z random_minutes * peak_interval_multiplier p c
       + current_floor_interval_lag p c
       + next_floor_interval_lag p c next_floor)%Q, g').

(** The body of the [for] loop of [generate_elevator_states], lines
    271-287: the state it creates, the cursor it leaves. *)
Definition generate_one (fuel : nat) (p : params) (weight_list : list Q)
    (c : cursor) (g : rng) : outcome (generated_state * cursor * rng) :=
  let* (next_floor, g1) := pick_next_door fuel p weight_list c g in
  let* (interval_minutes, g2) := calculate_interval_minutes p c next_floor g1 in
  let* call_datetime :=
    datetime_add (start_time c) (timedelta_minutes interval_minutes) in
  let created :=
    {| currentFloor := current_floor c;
       demandFloor := demand_floor c;
       nextFloor := next_floor;
       date_str := strftime call_datetime;
       callDatetime := call_datetime |} in
  let* (df, g3) := pick_random_floor_weighted p weight_list g2 in
  Ok (created,
      {| current_floor := next_floor; demand_floor := df;
         start_time := call_datetime |},
      g3).

(** The [for] loop, [rows] iterations. *)
Fixpoint generate_rows (fuel : nat) (rows : nat) (p : params)
    (weight_list : list Q) (c : cursor) (g : rng)
  : outcome (list generated_state) :=
  match rows with
  | O => Ok []
  | S rows' =>
      let* (created, c', g') := generate_one fuel p weight_list c g in
      let* others := generate_rows fuel rows' p weight_list c' g' in
      Ok (created :: others)
  end.

(** [generate_elevator_states], lines 263-287: the states created by one
    run, in order. *)
Definition generate_elevator_states (fuel : nat) (file : config_file)
    (last_state : option ElevatorState) (today : datetime) (g : rng)
  : outcome (list generated_state) :=
  let* p := load_elevator_variables file in
  let* weight_list := floor_weights_mapping p in
  let* (c, g0) := obtain_table_last_state p weight_list last_state today g in
  generate_rows fuel (Z.to_nat (rows_generated p)) p weight_list c g0.

(** ** The interval calculator and the timestamp in the words of the
    specification *)

Module Spec.

(** The value of a decimal digit. *)
Definition digit (a : ascii) : option Z :=
  let n := Z.of_nat (nat_of_ascii a) - 48 in
  if (0 <=? n) && (n <=? 9) then Some n else None.

(** The number that a row of digits writes, after [acc]. *)
Fixpoint number (acc : Z) (digits : list ascii) : option Z :=
  match digits with
  | [] => Some acc
  | a :: rest =>
      match digit a with
      | Some d => number (10 * acc + d) rest
      | None => None
      end
  end.

(** The fields of a timestamp ["YYYY-MM-DD HH:MM:SS"]: nineteen
    characters, four digits of year, two of month and of day, a space, two
    digits of hour, of minute and of second, with the separators of the
    format. *)
Definition timestamp_fields (s : string) : option (Z * Z * Z * Z * Z * Z) :=
  match list_ascii_of_string s with
  | [y1; y2; y3; y4; a; m1; m2; b; d1; d2; c; h1; h2; e; n1; n2; f; s1; s2] =>
      if (a =? "-")%char && (b =? "-")%char && (c =? " ")%char
         && (e =? ":")%char && (f =? ":")%char
      then
        match number 0 [y1; y2; y3; y4], number 0 [m1; m2], number 0 [d1; d2],
              number 0 [h1; h2], number 0 [n1; n2], number 0 [s1; s2] with
        | Some year, Some month, Some day, Some hour, Some minute, Some second =>
            Some (year, month, day, hour, minute, second)
        | _, _, _, _, _, _ => None
        end
      else None
  | _ => None
  end.

(** The datetime that a timestamp ["YYYY-MM-DD HH:MM:SS"] stands for;
    [None] for a string that is not such a timestamp. *)
Definition timestamp_datetime (s : string) : option datetime :=
  match timestamp_fields s with
  | Some (year, month, day, hour, minute, second) =>
      match datetime_of year month day hour minute second with
      | Ok t => Some t
      | _ => None
      end
  | None => None
  end.

(** [lag(distance) = (distance <= 1 ? minIntervalSeconds
    : min(maxIntervalSeconds, distance * intervalPerFloorSeconds)) / 60] *)
Definition lag (p : params) (distance : Z) : Q :=
  ((if decide (distance <= 1)%Z
    then inject_Z (min_time_interval_seconds p)
    else Qmin (inject_Z (max_time_interval_seconds p))
              (inject_Z distance * interval_per_floor_seconds p)) / 60)%Q.

(** The hour of [startTime] falls in some window, [start <= hour < end]. *)
Definition in_peak (p : params) (startTime : datetime) : Prop :=
  Exists (fun w => start_hour w <= hour startTime < end_hour w) (peak_hours p).

#[global] Instance in_peak_dec p t : Decision (in_peak p t) :=
  decide (Exists (fun w => start_hour w <= hour t < end_hour w) (peak_hours p)).

(** The random-minutes draw [r], scaled by [peakMultiplier] in a peak
    window and by 1.0 outside. *)
Definition scaledRandomMinutes (p : params) (startTime : datetime) (r : Z) : Q :=
  if decide (in_peak p startTime)
  then (inject_Z r * peak_multiplier p)%Q
  else (inject_Z r * 1)%Q.

(** [scaledRandomMinutes + lag(currentDistance) + lag(nextDistance)] *)
Definition interval (p : params) (c : cursor) (nextFloor : Z) (r : Z) : Q :=
  (scaledRandomMinutes p (start_time c) r
   + lag p (Z.abs (current_floor c - demand_floor c))
   + lag p (Z.abs (nextFloor - demand_floor c)))%Q.

End Spec.

(** ** Tables checked by computation *)

(** Month and day of the zero-based day [r] of a year, against the days
    of the months and the days before each month. *)
Definition month_day_checked (leap : bool) (r : Z) : bool :=
  let (m, d) := month_day (days_in_months leap) 1 r in
  (1 <=? m) && (m <=? 12) && (1 <=? d)
  && (d <=? nth (Z.to_nat (m - 1)) (days_in_months leap) 0)
  && (nth (Z.to_nat (m - 1)) [0; 31; 59; 90; 120; 151; 181; 212; 243; 273; 304; 334] 0
      + (if (2 <? m) && leap then 1 else 0) + d =? r + 1).

(** [str n] is four digits that write [n]. *)
Definition four_digits_checked (n : Z) : bool :=
  match str n with
  | String c1 (String c2 (String c3 (String c4 EmptyString))) =>
      match Spec.number 0 [c1; c2; c3; c4] with
      | Some v => v =? n
      | None => false
      end
  | _ => false
  end.

(** [zfill 2 n] is two digits that write [n]. *)
Definition two_digits_checked (n : Z) : bool :=
  match zfill 2 n with
  | String c1 (String c2 EmptyString) =>
      match Spec.number 0 [c1; c2] with
      | Some v => v =? n
      | None => false
      end
  | _ => false
  end.

(** What the validator establishes about the parameters it returns. *)
Record valid_params (p : params) : Prop := {
  valid_capacities : forall t c, floor_capacities p !! t = Some c -> 0 < c;
  valid_rows : 0 < rows_generated p;
  valid_floor_number : 0 < floor_number p;
  valid_negative : negative_floor_number p <= 0;
  valid_min_interval : 0 < min_time_interval_seconds p;
  valid_max_interval : 0 < max_time_interval_seconds p;
  valid_per_floor : (0 <= interval_per_floor_seconds p)%Q;
  valid_multiplier : (0 <= peak_multiplier p <= 1)%Q
}.

(** A result that is a value or a ZeroDivisionError. *)
Definition value_or_zero_division {A : Type} (o : outcome A) : Prop :=
  (exists a, o = Ok a) \/ o = Raise ZeroDivisionError.

(** A result that is a value or a ValueError. *)
Definition value_or_ValueError {A : Type} (o : outcome A) : Prop :=
  (exists a, o = Ok a) \/ (exists msg, o = Raise (ValueError msg)).

(** The raw weight that line 174 gives a floor of capacity [capacity],
    between the least capacity [lo] and the greatest [hi]. *)
Definition raw_weight (floors lo hi capacity : Z) : Q :=
  (inject_Z 1 / inject_Z floors + inject_Z (capacity - lo) / inject_Z (hi - lo))%Q.

(** The weights that lines 180-184 make of the raw weights. *)
Definition normalized (raws : list Q) : list Q :=
  (fun w => round3 (w / sum raws)) <$> raws.

(** The draws of [pick_next_door] from the generator [g]: [n] draws of the
    demand floor, then [floor], which is another one, leaving [g']. *)
Inductive first_other (p : params) (weight_list : list Q) (c : cursor)
  : rng -> nat -> Z -> rng -> Prop :=
| first_other_now (g g' : rng) (floor : Z) :
    choices (floor_range p) weight_list g = Ok (floor, g') ->
    floor <> demand_floor c ->
    first_other p weight_list c g 0 floor g'
| first_other_later (g g1 g' : rng) (n : nat) (floor : Z) :
    choices (floor_range p) weight_list g = Ok (demand_floor c, g1) ->
    first_other p weight_list c g1 n floor g' ->
    first_other p weight_list c g (S n) floor g'.

(** The chain invariant of a sequence of generated states, with the order
    [later] required between consecutive call datetimes. *)
Definition chained (later : datetime -> datetime -> Prop)
    (states : list generated_state) : Prop :=
  forall (i : nat) (s s' : generated_state),
    states !! i = Some s -> states !! S i = Some s' ->
    currentFloor s' = nextFloor s /\ later (callDatetime s) (callDatetime s').

(** The longest time, in microseconds, that the parameters allow between
    two consecutive states in exact arithmetic: the greatest random
    minutes, unscaled, and twice the greater of the two interval
    settings. *)
Definition longest_step (p : params) : Z :=
  Z.max 0 (random_minutes_max p) * (60 * us_per_second)
  + 2 * Z.max (min_time_interval_seconds p) (max_time_interval_seconds p)
    * us_per_second.


(** ** Sample configurations *)

Module Sample.

(** A configuration document: the building, the number of rows, the
    timing and the random-minutes range. *)
Definition config (types : list (string * json)) (floors negative : Z)
    (rows : json) (min_s max_s : Z) (per_floor multiplier : json)
    (rm_min rm_max : Z) : list (string * json) :=
  [ ("floor_capacities", JDict [("Residential", JInt 10); ("Office", JInt 40)]);
    ("floor_types", JDict types);
    ("rows_generated", rows);
    ("floor_number", JInt floors);
    ("negative_floor_number", JInt negative);
    ("min_time_interval_seconds", JInt min_s);
    ("max_time_interval_seconds", JInt max_s);
    ("interval_per_floor_seconds", per_floor);
    ("peak_hours", JList [JDict [("start", JInt 7); ("end", JInt 9)]]);
    ("peak_multiplier", multiplier);
    ("random_minutes_range", JDict [("min", JInt rm_min); ("max", JInt rm_max)]) ].

(** The members of a document without the one called [key]. *)
Definition without (key : string) (members : list (string * json))
  : list (string * json) :=
  List.filter (fun kv => negb (String.eqb (fst kv) key)) members.

Definition office_at_0 : list (string * json) := [("0", JStr "Office")].

(** Five floors, 0 to 4, the ground floor an office. *)
Definition five_floors : json :=
  JDict (config office_at_0 5 0 (JInt 2) 5 300 (JInt 10) (JFloat (1 # 2)) 1 3).

Definition five_floors_params : params :=
  {| floor_capacities := list_to_map [("Residential", 10); ("Office", 40)];
     floor_types := list_to_map [("0", "Office")];
     rows_generated := 2;
     floor_number := 5;
     negative_floor_number := 0;
     min_time_interval_seconds := 5;
     max_time_interval_seconds := 300;
     interval_per_floor_seconds := 10;
     peak_hours := [{| start_hour := 7; end_hour := 9 |}];
     peak_multiplier := 1 # 2;
     random_minutes_min := 1;
     random_minutes_max := 3 |}.

(** The same building with a minimal interval of 100 seconds, above
    twice the 10 seconds per floor. *)
Definition long_minimum : json :=
  JDict (config office_at_0 5 0 (JInt 2) 100 300 (JInt 10) (JFloat (1 # 2)) 1 3).

(** The same building with no time per floor and no random minutes. *)
Definition no_delay : json :=
  JDict (config office_at_0 5 0 (JInt 2) 5 300 (JInt 0) (JFloat (1 # 2)) 0 0).

(** The same building with a millisecond per floor and no random
    minutes. *)
Definition millisecond_per_floor : json :=
  JDict (config office_at_0 5 0 (JInt 2) 5 300 (JFloat (1 # 1000))
           (JFloat (1 # 2)) 0 0).

(** One row, and random minutes that go back 540 000 000 minutes, some
    1027 years. *)
Definition back_in_time : json :=
  JDict (config office_at_0 5 0 (JInt 1) 5 300 (JInt 10) (JFloat (1 # 2))
           (-540000000) (-540000000)).

(** Ten floors, 0 to 9, the first seven of them offices, and the
    parameters loaded from the document. *)
Definition seven_offices : json :=
  JDict (config [("0", JStr "Office"); ("1", JStr "Office"); ("2", JStr "Office");
                 ("3", JStr "Office"); ("4", JStr "Office"); ("5", JStr "Office");
                 ("6", JStr "Office")] 10 0 (JInt 2) 5 300 (JInt 10)
           (JFloat (1 # 2)) 1 3).

Definition seven_offices_params : params :=
  {| floor_capacities := list_to_map [("Residential", 10); ("Office", 40)];
     floor_types := list_to_map [("0", "Office"); ("1", "Office"); ("2", "Office");
                                 ("3", "Office"); ("4", "Office"); ("5", "Office");
                                 ("6", "Office")];
     rows_generated := 2;
     floor_number := 10;
     negative_floor_number := 0;
     min_time_interval_seconds := 5;
     max_time_interval_seconds := 300;
     interval_per_floor_seconds := 10;
     peak_hours := [{| start_hour := 7; end_hour := 9 |}];
     peak_multiplier := 1 # 2;
     random_minutes_min := 1;
     random_minutes_max := 3 |}.

(** Every floor residential: no entry in [floor_types]. *)
Definition all_residential : json :=
  JDict (config [] 5 0 (JInt 2) 5 300 (JInt 10) (JFloat (1 # 2)) 1 3).

(** A building of one floor. *)
Definition one_floor : json :=
  JDict (config office_at_0 1 0 (JInt 2) 5 300 (JInt 10) (JFloat (1 # 2)) 1 3).

(** Floor 1 of a type that [floor_capacities] does not list. *)
Definition unknown_type : json :=
  JDict (config [("0", JStr "Office"); ("1", JStr "Gym")] 5 0 (JInt 2) 5 300
           (JInt 10) (JFloat (1 # 2)) 1 3).

(** The document of [five_floors] without ["negative_floor_number"],
    without ["interval_per_floor_seconds"], without ["floor_number"]. *)
Definition no_negative_floor_number : json :=
  JDict (without "negative_floor_number"
           (config office_at_0 5 0 (JInt 2) 5 300 (JInt 10) (JFloat (1 # 2)) 1 3)).

Definition no_interval_per_floor : json :=
  JDict (without "interval_per_floor_seconds"
           (config office_at_0 5 0 (JInt 2) 5 300 (JInt 10) (JFloat (1 # 2)) 1 3)).

Definition no_floor_number : json :=
  JDict (without "floor_number"
           (config office_at_0 5 0 (JInt 2) 5 300 (JInt 10) (JFloat (1 # 2)) 1 3)).

(** [rows_generated] given as the JSON boolean [true]. *)
Definition boolean_rows : json :=
  JDict (config office_at_0 5 0 (JBool true) 5 300 (JInt 10) (JFloat (1 # 2)) 1 3).

Definition one_floor_params : params :=
  {| floor_capacities := list_to_map [("Residential", 10); ("Office", 40)];
     floor_types := list_to_map [("0", "Office")];
     rows_generated := 2;
     floor_number := 1;
     negative_floor_number := 0;
     min_time_interval_seconds := 5;
     max_time_interval_seconds := 300;
     interval_per_floor_seconds := 10;
     peak_hours := [{| start_hour := 7; end_hour := 9 |}];
     peak_multiplier := 1 # 2;
     random_minutes_min := 1;
     random_minutes_max := 3 |}.

(** 2024-01-01 00:00:00 *)
Definition new_year_2024 : datetime := 738885 * us_per_day.

(** The last state of an earlier run: the elevator goes to floor 0,
    the demand is on floor 2. *)
Definition last_state : ElevatorState :=
  {| last_current_floor := 3;
     last_demand_floor := 2;
     last_next_floor := 0;
     last_call_datetime := new_year_2024 |}.

Definition at_floor_0 : cursor :=
  {| current_floor := 0; demand_floor := 2; start_time := new_year_2024 |}.

(** The elevator on floor 0 and the demand on floor 0. *)
Definition demand_at_0 : cursor :=
  {| current_floor := 0; demand_floor := 0; start_time := new_year_2024 |}.

(** A generator whose raw numbers count up from 0. *)
Definition counting : rng := {| raw := fun n => n; pos := 0 |}.

(** A generator that plays a script, then zeros. *)
Definition scripted (script : list nat) : rng :=
  {| raw := fun n => nth n script O; pos := 0 |}.

(** Next floor 4, no random minutes, demand floor 2, next floor 0. *)
Definition up_and_down : rng := scripted [4; 0; 2; 0; 0; 0]%nat.

End Sample.

(** * Properties *)

(** ** Results and sequencing *)

Lemma bind_Ok {A B : Type} (m : outcome A) (k : A -> outcome B) (b : B) :
  bind m k = Ok b -> exists a, m = Ok a /\ k a = Ok b.
Proof. destruct m as [a| |]; simpl; [eauto | discriminate | discriminate]. Qed.

(** Take a successful computation apart, one step of the sequence. *)
Ltac invert_bind H :=
  let a := fresh "a" in
  let Ha := fresh "Hstep" in
  apply bind_Ok in H; destruct H as (a & Ha & H).

Example load_five_floors :
  load_elevator_variables (Parsed Sample.five_floors) = Ok Sample.five_floors_params.
Proof. reflexivity. Qed.

(** ** The library functions on known values *)

Example round_half_even_ties :
  round_half_even (1 # 2) = 0 /\ round_half_even (3 # 2) = 2
  /\ round_half_even (5 # 2) = 2 /\ round_half_even (-3 # 2) = -2
  /\ round_half_even (7 # 3) = 2.
Proof. repeat split. Qed.

Example round3_tie : (round3 (625 # 10000) == 62 # 1000)%Q.
Proof. reflexivity. Qed.

Example str_of_floors : str 0 = "0" /\ str (-2) = "-2" /\ str 12 = "12".
Proof. repeat split. Qed.

Example range_with_basements : range (-2) 3 = [-2; -1; 0; 1; 2].
Proof. reflexivity. Qed.

Example min_of_None_alone : py_min [None] = Ok None.
Proof. reflexivity. Qed.

Example min_with_None : py_min [Some 10; None] = Raise TypeError.
Proof. reflexivity. Qed.

(** 363908 is [date(997, 5, 6).toordinal()], 719163 is
    [date(1970, 1, 1).toordinal()], 730120 is
    [date(2000, 1, 1).toordinal()]. *)
Example strftime_known_dates :
  strftime 0 = "1-01-01 00:00:00"
  /\ strftime ((363908 - 1) * us_per_day + 25689 * us_per_second)
     = "997-05-06 07:08:09"
  /\ strftime ((719163 - 1) * us_per_day) = "1970-01-01 00:00:00"
  /\ strftime ((730120 - 1 + 59) * us_per_day + 86399 * us_per_second + 999999)
     = "2000-02-29 23:59:59"
  /\ strftime ((693596 - 1 + 59) * us_per_day) = "1900-03-01 00:00:00"
  /\ strftime (datetime_end - 1) = "9999-12-31 23:59:59".
Proof. repeat split; vm_compute; reflexivity. Qed.

Example hour_of_datetime :
  hour (Sample.new_year_2024 + 7 * us_per_hour + 59 * 60 * us_per_second) = 7.
Proof. reflexivity. Qed.

Example timedelta_rounds_to_microseconds :
  timedelta_minutes (1 # 2) = 30000000
  /\ timedelta_minutes (1 # 120000000) = 0
  /\ timedelta_minutes (3 # 120000000) = 2.
Proof. repeat split. Qed.

Example datetime_add_out_of_range :
  datetime_add (datetime_end - 1) 1 = Raise OverflowError.
Proof. reflexivity. Qed.

Example choices_skips_weightless_floors :
  support [0; 1; 2] [0; 1 # 2; 0]%Q = [1]
  /\ choices [0; 1; 2] [0; 1 # 2; 0]%Q Sample.counting
     = Ok (1, {| raw := fun n => n; pos := 1 |}).
Proof. split; reflexivity. Qed.

(** A total of weights that is not positive, and no weights at all. *)
Example choices_without_total :
  choices [0; 1; 2; 3; 4] [0; 0; 1; 0; -2]%Q Sample.counting
  = Raise (ValueError "Total of weights must be greater than zero")
  /\ choices [0; 1; 2] [0; 0; 0]%Q Sample.counting
     = Raise (ValueError "Total of weights must be greater than zero")
  /\ choices [0; 1; 2] [1; 1]%Q Sample.counting
     = Raise (ValueError "The number of weights does not match the population")
  /\ choices [] [] Sample.counting = Raise IndexError.
Proof. repeat split; reflexivity. Qed.

Example randint_empty_range :
  randint 3 1 Sample.counting = Raise (ValueError "empty range for randrange()").
Proof. reflexivity. Qed.

(** ** Numbers *)

Lemma Qltb_lt (x y : Q) : Qltb x y = true <-> (x < y)%Q.
Proof.
  unfold Qltb. rewrite negb_true_iff, <- not_true_iff_false, Qle_bool_iff.
  split; [apply Qnot_le_lt | apply Qlt_not_le].
Qed.

Lemma Qltb_ge (x y : Q) : Qltb x y = false <-> (y <= x)%Q.
Proof.
  unfold Qltb. rewrite negb_false_iff. apply Qle_bool_iff.
Qed.

(** Python's two-argument [min] is the minimum. *)
Lemma min2_Qmin (a b : Q) : (min2 a b == Qmin a b)%Q.
Proof.
  unfold min2. destruct (Qltb b a) eqn:E.
  - apply Qltb_lt in E. symmetry. apply Q.min_r. lra.
  - apply Qltb_ge in E. symmetry. apply Q.min_l. exact E.
Qed.

Lemma min2_le_l (a b : Q) : (min2 a b <= a)%Q.
Proof. rewrite min2_Qmin. apply Q.le_min_l. Qed.

Lemma min2_le_r (a b : Q) : (min2 a b <= b)%Q.
Proof. rewrite min2_Qmin. apply Q.le_min_r. Qed.

Lemma min2_glb (a b x : Q) : (x <= a)%Q -> (x <= b)%Q -> (x <= min2 a b)%Q.
Proof. intros Ha Hb. rewrite min2_Qmin. apply Q.min_glb; assumption. Qed.

Lemma min2_cap (a b : Q) : (a <= b)%Q -> (min2 a b == a)%Q.
Proof. intros H. rewrite min2_Qmin. apply Q.min_l. exact H. Qed.

(** ** The interval calculator *)

Section IntervalCalculator.

Variable p : params.
Variable c : cursor.






(** The lag of the next floor is constant up to distance 1. *)
Lemma next_floor_lag_near (n : Z) :
  Z.abs (n - demand_floor c) <= 1 ->
  (next_floor_interval_lag p c n == inject_Z (min_time_interval_seconds p) / 60)%Q.
Proof.
  intros H. unfold next_floor_interval_lag.
  destruct (Z.leb_spec (Z.abs (n - demand_floor c)) 1); [reflexivity | lia].
Qed.

Lemma next_floor_lag_far (n : Z) :
  2 <= Z.abs (n - demand_floor c) ->
  (next_floor_interval_lag p c n
   == min2 (inject_Z (max_time_interval_seconds p))
           (inject_Z (Z.abs (n - demand_floor c)) * interval_per_floor_seconds p)
      / 60)%Q.
Proof.
  intros H. unfold next_floor_interval_lag.
  destruct (Z.leb_spec (Z.abs (n - demand_floor c)) 1); [lia | reflexivity].
Qed.

Lemma Qdiv_60_le (x y : Q) : (x <= y)%Q -> (x / 60 <= y / 60)%Q.
Proof.
  intros H. unfold Qdiv. apply Qmult_le_compat_r; [exact H | discriminate].
Qed.

(** C2, as amended.  With a non-negative [interval_per_floor_seconds],
    the lag of the next floor never decreases when the distance to the
    demand floor grows, as long as both distances are at most 1 or both
    are at least 2, or [min_time_interval_seconds] is at most both
    [max_time_interval_seconds] and twice [interval_per_floor_seconds];
    and from distance 2 on it is [max_time_interval_seconds / 60] once
    distance times [interval_per_floor_seconds] reaches the cap. *)
Theorem next_floor_lag_monotone (n1 n2 : Z) :
  (0 <= interval_per_floor_seconds p)%Q ->
  Z.abs (n1 - demand_floor c) <= Z.abs (n2 - demand_floor c) ->
  (Z.abs (n2 - demand_floor c) <= 1
   \/ 2 <= Z.abs (n1 - demand_floor c)
   \/ (min_time_interval_seconds p <= max_time_interval_seconds p
       /\ (inject_Z (min_time_interval_seconds p)
           <= 2 * interval_per_floor_seconds p)%Q)) ->
  (next_floor_interval_lag p c n1 <= next_floor_interval_lag p c n2)%Q
  /\ (2 <= Z.abs (n1 - demand_floor c) ->
      (inject_Z (max_time_interval_seconds p)
       <= inject_Z (Z.abs (n1 - demand_floor c)) * interval_per_floor_seconds p)%Q ->
      (next_floor_interval_lag p c n1
       == inject_Z (max_time_interval_seconds p) / 60)%Q
      /\ (next_floor_interval_lag p c n2
          == inject_Z (max_time_interval_seconds p) / 60)%Q).
Proof.
  intros Hipf Hle Hcase.
  set (d1 := Z.abs (n1 - demand_floor c)) in *.
  set (d2 := Z.abs (n2 - demand_floor c)) in *.
  assert (Hscale : (inject_Z d1 * interval_per_floor_seconds p
                    <= inject_Z d2 * interval_per_floor_seconds p)%Q).
  { apply Qmult_le_compat_r; [| exact Hipf]. rewrite <- Zle_Qle. exact Hle. }
  split.
  - destruct (Z_le_gt_dec d2 1) as [Hnear2 | Hfar2].
    + rewrite !next_floor_lag_near by (fold d1; fold d2; lia). apply Qle_refl.
    + destruct (Z_le_gt_dec d1 1) as [Hnear1 | Hfar1].
      * destruct Hcase as [H | [H | [Hmax Hmin]]]; [lia | lia |].
        rewrite next_floor_lag_near by (fold d1; lia).
        rewrite next_floor_lag_far by (fold d2; lia). fold d2.
        apply Qdiv_60_le, min2_glb.
        -- rewrite <- Zle_Qle. exact Hmax.
        -- assert (H2 : (2 * interval_per_floor_seconds p
                         <= inject_Z d2 * interval_per_floor_seconds p)%Q).
           { apply Qmult_le_compat_r; [| exact Hipf].
             change 2%Q with (inject_Z 2). rewrite <- Zle_Qle. lia. }
           lra.
      * rewrite !next_floor_lag_far by (fold d1; fold d2; lia). fold d1 d2.
        apply Qdiv_60_le, min2_glb; [apply min2_le_l |].
        eapply Qle_trans; [apply min2_le_r | exact Hscale].
  - intros Hfar Hcap.
    rewrite !next_floor_lag_far by (fold d1; fold d2; lia). fold d1 d2.
    split.
    + rewrite min2_cap by exact Hcap. reflexivity.
    + rewrite min2_cap by (eapply Qle_trans; [exact Hcap | exact Hscale]).
      reflexivity.
Qed.

End IntervalCalculator.

(** ** The loader *)

Lemma validate_capacities_positive (members : list (string * json))
    (cs : list (string * Z)) :
  validate_capacities members = Ok cs -> Forall (fun tc => 0 < snd tc) cs.
Proof.
  revert cs. induction members as [| [t v] rest IH]; intros cs H; simpl in H.
  - injection H as <-. constructor.
  - destruct (as_int v) as [z |]; [| discriminate].
    destruct (Z.leb_spec z 0); [discriminate |].
    invert_bind H. injection H as <-. constructor; [simpl; lia | eauto].
Qed.

Lemma positive_int_positive (data : json) (key msg : string) (z : Z) :
  positive_int data key msg = Ok z -> 0 < z.
Proof.
  unfold positive_int. intros H. invert_bind H.
  destruct (as_int a) as [z' |]; [| discriminate].
  destruct (Z.leb_spec z' 0); [discriminate |]. injection H as <-. lia.
Qed.

(** Parameters that pass the validation are in their declared ranges. *)
Lemma validate_valid (data : json) (p : params) :
  validate data = Ok p -> valid_params p.
Proof.
  unfold validate. intros H.
  repeat (let a := fresh "a" in
          let Ha := fresh "Hstep" in
          apply bind_Ok in H; destruct H as (a & Ha & H)).
  destruct a21 as [rm_min rm_max]. injection H as <-.
  apply validate_capacities_positive in Hstep3.
  apply positive_int_positive in Hstep7, Hstep8, Hstep11, Hstep12.
  destruct (as_int a9) as [z |]; [| discriminate].
  destruct (Z.ltb_spec 0 z); [discriminate |]. injection Hstep10 as <-.
  destruct (as_num a13) as [q |]; [| discriminate].
  destruct (Qle_bool 0 q) eqn:Hq; [| discriminate]. injection Hstep14 as <-.
  destruct (as_num a18) as [m |]; [| discriminate].
  destruct (Qle_bool 0 m && Qle_bool m 1) eqn:Hm; [| discriminate].
  injection Hstep19 as <-.
  apply andb_true_iff in Hm as [Hm0 Hm1].
  apply Qle_bool_iff in Hq, Hm0, Hm1.
  split; simpl; try assumption; [| split; assumption].
  intros t c Hlookup. apply elem_of_list_to_map_2 in Hlookup.
  rewrite Forall_forall in Hstep3.
  apply (Hstep3 (t, c)), list_elem_of_In, Hlookup.
Qed.

Lemma load_valid (file : config_file) (p : params) :
  load_elevator_variables file = Ok p -> valid_params p.
Proof.
  destruct file; simpl; [discriminate | discriminate | apply validate_valid].
Qed.

(** A missing or malformed file is reported as a ValueError. *)
Lemma load_unreadable (file : config_file) :
  file = FileNotFound \/ file = JSONDecodeError ->
  exists msg, load_elevator_variables file = Raise (ValueError msg).
Proof. intros [-> | ->]; simpl; eauto. Qed.

(** The nine keys of the presence check are reported as a ValueError when
    one of them is missing. *)
Lemma validate_missing_checked_key (members : list (string * json)) (key : string) :
  key ∈ required_keys -> dict_get members key = None ->
  validate (JDict members) = Raise (ValueError "Invalid JSON structure.").
Proof.
  intros Hkey Hnone. unfold validate.
  assert (Hall : all_in (JDict members) required_keys = Ok false).
  { revert Hkey. generalize required_keys as keys.
    induction keys as [| k rest IH]; intros Hkey; [inversion Hkey |].
    simpl. apply elem_of_cons in Hkey as [<- | Hrest].
    - rewrite Hnone. rewrite bool_decide_eq_false_2; [reflexivity |].
      intros [v Hv]; discriminate.
    - destruct (bool_decide _); simpl; [apply IH, Hrest | reflexivity]. }
  rewrite Hall. reflexivity.
Qed.

Lemma all_in_dict (members : list (string * json)) (keys : list string) :
  exists b, all_in (JDict members) keys = Ok b
            /\ (b = true -> Forall (fun k => is_Some (dict_get members k)) keys).
Proof.
  induction keys as [| k rest (b & Hb & Hall)]; simpl.
  - exists true. split; [reflexivity | constructor].
  - destruct (bool_decide (is_Some (dict_get members k))) eqn:E; simpl.
    + exists b. split; [exact Hb |]. intros ->.
      constructor; [exact (bool_decide_eq_true_1 _ E) | apply Hall; reflexivity].
    + exists false. split; [reflexivity | discriminate].
Qed.

Lemma getitem_present (members : list (string * json)) (key : string) :
  is_Some (dict_get members key) ->
  exists v, getitem (JDict members) key = Ok v.
Proof. intros [v Hv]. simpl. rewrite Hv. eauto. Qed.

Lemma validate_capacities_value_or_ValueError (members : list (string * json)) :
  value_or_ValueError (validate_capacities members).
Proof.
  induction members as [| [t v] rest IH]; simpl; [left; eauto |].
  destruct (as_int v) as [z |]; [| right; eauto].
  destruct (z <=? 0); [right; eauto |].
  destruct IH as [[cs ->] | [msg ->]]; simpl; [left | right]; eauto.
Qed.

Lemma validate_floor_types_value_or_ValueError (members : list (string * json)) :
  value_or_ValueError (validate_floor_types members).
Proof.
  induction members as [| [t v] rest IH]; simpl; [left; eauto |].
  destruct (as_str v) as [z |]; [| right; eauto].
  destruct IH as [[cs ->] | [msg ->]]; simpl; [left | right]; eauto.
Qed.

Lemma positive_int_value_or_ValueError (members : list (string * json))
    (key msg : string) :
  is_Some (dict_get members key) ->
  value_or_ValueError (positive_int (JDict members) key msg).
Proof.
  intros [v Hv]. unfold positive_int. simpl. rewrite Hv. simpl.
  destruct (as_int v) as [z |]; [| right; eauto].
  destruct (z <=? 0); [right | left]; eauto.
Qed.

(** A document without [negative_floor_number] is never accepted, and is
    reported by a ValueError of an earlier check or by the KeyError of
    the lookup. *)
Lemma validate_without_negative_floor_number (members : list (string * json)) :
  dict_get members "negative_floor_number" = None ->
  (exists msg, validate (JDict members) = Raise (ValueError msg))
  \/ validate (JDict members) = Raise (KeyError "negative_floor_number").
Proof.
  intros Hnone. unfold validate.
  destruct (all_in_dict members required_keys) as (b & -> & Hkeys).
  destruct b; [| left; simpl; eauto]. cbn [bind require].
  specialize (Hkeys eq_refl). rewrite Forall_forall in Hkeys.
  assert (Hkey : forall k, k ∈ required_keys -> is_Some (dict_get members k)).
  { intros k Hk. apply Hkeys, list_elem_of_In, Hk. }
  destruct (getitem_present members "floor_capacities") as [fc ->];
    [apply Hkey; set_solver |]. cbn [bind].
  destruct (as_dict fc) as [fc_members |]; [| left; simpl; eauto]. cbn [bind].
  destruct (validate_capacities_value_or_ValueError fc_members)
    as [[cs ->] | [msg ->]]; [| left; simpl; eauto]. cbn [bind].
  destruct (getitem_present members "floor_types") as [ft ->];
    [apply Hkey; set_solver |]. cbn [bind].
  destruct (as_dict ft) as [ft_members |]; [| left; simpl; eauto]. cbn [bind].
  destruct (validate_floor_types_value_or_ValueError ft_members)
    as [[ts ->] | [msg ->]]; [| left; simpl; eauto]. cbn [bind].
  destruct (positive_int_value_or_ValueError members "rows_generated"
              "Invalid 'rows_generated' value.")
    as [[rows ->] | [msg ->]]; [apply Hkey; set_solver | | left; simpl; eauto].
  cbn [bind].
  destruct (positive_int_value_or_ValueError members "floor_number"
              "Invalid 'floor_number' value.")
    as [[floors ->] | [msg ->]]; [apply Hkey; set_solver | | left; simpl; eauto].
  cbn [bind]. right. simpl. rewrite Hnone. reflexivity.
Qed.

(** [interval_per_floor_seconds] is read without a presence check. *)
Lemma validate_missing_interval_per_floor :
  load_elevator_variables (Parsed Sample.no_interval_per_floor)
  = Raise (KeyError "interval_per_floor_seconds").
Proof. reflexivity. Qed.

(** A JSON boolean passes for an int. *)
Lemma validate_boolean_rows :
  exists p, load_elevator_variables (Parsed Sample.boolean_rows) = Ok p
            /\ rows_generated p = 1.
Proof. eexists. split; reflexivity. Qed.

(** C4.  The specification asks for a configuration error when any required key,
    [negative_floor_number] and [interval_per_floor_seconds] included, is
    missing.  For a document that lacks [negative_floor_number] and is
    otherwise valid the loader raises KeyError, not the ValueError with
    which it reports a document that lacks [floor_number]. *)
Theorem load_missing_key_is_KeyError :
  load_elevator_variables (Parsed Sample.no_negative_floor_number)
  = Raise (KeyError "negative_floor_number")
  /\ load_elevator_variables (Parsed Sample.no_floor_number)
     = Raise (ValueError "Invalid JSON structure.").
Proof. split; reflexivity. Qed.

(** ** The interval calculator on sample inputs *)


(** C2, as stated, fails: with [min_time_interval_seconds = 100] and 10
    seconds per floor, the lag at distance 2 (20 seconds) is below the lag
    at distance 1 (100 seconds). *)
Lemma next_floor_lag_can_decrease :
  ~ (forall (file : config_file) (p : params) (c : cursor) (n1 n2 : Z),
       load_elevator_variables file = Ok p ->
       Z.abs (n1 - demand_floor c) <= Z.abs (n2 - demand_floor c) ->
       (next_floor_interval_lag p c n1 <= next_floor_interval_lag p c n2)%Q).
Proof.
  intros H.
  specialize (H (Parsed Sample.long_minimum) _ Sample.at_floor_0 3 4 eq_refl).
  simpl in H. specialize (H ltac:(lia)).
  vm_compute in H. apply H. reflexivity.
Qed.

Lemma next_floor_lag_monotone_witness :
  (0 <= interval_per_floor_seconds Sample.five_floors_params)%Q
  /\ (next_floor_interval_lag Sample.five_floors_params Sample.at_floor_0 3
      <= next_floor_interval_lag Sample.five_floors_params Sample.at_floor_0 4)%Q.
Proof.
  split; [discriminate |].
  apply (next_floor_lag_monotone Sample.five_floors_params Sample.at_floor_0 3 4).
  - discriminate.
  - simpl. lia.
  - right. right. split; [simpl; lia | discriminate].
Defined.

(** ** The weighted floor sampler *)

Section Sampler.

Variable p : params.
Variable weight_list : list Q.
Variable c : cursor.

(** A draw that differs from the demand floor ends the loop. *)
Lemma pick_next_door_returns (fuel : nat) (g g' : rng) (floor : Z) :
  choices (floor_range p) weight_list g = Ok (floor, g') ->
  floor <> demand_floor c ->
  pick_next_door (S fuel) p weight_list c g = Ok (floor, g').
Proof.
  intros Hdraw Hne. simpl. rewrite Hdraw. simpl.
  destruct (Z.eqb_spec floor (demand_floor c)); [contradiction | reflexivity].
Qed.

(** C5.  Whenever [pick_next_door] returns, the floor it returns differs
    from the demand floor; this holds for every floor range, those of at
    least two floors among them, and every weight list. *)
Theorem pick_next_door_excludes_demand (fuel : nat) (g g' : rng) (floor : Z) :
  pick_next_door fuel p weight_list c g = Ok (floor, g') ->
  floor <> demand_floor c.
Proof.
  revert g. induction fuel as [| fuel IH]; intros g H; simpl in H.
  - discriminate.
  - invert_bind H. destruct a as [next_floor g1].
    destruct (Z.eqb_spec next_floor (demand_floor c)) as [Heq | Hne]; simpl in H.
    + exact (IH g1 H).
    + injection H as <- <-. exact Hne.
Qed.

(** A weighted draw returns a floor of the support. *)
Lemma choices_in_support (population : list Z) (g g' : rng) (x : Z) :
  choices population weight_list g = Ok (x, g') ->
  x ∈ support population weight_list.
Proof.
  unfold choices. destruct (negb _); [discriminate |].
  destruct (_ =? _)%nat; [discriminate |].
  destruct (negb _); [discriminate |].
  destruct (support population weight_list) as [| y ys] eqn:E; [discriminate |].
  unfold next_raw. cbv beta iota. intros H. injection H as <- _.
  assert (Hlt : (raw g (pos g) mod length (y :: ys) < length (y :: ys))%nat)
    by (apply Nat.mod_upper_bound; discriminate).
  exact (proj2 (list_elem_of_In _ _) (nth_In (y :: ys) y Hlt)).
Qed.

(** A weighted draw with a positive total and a non-empty support does
    not raise. *)
Lemma choices_returns (population : list Z) (g : rng) :
  length weight_list = length population ->
  (0 < sum weight_list)%Q ->
  support population weight_list <> [] ->
  exists x, choices population weight_list g = Ok (x, snd (next_raw g)).
Proof.
  intros Hlen Htotal Hsup. unfold choices.
  rewrite (proj2 (Nat.eqb_eq _ _) Hlen). simpl.
  destruct (Nat.eqb_spec (length weight_list) 0) as [Hnil | _].
  { apply length_zero_iff_nil in Hnil. rewrite Hnil in Htotal.
    discriminate Htotal. }
  rewrite (proj2 (Qltb_lt _ _) Htotal). simpl.
  destruct (support population weight_list) as [| y ys]; [contradiction |].
  eexists. reflexivity.
Qed.

(** [pick_next_door] returns exactly when some draw is not the demand
    floor, and then with more fuel than draws of the demand floor before
    it. *)
Lemma pick_next_door_enough_fuel (g g' : rng) (n : nat) (floor : Z) :
  first_other p weight_list c g n floor g' ->
  forall fuel : nat,
    (n < fuel)%nat -> pick_next_door fuel p weight_list c g = Ok (floor, g').
Proof.
  induction 1 as [g g' floor Hdraw Hne | g g1 g' n floor Hdraw _ IH];
    intros [| fuel] Hfuel; try lia.
  - apply pick_next_door_returns; assumption.
  - simpl. rewrite Hdraw. simpl. rewrite Z.eqb_refl. simpl.
    apply IH. lia.
Qed.

Lemma pick_next_door_Ok (fuel : nat) (g g' : rng) (floor : Z) :
  pick_next_door fuel p weight_list c g = Ok (floor, g') ->
  exists n : nat, (n < fuel)%nat /\ first_other p weight_list c g n floor g'.
Proof.
  revert g. induction fuel as [| fuel IH]; intros g H; simpl in H.
  - discriminate.
  - invert_bind H. destruct a as [next_floor g1].
    destruct (Z.eqb_spec next_floor (demand_floor c)) as [Heq | Hne]; simpl in H.
    + destruct (IH g1 H) as (n & Hn & Hfirst). exists (S n).
      split; [lia |]. eapply first_other_later; [| exact Hfirst].
      rewrite <- Heq. exact Hstep.
    + injection H as <- <-. exists 0%nat.
      split; [lia |]. apply first_other_now; assumption.
Qed.

(** When the demand floor is the only floor a draw can return, no
    amount of fuel lets [pick_next_door] return. *)
Lemma pick_next_door_no_other_floor (fuel : nat) (g : rng) :
  length weight_list = length (floor_range p) ->
  (0 < sum weight_list)%Q ->
  support (floor_range p) weight_list <> [] ->
  (forall x, x ∈ support (floor_range p) weight_list -> x = demand_floor c) ->
  pick_next_door fuel p weight_list c g = OutOfFuel.
Proof.
  intros Hlen Htotal Hsup Honly. revert g.
  induction fuel as [| fuel IH]; intros g; simpl; [reflexivity |].
  destruct (choices_returns (floor_range p) g Hlen Htotal Hsup) as [x Hx].
  rewrite Hx. simpl.
  rewrite (Honly x (choices_in_support _ _ _ _ Hx)).
  rewrite Z.eqb_refl. simpl. apply IH.
Qed.

(** C6.  The specification asks [pick_next_door] to end on every input, a range
    of one floor included.  On a range of one floor with a positive
    weight, when that floor is the demand floor, the loop does not end:
    whatever the fuel and the random numbers, it is still running. *)
Theorem pick_next_door_single_floor_loops (fuel : nat) (g : rng) (w : Q) :
  floor_number p = negative_floor_number p + 1 ->
  demand_floor c = negative_floor_number p ->
  weight_list = [w] -> (0 < w)%Q ->
  pick_next_door fuel p weight_list c g = OutOfFuel.
Proof.
  intros Hone Hdemand Hw Hpos.
  assert (Hrange : floor_range p = [negative_floor_number p]).
  { unfold floor_range, range. rewrite Hone.
    replace (negative_floor_number p + 1 - negative_floor_number p) with 1 by lia.
    reflexivity. }
  assert (Hsup : support (floor_range p) weight_list = [negative_floor_number p]).
  { rewrite Hrange, Hw. unfold support. simpl.
    rewrite (proj2 (Qltb_lt 0 w) Hpos). reflexivity. }
  apply pick_next_door_no_other_floor.
  - rewrite Hrange, Hw. reflexivity.
  - rewrite Hw. unfold sum. simpl. lra.
  - rewrite Hsup. discriminate.
  - rewrite Hsup. intros x Hx. apply list_elem_of_singleton in Hx. congruence.
Qed.

End Sampler.

Lemma pick_next_door_excludes_demand_witness :
  pick_next_door 3 Sample.five_floors_params [0.6; 0.1; 0.1; 0.1; 0.1]%Q
    Sample.at_floor_0 (Sample.scripted [2; 2; 4]%nat)
  = Ok (4, {| raw := fun n => nth n [2; 2; 4]%nat O; pos := 3 |})
  /\ 4 <> demand_floor Sample.at_floor_0.
Proof.
  split; [reflexivity |].
  apply (pick_next_door_excludes_demand Sample.five_floors_params
           [0.6; 0.1; 0.1; 0.1; 0.1]%Q Sample.at_floor_0 3
           (Sample.scripted [2; 2; 4]%nat)
           {| raw := fun n => nth n [2; 2; 4]%nat O; pos := 3 |} 4).
  reflexivity.
Defined.

Example load_one_floor :
  load_elevator_variables (Parsed Sample.one_floor) = Ok Sample.one_floor_params.
Proof. reflexivity. Qed.

Lemma pick_next_door_single_floor_loops_witness :
  pick_next_door 1000 Sample.one_floor_params [1%Q] Sample.demand_at_0
    Sample.counting
  = OutOfFuel.
Proof.
  apply (pick_next_door_single_floor_loops Sample.one_floor_params [1%Q]
           Sample.demand_at_0 1000 Sample.counting 1%Q);
    reflexivity.
Defined.

(** ** The floor-weight derivation *)

Lemma for_each_Ok {A B : Type} (f : A -> outcome B) (l : list A) (ys : list B) :
  for_each f l = Ok ys -> Forall2 (fun x y => f x = Ok y) l ys.
Proof.
  revert ys. induction l as [| x rest IH]; intros ys H; simpl in H.
  - injection H as <-. constructor.
  - invert_bind H. invert_bind H. injection H as <-.
    constructor; [assumption | apply IH; assumption].
Qed.

(** [min] and [max] of a list that holds [None] next to another value. *)
Lemma min_from_None (cur : pyval) (rest : list pyval) :
  (cur = None /\ rest <> []) \/ None ∈ rest ->
  min_from cur rest = Raise TypeError.
Proof.
  revert cur. induction rest as [| v rest IH]; intros cur H.
  - destruct H as [[_ H] | H]; [contradiction | inversion H].
  - simpl. destruct v as [y |]; [| reflexivity].
    destruct cur as [x |]; [| reflexivity]. simpl.
    apply IH. right.
    destruct H as [[H _] | H]; [discriminate |].
    apply elem_of_cons in H as [H | H]; [discriminate | exact H].
Qed.

Lemma max_from_None (cur : pyval) (rest : list pyval) :
  (cur = None /\ rest <> []) \/ None ∈ rest ->
  max_from cur rest = Raise TypeError.
Proof.
  revert cur. induction rest as [| v rest IH]; intros cur H.
  - destruct H as [[_ H] | H]; [contradiction | inversion H].
  - simpl. destruct cur as [x |]; [| reflexivity].
    destruct v as [y |]; [| reflexivity]. simpl.
    apply IH. right.
    destruct H as [[H _] | H]; [discriminate |].
    apply elem_of_cons in H as [H | H]; [discriminate | exact H].
Qed.

(** [min] and [max] of a list of equal ints. *)
Lemma min_from_all_equal (k : Z) (rest : list pyval) :
  Forall (fun v => v = Some k) rest -> min_from (Some k) rest = Ok (Some k).
Proof.
  induction 1 as [| v rest -> _ IH]; simpl; [reflexivity |].
  rewrite Z.ltb_irrefl. exact IH.
Qed.

Lemma max_from_all_equal (k : Z) (rest : list pyval) :
  Forall (fun v => v = Some k) rest -> max_from (Some k) rest = Ok (Some k).
Proof.
  induction 1 as [| v rest -> _ IH]; simpl; [reflexivity |].
  rewrite Z.ltb_irrefl. exact IH.
Qed.

Lemma floor_range_nonempty (p : params) :
  negative_floor_number p < floor_number p ->
  exists rest, floor_range p = negative_floor_number p :: rest.
Proof.
  intros H. unfold floor_range, range. rewrite seqZ_cons by lia. eauto.
Qed.

(** C3.  The specification asks for a defined fallback when every floor resolves
    to the same capacity.  The derivation has none: for parameters the
    loader accepts, when every floor of the range has the capacity [k],
    [floor_weights_mapping] raises ZeroDivisionError. *)
Theorem floor_weights_mapping_equal_capacities (file : config_file) (p : params)
    (k : Z) :
  load_elevator_variables file = Ok p ->
  (forall floor, floor ∈ floor_range p -> floor_capacity p floor = Some k) ->
  floor_weights_mapping p = Raise ZeroDivisionError.
Proof.
  intros Hload Hsame. apply load_valid in Hload as [].
  destruct (floor_range_nonempty p ltac:(lia)) as [rest Hrange].
  unfold floor_weights_mapping. rewrite Hrange. rewrite fmap_cons.
  assert (Hfirst : floor_capacity p (negative_floor_number p) = Some k).
  { apply Hsame. rewrite Hrange. apply elem_of_cons. left. reflexivity. }
  assert (Hrest : Forall (fun v => v = Some k) (floor_capacity p <$> rest)).
  { apply Forall_fmap, Forall_forall. intros x Hx. apply Hsame.
    rewrite Hrange. apply elem_of_cons. right. apply list_elem_of_In, Hx. }
  rewrite Hfirst. unfold py_min, py_max.
  rewrite (min_from_all_equal k _ Hrest), (max_from_all_equal k _ Hrest). simpl.
  unfold py_truediv at 1.
  destruct (Z.eqb_spec (floor_number p) 0) as [H0 | _]; [lia |]. simpl.
  rewrite Z.sub_diag. reflexivity.
Qed.

Lemma floor_weights_mapping_equal_capacities_witness :
  exists p,
    load_elevator_variables (Parsed Sample.all_residential) = Ok p
    /\ (forall floor, floor ∈ floor_range p -> floor_capacity p floor = Some 10)
    /\ floor_weights_mapping p = Raise ZeroDivisionError.
Proof.
  eexists. split; [reflexivity |].
  assert (Hsame : forall floor,
             floor ∈ [0; 1; 2; 3; 4] ->
             floor_capacities Sample.five_floors_params
               !! default "Residential" ((∅ : gmap string string) !! str floor)
             = Some 10).
  { intros floor Hin. rewrite lookup_empty. reflexivity. }
  split; [exact Hsame |].
  exact (floor_weights_mapping_equal_capacities
           (Parsed Sample.all_residential) _ 10 eq_refl Hsame).
Defined.

(** A building of one floor has one capacity: the derivation raises
    before any floor is drawn. *)
Lemma floor_weights_mapping_one_floor :
  floor_weights_mapping Sample.one_floor_params = Raise ZeroDivisionError.
Proof. reflexivity. Qed.

(** [min] and [max] of a list of ints. *)
Lemma min_from_ints (x : Z) (zs : list Z) :
  min_from (Some x) (Some <$> zs) = Ok (Some (foldl Z.min x zs)).
Proof.
  revert x. induction zs as [| z zs IH]; intros x; simpl; [reflexivity |].
  destruct (Z.ltb_spec z x); rewrite IH; do 2 f_equal; f_equal; lia.
Qed.

Lemma max_from_ints (x : Z) (zs : list Z) :
  max_from (Some x) (Some <$> zs) = Ok (Some (foldl Z.max x zs)).
Proof.
  revert x. induction zs as [| z zs IH]; intros x; simpl; [reflexivity |].
  destruct (Z.ltb_spec x z); rewrite IH; do 2 f_equal; f_equal; lia.
Qed.

Lemma foldl_min_le (x : Z) (zs : list Z) :
  foldl Z.min x zs <= x /\ Forall (fun z => foldl Z.min x zs <= z) zs.
Proof.
  revert x. induction zs as [| z zs IH]; intros x; simpl.
  - split; [lia | constructor].
  - destruct (IH (Z.min x z)) as [Hx Hzs].
    split; [lia | constructor; [lia | exact Hzs]].
Qed.

Lemma foldl_max_ge (x : Z) (zs : list Z) :
  x <= foldl Z.max x zs /\ Forall (fun z => z <= foldl Z.max x zs) zs.
Proof.
  revert x. induction zs as [| z zs IH]; intros x; simpl.
  - split; [lia | constructor].
  - destruct (IH (Z.max x z)) as [Hx Hzs].
    split; [lia | constructor; [lia | exact Hzs]].
Qed.

Lemma for_each_value_or_zero_division {A B : Type} (f : A -> outcome B)
    (l : list A) :
  Forall (fun x => value_or_zero_division (f x)) l ->
  value_or_zero_division (for_each f l).
Proof.
  induction 1 as [| x rest [[y Hy] | Hx] _ IH]; simpl.
  - left. eauto.
  - rewrite Hy. simpl.
    destruct IH as [[ys Hys] | Hrest]; [rewrite Hys | rewrite Hrest]; simpl.
    + left. eauto.
    + right. reflexivity.
  - rewrite Hx. right. reflexivity.
Qed.

Lemma py_truediv_value_or_zero_division (a b : Z) :
  value_or_zero_division (py_truediv a b).
Proof.
  unfold py_truediv. destruct (b =? 0); [right | left; eexists]; reflexivity.
Qed.

Lemma py_fdiv_value_or_zero_division (a b : Q) :
  value_or_zero_division (py_fdiv a b).
Proof.
  unfold py_fdiv. destruct (Qeq_bool b 0); [right | left; eexists]; reflexivity.
Qed.

(** A list of ints and [None]s holds a [None] or is a list of ints. *)
Lemma pyvals_None_or_ints (vals : list pyval) :
  None ∈ vals \/ exists zs, vals = Some <$> zs.
Proof.
  induction vals as [| [z |] vals [IH | [zs ->]]].
  - right. exists []. reflexivity.
  - left. apply elem_of_cons. right. exact IH.
  - right. exists (z :: zs). reflexivity.
  - left. apply elem_of_cons. left. reflexivity.
  - left. apply elem_of_cons. left. reflexivity.
Qed.

(** C10.  For parameters that passed the validation, the weight
    derivation fails with TypeError exactly when some floor of the range
    resolves to a floor-type label (its entry in [floor_types], or
    "Residential") that is not a key of [floor_capacities]: the lookup
    yields [None], and the validation lets such parameters through. *)
Theorem floor_weights_mapping_TypeError (file : config_file) (p : params) :
  load_elevator_variables file = Ok p ->
  floor_weights_mapping p = Raise TypeError
  <-> exists floor, floor ∈ floor_range p /\ floor_capacity p floor = None.
Proof.
  intros Hload. apply load_valid in Hload as [].
  destruct (floor_range_nonempty p ltac:(lia)) as [rest Hrange].
  assert (Hfn : (floor_number p =? 0) = false) by (apply Z.eqb_neq; lia).
  split.
  - (* a TypeError comes from a None *)
    intros Herr.
    destruct (pyvals_None_or_ints (floor_capacity p <$> floor_range p))
      as [Hnone | [zs Hzs]].
    + apply list_elem_of_fmap in Hnone as (floor & Hcap & Hin). eauto.
    + exfalso. revert Herr. unfold floor_weights_mapping. rewrite Hzs.
      destruct zs as [| z zs]; [rewrite Hrange in Hzs; discriminate |].
      rewrite fmap_cons. unfold py_min, py_max.
      rewrite min_from_ints, max_from_ints.
      set (lo := foldl Z.min z zs). set (hi := foldl Z.max z zs).
      unfold py_truediv at 1. rewrite Hfn. cbn [bind].
      rewrite <- fmap_cons.
      match goal with
      | |- bind (for_each ?f ?l) _ = _ -> _ =>
          assert (Hraw : value_or_zero_division (for_each f l))
      end.
      { apply for_each_value_or_zero_division, Forall_fmap, Forall_forall.
        intros x _. simpl.
        destruct (py_truediv_value_or_zero_division (x - lo) (hi - lo))
          as [[q ->] | ->]; [left; eexists | right]; reflexivity. }
      destruct Hraw as [[raws ->] | ->]; [| discriminate]. cbn [bind].
      match goal with
      | |- for_each ?f ?l = _ -> _ =>
          assert (Hnorm : value_or_zero_division (for_each f l))
      end.
      { apply for_each_value_or_zero_division, Forall_forall. intros w _.
        destruct (py_fdiv_value_or_zero_division w (sum raws))
          as [[q ->] | ->]; [left; eexists | right]; reflexivity. }
      destruct Hnorm as [[ws ->] | ->]; discriminate.
  - (* a None gives a TypeError *)
    intros (floor & Hin & Hcap).
    unfold floor_weights_mapping. rewrite Hrange, fmap_cons.
    rewrite Hrange in Hin. apply elem_of_cons in Hin as [-> | Hin].
    + rewrite Hcap. destruct rest as [| x rest].
      * simpl. unfold py_truediv. rewrite Hfn. reflexivity.
      * unfold py_min. rewrite min_from_None; [reflexivity |].
        left. split; [reflexivity | discriminate].
    + unfold py_min. rewrite min_from_None; [reflexivity |].
      right. apply list_elem_of_fmap. eauto.
Qed.

Lemma floor_weights_mapping_TypeError_witness :
  exists p,
    load_elevator_variables (Parsed Sample.unknown_type) = Ok p
    /\ (floor_weights_mapping p = Raise TypeError
        <-> exists floor, floor ∈ floor_range p /\ floor_capacity p floor = None).
Proof.
  eexists. split; [reflexivity |].
  exact (floor_weights_mapping_TypeError (Parsed Sample.unknown_type) _ eq_refl).
Defined.

(** The validation accepts a document whose [floor_types] names a type
    without a capacity; the derivation then raises TypeError. *)
Lemma unknown_type_passes_validation :
  exists p,
    load_elevator_variables (Parsed Sample.unknown_type) = Ok p
    /\ floor_capacity p 1 = None
    /\ floor_weights_mapping p = Raise TypeError.
Proof. eexists. repeat split; reflexivity. Qed.

(** ** Rounding and sums *)

Lemma round_half_even_close (q : Q) :
  (Qabs (inject_Z (round_half_even q) - q) <= 1 # 2)%Q.
Proof.
  unfold round_half_even.
  pose proof (Qfloor_le q) as Hlo. pose proof (Qlt_floor q) as Hhi.
  rewrite inject_Z_plus in Hhi. change (inject_Z 1) with 1%Q in Hhi.
  apply Qabs_Qle_condition.
  destruct (q - inject_Z (Qfloor q) ?= 1 # 2)%Q eqn:E.
  - apply Qeq_alt in E.
    destruct (Z.even (Qfloor q));
      [| rewrite inject_Z_plus; change (inject_Z 1) with 1%Q]; lra.
  - apply Qlt_alt in E. lra.
  - apply Qgt_alt in E. rewrite inject_Z_plus. change (inject_Z 1) with 1%Q. lra.
Qed.

(** Rounding to 3 decimals moves a number by at most 0.0005. *)
Lemma round3_close (x : Q) : (Qabs (round3 x - x) <= 5 # 10000)%Q.
Proof.
  unfold round3. pose proof (round_half_even_close (x * 1000)) as H.
  apply Qabs_Qle_condition in H. apply Qabs_Qle_condition.
  set (k := inject_Z (round_half_even (x * 1000))) in *.
  assert (Hdiv : (k / 1000 == k * (1 # 1000))%Q) by reflexivity.
  rewrite Hdiv. lra.
Qed.

(** Rounding to the nearest integer does not go below an integer that the
    number has reached. *)
Lemma round_half_even_lower (q : Q) (k : Z) :
  (inject_Z k <= q)%Q -> k <= round_half_even q.
Proof.
  intros H. unfold round_half_even.
  assert (Hfloor : k <= Qfloor q).
  { rewrite <- (Qfloor_Z k). apply Qfloor_resp_le, H. }
  destruct (q - inject_Z (Qfloor q) ?= 1 # 2)%Q; [destruct (Z.even _) | |]; lia.
Qed.

Lemma foldl_Qplus (a : Q) (l : list Q) : (foldl Qplus a l == a + sum l)%Q.
Proof.
  unfold sum. revert a. induction l as [| x l IH]; intros a; simpl.
  - lra.
  - rewrite (IH (a + x)%Q), (IH (0 + x)%Q). lra.
Qed.

Lemma sum_cons (x : Q) (l : list Q) : (sum (x :: l) == x + sum l)%Q.
Proof. unfold sum at 1. simpl. rewrite foldl_Qplus. lra. Qed.

Lemma sum_nonneg (l : list Q) :
  Forall (fun y => 0 <= y)%Q l -> (0 <= sum l)%Q.
Proof.
  induction 1 as [| y rest Hy _ IH]; [discriminate |].
  rewrite sum_cons. lra.
Qed.

Lemma sum_scaled (t : Q) (l : list Q) :
  (sum ((fun w => w / t) <$> l) == sum l / t)%Q.
Proof.
  induction l as [| x l IH].
  - reflexivity.
  - rewrite fmap_cons, !sum_cons, IH. unfold Qdiv. ring.
Qed.

(** The sum of numbers rounded to 3 decimals is within 0.0005 per number
    of the sum of the numbers. *)
Lemma sum_round3_close (l : list Q) :
  (Qabs (sum (round3 <$> l) - sum l)
   <= inject_Z (Z.of_nat (length l)) * (5 # 10000))%Q.
Proof.
  apply Qabs_Qle_condition.
  induction l as [| x l IH].
  - split; discriminate.
  - rewrite fmap_cons, !sum_cons. cbn [length].
    rewrite Nat2Z.inj_succ, <- Z.add_1_r, inject_Z_plus.
    change (inject_Z 1) with 1%Q.
    pose proof (round3_close x) as Hx. apply Qabs_Qle_condition in Hx.
    lra.
Qed.

(** ** The sum of the floor weights *)

(** The normalizing step divides by a total that is not zero. *)
Lemma py_fdiv_Ok (a b q : Q) :
  py_fdiv a b = Ok q -> ~ (b == 0)%Q /\ q = (a / b)%Q.
Proof.
  unfold py_fdiv. destruct (Qeq_bool b 0) eqn:E; [discriminate |].
  intros H. injection H as <-. split; [| reflexivity].
  intros Hb. apply Qeq_bool_iff in Hb. congruence.
Qed.

Lemma normalized_weights (total : Q) (raws weights : list Q) :
  for_each (fun weight => let* w := py_fdiv weight total in Ok (round3 w)) raws
  = Ok weights ->
  weights = round3 <$> ((fun w => w / total)%Q <$> raws)
  /\ (raws <> [] -> ~ (total == 0)%Q).
Proof.
  intros H. apply for_each_Ok in H.
  induction H as [| w y raws weights Hw _ [IH _]].
  - split; [reflexivity | congruence].
  - invert_bind Hw. injection Hw as <-.
    apply py_fdiv_Ok in Hstep as [Hne ->].
    split; [rewrite IH; reflexivity | intros _; exact Hne].
Qed.

(** In exact arithmetic, for parameters that passed the validation and
    for which the derivation is defined, the floor weights, each the raw
    weight divided by the sum of the raw weights and rounded to 3 decimals,
    sum to 1.0 within 0.0005 per floor; there is one weight per floor of
    the range. *)
Lemma exact_floor_weights_sum (file : config_file) (p : params) (weights : list Q) :
  load_elevator_variables file = Ok p ->
  floor_weights_mapping p = Ok weights ->
  (Qabs (sum weights - 1) <= inject_Z (Z.of_nat (length weights)) * (5 # 10000))%Q
  /\ length weights = length (floor_range p).
Proof.
  intros Hload H. apply load_valid in Hload as [].
  destruct (floor_range_nonempty p ltac:(lia)) as [rest Hrange].
  unfold floor_weights_mapping in H.
  do 4 invert_bind H.
  rename a2 into raws.
  pose proof (for_each_Ok _ _ _ Hstep2) as Hlen. apply Forall2_length in Hlen.
  rewrite length_fmap in Hlen.
  apply normalized_weights in H as [-> Htotal].
  assert (Hne : ~ (sum raws == 0)%Q).
  { apply Htotal. intros ->. rewrite Hrange in Hlen. discriminate. }
  split; [| rewrite !length_fmap; congruence].
  assert (Hone : (sum ((fun w => w / sum raws)%Q <$> raws) == 1)%Q).
  { rewrite sum_scaled. field. exact Hne. }
  pose proof (sum_round3_close ((fun w => w / sum raws)%Q <$> raws)) as Hclose.
  rewrite Hone in Hclose. rewrite !length_fmap in *. exact Hclose.
Qed.

(** ** When the floor weights are defined *)

Lemma for_each_fmap {A B : Type} (f : A -> outcome B) (h : A -> B) (l : list A) :
  Forall (fun x => f x = Ok (h x)) l -> for_each f l = Ok (h <$> l).
Proof.
  induction 1 as [| x rest Hx _ IH]; simpl; [reflexivity |].
  rewrite Hx, IH. reflexivity.
Qed.

Lemma sum_positive (l : list Q) :
  Forall (fun x => 0 < x)%Q l -> l <> [] -> (0 < sum l)%Q.
Proof.
  induction 1 as [| x rest Hx Hrest IH]; intros Hne; [contradiction |].
  rewrite sum_cons. destruct rest as [| y rest].
  - change (sum []) with 0%Q. lra.
  - assert (0 < sum (y :: rest))%Q by (apply IH; discriminate). lra.
Qed.

(** The raw weight of a capacity between the least and the greatest. *)
Lemma raw_weight_positive (floors lo hi z : Z) :
  0 < floors -> lo <= z -> lo < hi ->
  (0 < inject_Z 1 / inject_Z floors + inject_Z (z - lo) / inject_Z (hi - lo))%Q.
Proof.
  intros Hf Hz Hlohi.
  assert (H1 : (0 < inject_Z 1 / inject_Z floors)%Q).
  { apply Qlt_shift_div_l; [change 0%Q with (inject_Z 0); rewrite <- Zlt_Qlt; lia |].
    rewrite Qmult_0_l. reflexivity. }
  assert (H2 : (0 <= inject_Z (z - lo) / inject_Z (hi - lo))%Q).
  { apply Qle_shift_div_l; [change 0%Q with (inject_Z 0); rewrite <- Zlt_Qlt; lia |].
    rewrite Qmult_0_l. change 0%Q with (inject_Z 0). rewrite <- Zle_Qle. lia. }
  lra.
Qed.

(** The weights of a range whose floors all have a capacity, not all
    the same. *)
Lemma floor_weights_mapping_ints (p : params) (z : Z) (zs : list Z) :
  0 < floor_number p ->
  floor_capacity p <$> floor_range p = Some <$> z :: zs ->
  foldl Z.min z zs < foldl Z.max z zs ->
  floor_weights_mapping p
  = Ok (normalized (raw_weight (floor_number p) (foldl Z.min z zs)
                      (foldl Z.max z zs) <$> z :: zs)).
Proof.
  intros Hfloors Hzs Hlohi.
  unfold floor_weights_mapping. rewrite Hzs.
  rewrite fmap_cons. unfold py_min, py_max.
  rewrite min_from_ints, max_from_ints.
  set (lo := foldl Z.min z zs) in *. set (hi := foldl Z.max z zs) in *.
  assert (Hbounds : Forall (fun x => lo <= x <= hi) (z :: zs)).
  { destruct (foldl_min_le z zs) as [Hm Hms], (foldl_max_ge z zs) as [HM HMs].
    constructor; [subst lo hi; lia |].
    apply Forall_forall. intros x Hx. rewrite Forall_forall in Hms, HMs.
    split; [apply Hms | apply HMs]; exact Hx. }
  unfold py_truediv at 1.
  destruct (Z.eqb_spec (floor_number p) 0) as [H0 | _]; [lia |]. cbn [bind].
  rewrite <- fmap_cons.
  rewrite (for_each_fmap _ (fun v : pyval =>
                              raw_weight (floor_number p) lo hi (default 0 v))).
  2:{ apply Forall_fmap, Forall_forall. intros x _. simpl.
      unfold py_truediv.
      destruct (Z.eqb_spec (hi - lo) 0) as [H0 | _]; [lia | reflexivity]. }
  cbn [bind]. rewrite <- list_fmap_compose.
  change ((fun v : pyval => raw_weight (floor_number p) lo hi (default 0 v)) ∘ Some)
    with (raw_weight (floor_number p) lo hi).
  set (raws := raw_weight (floor_number p) lo hi <$> z :: zs).
  assert (Hpos : (0 < sum raws)%Q).
  { apply sum_positive; [| discriminate].
    apply Forall_fmap. eapply Forall_impl; [| exact Hbounds].
    intros x Hx. cbv beta in Hx. simpl. apply raw_weight_positive; lia. }
  apply for_each_fmap.
  apply Forall_forall. intros w _. unfold py_fdiv.
  destruct (Qeq_bool (sum raws) 0) eqn:E; [| reflexivity].
  apply Qeq_bool_iff in E. lra.
Qed.

(** For parameters that passed the validation, the derivation returns
    weights when every floor of the range has a capacity and two floors
    have different ones. *)
Lemma floor_weights_mapping_defined (file : config_file) (p : params) :
  load_elevator_variables file = Ok p ->
  (forall floor, floor ∈ floor_range p -> is_Some (floor_capacity p floor)) ->
  (exists f1 f2, f1 ∈ floor_range p /\ f2 ∈ floor_range p
                 /\ floor_capacity p f1 <> floor_capacity p f2) ->
  exists weights, floor_weights_mapping p = Ok weights.
Proof.
  intros Hload Hknown (f1 & f2 & Hf1 & Hf2 & Hdiff).
  apply load_valid in Hload as [].
  destruct (pyvals_None_or_ints (floor_capacity p <$> floor_range p))
    as [Hnone | [zs Hzs]].
  { apply list_elem_of_fmap in Hnone as (floor & Hcap & Hin).
    destruct (Hknown floor Hin) as [z Hz]. congruence. }
  assert (Hin : forall f, f ∈ floor_range p ->
                          exists z, floor_capacity p f = Some z /\ z ∈ zs).
  { intros f Hf.
    assert (Hmem : floor_capacity p f ∈ (Some <$> zs : list pyval)).
    { rewrite <- Hzs. apply list_elem_of_fmap. eauto. }
    apply list_elem_of_fmap in Hmem as (z & Hz & Hzin). eauto. }
  destruct (Hin f1 Hf1) as (z1 & Hz1 & Hin1), (Hin f2 Hf2) as (z2 & Hz2 & Hin2).
  assert (Hne : z1 <> z2) by congruence.
  destruct zs as [| z zs]; [inversion Hin1 |].
  eexists. apply (floor_weights_mapping_ints p z zs); [assumption | exact Hzs |].
  destruct (foldl_min_le z zs) as [Hm Hms], (foldl_max_ge z zs) as [HM HMs].
  rewrite Forall_forall in Hms, HMs.
  apply elem_of_cons in Hin1 as [-> | Hin1], Hin2 as [-> | Hin2];
    try apply list_elem_of_In in Hin1; try apply list_elem_of_In in Hin2;
    try specialize (Hms _ Hin1) as Hlo1; try specialize (HMs _ Hin1) as Hhi1;
    try specialize (Hms _ Hin2) as Hlo2; try specialize (HMs _ Hin2) as Hhi2;
    lia.
Qed.

(** In exact arithmetic the bound of 0.0005 per floor is reached: eight
    floors, one of them an office, have the weights 0.5625 and seven times
    0.0625, which round to 0.562 and 0.062. *)
Example exact_floor_weights_sum_tight :
  exists weights,
    floor_weights_mapping
      {| floor_capacities := list_to_map [("Residential", 10); ("Office", 40)];
         floor_types := list_to_map [("0", "Office")];
         rows_generated := 1; floor_number := 8; negative_floor_number := 0;
         min_time_interval_seconds := 5; max_time_interval_seconds := 300;
         interval_per_floor_seconds := 10; peak_hours := [];
         peak_multiplier := 1; random_minutes_min := 1; random_minutes_max := 1 |}
    = Ok weights
    /\ weights = [0.562; 0.062; 0.062; 0.062; 0.062; 0.062; 0.062; 0.062]%Q
    /\ (Qabs (sum weights - 1) == 8 * (5 # 10000))%Q.
Proof. eexists. split; [vm_compute; reflexivity |]. split; reflexivity. Qed.

(** ** The floor weights in binary64 *)

Lemma two_pow_pos (e : Z) : (0 < 2 ^ e)%Q.
Proof. apply Qpower_0_lt. reflexivity. Qed.

Lemma two_pow_succ (e : Z) : (2 ^ (e + 1) == 2 * 2 ^ e)%Q.
Proof. rewrite Qpower_plus by discriminate. change (2 ^ 1)%Q with 2%Q. lra. Qed.

Lemma two_pow_log2 (n : Z) :
  0 < n -> (2 ^ Z.log2 n <= inject_Z n < 2 * 2 ^ Z.log2 n)%Q.
Proof.
  intros Hn. destruct (Z.log2_spec n Hn) as [Hlo Hhi].
  pose proof (Z.log2_nonneg n) as Hnonneg.
  rewrite <- two_pow_succ.
  change 2%Q with (inject_Z 2).
  rewrite <- !Zpower_Qpower by lia.
  rewrite <- Zle_Qle, <- Zlt_Qlt. unfold Z.succ in Hhi. lia.
Qed.

(** The binade of a number brackets its absolute value. *)
Lemma binade_spec (x : Q) :
  ~ (x == 0)%Q ->
  (2 ^ Binary64.binade x <= Qabs x < 2 * 2 ^ Binary64.binade x)%Q.
Proof.
  intros Hx. unfold Binary64.binade.
  set (n := Z.abs (Qnum x)). set (d := Zpos (Qden x)).
  assert (Hn : 0 < n).
  { subst n. destruct x as [[| k | k] den]; simpl; try lia.
    exfalso. apply Hx. reflexivity. }
  assert (Habs : (Qabs x == inject_Z n / inject_Z d)%Q).
  { subst n d. destruct x as [num den]. unfold Qabs. cbn [Qnum Qden].
    apply Qmake_Qdiv. }
  destruct (two_pow_log2 n Hn) as [HnA HnB].
  destruct (two_pow_log2 d ltac:(subst d; lia)) as [HdA HdB].
  set (a := Z.log2 n) in *. set (b := Z.log2 d) in *.
  pose proof (two_pow_pos a) as HA. pose proof (two_pow_pos b) as HB.
  pose proof (two_pow_pos (a - b)) as HE.
  assert (HEB : (2 ^ (a - b) * 2 ^ b == 2 ^ a)%Q).
  { rewrite <- Qpower_plus by discriminate. replace (a - b + b) with a by lia.
    reflexivity. }
  assert (HD : (0 < inject_Z d)%Q) by lra.
  assert (HxD : (Qabs x * inject_Z d == inject_Z n)%Q).
  { rewrite Habs. field. lra. }
  assert (Hlow : (2 ^ (a - b) < 2 * Qabs x)%Q).
  { apply (Qmult_lt_r _ _ (inject_Z d) HD). nra. }
  assert (Hhigh : (Qabs x < 2 * 2 ^ (a - b))%Q).
  { apply (Qmult_lt_r _ _ (inject_Z d) HD). nra. }
  destruct (Qltb (Qabs x) (2 ^ (a - b))) eqn:E.
  - apply Qltb_lt in E.
    assert (Hhalf : (2 * 2 ^ (a - b - 1) == 2 ^ (a - b))%Q).
    { rewrite <- two_pow_succ. replace (a - b - 1 + 1) with (a - b) by lia.
      reflexivity. }
    split; lra.
  - apply Qltb_ge in E. split; lra.
Qed.

(** Rounding moves a number by at most half a unit of its last place. *)
Lemma round_error (x : Q) :
  (Qabs (Binary64.round x - x) <= 2 ^ Binary64.last_place x / 2)%Q.
Proof.
  unfold Binary64.round.
  pose proof (two_pow_pos (Binary64.last_place x)) as HP.
  destruct (Qeq_bool x 0) eqn:E.
  - apply Qeq_bool_iff in E. apply Qabs_Qle_condition.
    assert (Hhalf : (2 ^ Binary64.last_place x / 2
                     == 2 ^ Binary64.last_place x * (1 # 2))%Q) by field.
    rewrite Hhalf. split; lra.
  - set (P := (2 ^ Binary64.last_place x)%Q) in *.
    pose proof (round_half_even_close (x / P)) as Hclose.
    apply Qabs_Qle_condition in Hclose. apply Qabs_Qle_condition.
    assert (Hx : (x / P * P == x)%Q) by (field; lra).
    set (k := inject_Z (round_half_even (x / P))) in *.
    assert (Hhalf : (P / 2 == P * (1 # 2))%Q) by (field).
    rewrite Hhalf. split; nra.
Qed.

Lemma round_nonneg (x : Q) : (0 <= x)%Q -> (0 <= Binary64.round x)%Q.
Proof.
  intros Hx. unfold Binary64.round. destruct (Qeq_bool x 0); [discriminate |].
  pose proof (two_pow_pos (Binary64.last_place x)) as HP.
  apply Qmult_le_0_compat; [| lra].
  change 0%Q with (inject_Z 0). rewrite <- Zle_Qle.
  apply round_half_even_lower. change (inject_Z 0) with 0%Q.
  apply Qle_shift_div_l; lra.
Qed.

(** In the range of the normal numbers the error is relative: at most the
    unit roundoff. *)
Lemma round_relative (x : Q) :
  (2 ^ (-1022) <= Qabs x)%Q ->
  (Qabs (Binary64.round x - x) <= roundoff * Qabs x)%Q.
Proof.
  intros Hnormal.
  assert (Hx : ~ (x == 0)%Q).
  { intros E. rewrite E in Hnormal. pose proof (two_pow_pos (-1022)).
    change (Qabs 0) with 0%Q in Hnormal. lra. }
  destruct (binade_spec x Hx) as [Hlo Hhi].
  pose proof (round_error x) as Herr. unfold Binary64.last_place in Herr.
  set (e := Binary64.binade x) in *.
  assert (He : -1022 <= e).
  { assert (Hlt : (2 ^ (-1022) < 2 ^ (e + 1))%Q) by (rewrite two_pow_succ; lra).
    apply Qpower_lt_compat_l_inv in Hlt; [lia | reflexivity]. }
  rewrite Z.max_l in Herr by lia.
  assert (Hsplit : (2 ^ (e - 52) / 2 == roundoff * 2 ^ e)%Q).
  { replace (e - 52) with (e + -52) by lia.
    rewrite Qpower_plus by discriminate.
    change (2 ^ (-52))%Q with (1 # 4503599627370496)%Q. unfold roundoff.
    field. }
  rewrite Hsplit in Herr.
  assert (Hu : (0 <= roundoff)%Q) by discriminate.
  nra.
Qed.

(** A number between 0 and 1 rounds to at most 2. *)
Lemma round_unit (x : Q) : (0 <= x <= 1)%Q -> (0 <= Binary64.round x <= 2)%Q.
Proof.
  intros [H0 H1]. split; [apply round_nonneg, H0 |].
  destruct (Qeq_dec x 0) as [E | Hx].
  { unfold Binary64.round. rewrite (proj2 (Qeq_bool_iff x 0) E). discriminate. }
  destruct (binade_spec x Hx) as [Hlo _].
  pose proof (round_error x) as Herr. unfold Binary64.last_place in Herr.
  set (e := Binary64.binade x) in *.
  rewrite Qabs_pos in Hlo by exact H0.
  assert (He : e <= 0).
  { assert (Hle : (2 ^ e <= 2 ^ 0)%Q) by (change (2 ^ 0)%Q with 1%Q; lra).
    apply Qpower_le_compat_l_inv in Hle; [lia | reflexivity]. }
  assert (Hp : (2 ^ Z.max (e - 52) (-1074) <= 2 ^ 0)%Q)
    by (apply Qpower_le_compat_l; [lia | discriminate]).
  change (2 ^ 0)%Q with 1%Q in Hp.
  apply Qabs_Qle_condition in Herr.
  pose proof (two_pow_pos (Z.max (e - 52) (-1074))).
  assert (Hhalf : (2 ^ Z.max (e - 52) (-1074) / 2
                   == 2 ^ Z.max (e - 52) (-1074) * (1 # 2))%Q) by field.
  rewrite Hhalf in Herr. lra.
Qed.

(** Rounding with a relative error: the rounded number between
    [x (1 - u)] and [x (1 + u)], for [x] positive and normal. *)
Lemma round_normal (x : Q) :
  (2 ^ (-1022) <= x)%Q ->
  (x * (1 - roundoff) <= Binary64.round x <= x * (1 + roundoff))%Q.
Proof.
  intros Hx. pose proof (two_pow_pos (-1022)) as Hpos.
  pose proof (round_relative x) as H.
  rewrite (Qabs_pos x) in H by lra. specialize (H Hx).
  apply Qabs_Qle_condition in H. split; lra.
Qed.

Lemma count_cons (x : Q) (l : list Q) : (count (x :: l) == count l + 1)%Q.
Proof.
  unfold count. cbn [length]. rewrite Nat2Z.inj_succ. unfold Z.succ.
  rewrite inject_Z_plus. reflexivity.
Qed.

Lemma count_nonneg (l : list Q) : (0 <= count l)%Q.
Proof.
  unfold count. change 0%Q with (inject_Z 0). rewrite <- Zle_Qle. lia.
Qed.

(** The sum that the floats give is the exact sum, up to one roundoff for
    each addition. *)
Lemma float_sum_bounds (l : list Q) (acc : Q) :
  Forall (fun r => 2 ^ (-1022) <= r)%Q l ->
  (0 <= acc)%Q ->
  (count l * roundoff <= 1)%Q ->
  ((acc + sum l) * (1 - count l * roundoff) <= foldl Binary64.add acc l
   /\ foldl Binary64.add acc l * (1 - count l * roundoff) <= acc + sum l
   /\ 0 <= foldl Binary64.add acc l)%Q.
Proof.
  intros Hl. revert acc. induction Hl as [| r l Hr Hl IH]; intros acc Hacc Hcount.
  - cbn [foldl]. change (sum []) with 0%Q. change (count []) with 0%Q.
    repeat split; lra.
  - cbn [foldl]. rewrite sum_cons.
    rewrite count_cons in Hcount |- *.
    pose proof (count_nonneg l) as Hn.
    pose proof (two_pow_pos (-1022)) as Hpos.
    assert (Hu : (0 < roundoff)%Q) by reflexivity.
    assert (Hsum : (0 <= sum l)%Q).
    { apply sum_nonneg. eapply List.Forall_impl; [| exact Hl].
      intros y Hy. cbv beta in Hy. lra. }
    destruct (round_normal (acc + r) ltac:(lra)) as [Hlo Hhi].
    fold (Binary64.add acc r) in Hlo, Hhi.
    set (acc' := Binary64.add acc r) in *.
    assert (Hacc' : (0 <= acc')%Q) by nra.
    destruct (IH acc' Hacc' ltac:(nra)) as (IHlo & IHhi & IHpos).
    set (F := foldl Binary64.add acc' l) in *.
    set (k := count l) in *. set (S := sum l) in *.
    split; [| split; [| exact IHpos]].
    + (* (acc + r + S) (1 - (k+1) u) <= F *)
      assert (H1 : ((acc + (r + S)) * (1 - (k + 1) * roundoff)
                    <= (acc' + S) * (1 - k * roundoff))%Q).
      { assert (Hk1 : (0 <= 1 - k * roundoff)%Q) by nra.
        assert (Hstep : ((acc + r) * (1 - roundoff) + S * (1 - roundoff)
                         <= acc' + S)%Q) by nra.
        assert (Hprod : ((acc + (r + S)) * (1 - roundoff) * (1 - k * roundoff)
                         <= (acc' + S) * (1 - k * roundoff))%Q).
        { apply Qmult_le_compat_r; [lra | exact Hk1]. }
        assert (Hexp : ((acc + (r + S)) * (1 - (k + 1) * roundoff)
                        <= (acc + (r + S)) * (1 - roundoff) * (1 - k * roundoff))%Q).
        { assert (0 <= (acc + (r + S)) * (k * roundoff * roundoff))%Q.
          { apply Qmult_le_0_compat; [lra |].
            apply Qmult_le_0_compat; [nra | lra]. }
          lra. }
        lra. }
      lra.
    + (* F (1 - (k+1) u) <= acc + r + S *)
      assert (Hk1 : (0 <= 1 - k * roundoff)%Q) by nra.
      assert (H1 : (F * (1 - (k + 1) * roundoff)
                    <= F * (1 - k * roundoff) * (1 - roundoff))%Q).
      { assert (0 <= F * (k * roundoff * roundoff))%Q.
        { apply Qmult_le_0_compat; [exact IHpos |].
          apply Qmult_le_0_compat; [nra | lra]. }
        lra. }
      assert (H2 : (F * (1 - k * roundoff) * (1 - roundoff)
                    <= (acc' + S) * (1 - roundoff))%Q).
      { apply Qmult_le_compat_r; [exact IHhi | unfold roundoff; lra]. }
      assert (H3 : ((acc' + S) * (1 - roundoff) <= acc + (r + S))%Q).
      { assert (acc' * (1 - roundoff) <= acc + r)%Q.
        { assert (Hq : (acc' * (1 - roundoff)
                        <= (acc + r) * (1 + roundoff) * (1 - roundoff))%Q).
          { apply Qmult_le_compat_r; [exact Hhi | unfold roundoff; lra]. }
          assert (0 <= (acc + r) * (roundoff * roundoff))%Q.
          { apply Qmult_le_0_compat; [lra | unfold roundoff; lra]. }
          lra. }
        assert (S * (1 - roundoff) <= S)%Q by nra.
        lra. }
      lra.
Qed.

(** One weight: the rounded share is within half a thousandth of the
    share, up to three roundoffs. *)
Lemma rounded_share_error (g : Q) :
  (2 ^ (-1022) <= g)%Q ->
  (g - (1 # 2000) - 3 * roundoff * g - roundoff * (1 # 2000)
   <= Binary64.round3 (Binary64.round g)
   <= g + (1 # 2000) + 3 * roundoff * g + roundoff * (1 # 2000))%Q.
Proof.
  intros Hg. pose proof (two_pow_pos (-1022)) as Hpos.
  destruct (round_normal g Hg) as [Hxlo Hxhi].
  set (x := Binary64.round g) in *.
  unfold Binary64.round3.
  pose proof (round_half_even_close (x * 1000)) as Hclose.
  apply Qabs_Qle_condition in Hclose.
  assert (Hq : 0 <= round_half_even (x * 1000)).
  { apply round_half_even_lower. change (inject_Z 0) with 0%Q.
    unfold roundoff in Hxlo. lra. }
  set (q := round_half_even (x * 1000)) in *.
  assert (Hd : (inject_Z q / 1000 == inject_Z q * (1 # 1000))%Q) by field.
  destruct (Z.eq_dec q 0) as [E | Hne].
  - rewrite E in *. change (Binary64.round (inject_Z 0 / 1000)) with 0%Q.
    change (inject_Z 0) with 0%Q in Hclose.
    unfold roundoff in *. split; lra.
  - assert (H1 : (1 <= inject_Z q)%Q)
      by (change 1%Q with (inject_Z 1); rewrite <- Zle_Qle; lia).
    assert (Hnormal : (2 ^ (-1022) <= inject_Z q / 1000)%Q).
    { rewrite Hd. assert ((2 ^ (-1022) <= 1 # 1000)%Q) by (vm_compute; discriminate).
      lra. }
    destruct (round_normal _ Hnormal) as [Hwlo Hwhi].
    set (w := Binary64.round (inject_Z q / 1000)) in *.
    set (d := (inject_Z q / 1000)%Q) in *.
    unfold roundoff in *. split; lra.
Qed.

Lemma rounded_shares_sum (gs : list Q) :
  Forall (fun g => 2 ^ (-1022) <= g)%Q gs ->
  (sum gs - count gs * (1 # 2000) - 3 * roundoff * sum gs
   - count gs * (roundoff * (1 # 2000))
   <= sum ((fun g => Binary64.round3 (Binary64.round g)) <$> gs)
   <= sum gs + count gs * (1 # 2000) + 3 * roundoff * sum gs
      + count gs * (roundoff * (1 # 2000)))%Q.
Proof.
  induction 1 as [| g gs Hg _ IH].
  - change (sum ((fun g => Binary64.round3 (Binary64.round g)) <$> [])) with 0%Q.
    change (sum []) with 0%Q. change (count []) with 0%Q. split; lra.
  - rewrite fmap_cons, !sum_cons, count_cons.
    pose proof (rounded_share_error g Hg). unfold roundoff in *. lra.
Qed.

Lemma sum_bounds (l : list Q) (lo hi : Q) :
  Forall (fun r => lo <= r <= hi)%Q l ->
  (count l * lo <= sum l <= count l * hi)%Q.
Proof.
  induction 1 as [| r l Hr _ IH].
  - change (sum []) with 0%Q. change (count []) with 0%Q. split; lra.
  - rewrite sum_cons, count_cons. split; lra.
Qed.

Lemma count_positive (l : list Q) : l <> [] -> (1 <= count l)%Q.
Proof.
  intros Hne. destruct l as [| x l]; [contradiction |].
  rewrite count_cons. pose proof (count_nonneg l). lra.
Qed.

(** The weights of a list of raw weights: shares of the float sum,
    rounded to 3 decimals.  Their sum is within half a thousandth and
    2^-50 for each weight of 1. *)
Lemma float_weights_sum (raws : list Q) :
  raws <> [] ->
  Forall (fun r => (1 # 4294967296) <= r <= 5)%Q raws ->
  (count raws <= 1073741824)%Q ->
  (Qabs (sum ((fun r => Binary64.round3
                          (Binary64.round (r / Binary64.sum raws))) <$> raws)
         - 1)
   <= count raws * ((1 # 2000) + (1 # 1125899906842624)))%Q.
Proof.
  intros Hne Hraws Hcount.
  pose proof (count_positive raws Hne) as Hn.
  assert (Hnormal : Forall (fun r => 2 ^ (-1022) <= r)%Q raws).
  { eapply List.Forall_impl; [| exact Hraws]. intros r Hr. cbv beta in Hr.
    assert ((2 ^ (-1022) <= 1 # 4294967296)%Q) by (vm_compute; discriminate).
    lra. }
  destruct (sum_bounds raws _ _ Hraws) as [HRlo HRhi].
  destruct (float_sum_bounds raws 0 Hnormal ltac:(lra)
              ltac:(unfold roundoff; lra)) as (HTlo & HThi & _).
  fold (Binary64.sum raws) in HTlo, HThi.
  set (T := Binary64.sum raws) in *. set (R := sum raws) in *.
  set (n := count raws) in *.
  assert (HR : (0 < R)%Q) by lra.
  assert (Hnu : (n * roundoff <= 1 # 8388608)%Q) by (unfold roundoff; lra).
  assert (HT : (R * (1 # 2) <= T)%Q) by nra.
  assert (HT2 : (T <= 2 * R)%Q) by nra.
  assert (HTpos : (0 < T)%Q) by lra.
  (* the shares *)
  assert (Hshares : Forall (fun g => 2 ^ (-1022) <= g)%Q ((fun r => r / T) <$> raws)%Q).
  { apply Forall_fmap. eapply List.Forall_impl; [| exact Hraws].
    intros r Hr. cbv beta in Hr. unfold compose.
    apply Qle_shift_div_l; [exact HTpos |].
    assert ((2 ^ (-1022) * 17179869184 <= 1 # 4294967296)%Q)
      by (vm_compute; discriminate).
    pose proof (two_pow_pos (-1022)). nra. }
  pose proof (rounded_shares_sum _ Hshares) as Hsum.
  rewrite <- list_fmap_compose in Hsum. unfold compose in Hsum.
  cbv beta in Hsum. rewrite sum_scaled in Hsum.
  assert (Hlen : (count ((fun r => r / T) <$> raws) == n)%Q).
  { unfold count, n, count. rewrite length_fmap. reflexivity. }
  rewrite Hlen in Hsum.
  set (W := sum ((fun r => Binary64.round3 (Binary64.round (r / T))) <$> raws)) in *.
  assert (HG : (R / T * T == R)%Q) by (field; lra).
  set (G := (R / T)%Q) in *.
  change (sum raws / T)%Q with G in Hsum.
  assert (HGlo : (1 - n * roundoff <= G)%Q).
  { apply (Qmult_le_r _ _ T HTpos). nra. }
  assert (HGhi : (G <= 1 + 2 * (n * roundoff))%Q).
  { assert (Hone : (G * (1 - n * roundoff) <= 1)%Q).
    { apply (Qmult_le_r _ _ T HTpos). nra. }
    nra. }
  apply Qabs_Qle_condition. unfold roundoff in *. split; lra.
Qed.

Lemma Forall2_fmap_eq {A B : Type} (h : A -> B) (l : list A) (l' : list B) :
  Forall2 (fun x y => y = h x) l l' -> l' = h <$> l.
Proof. induction 1 as [| x y l l' -> _ ->]; reflexivity. Qed.

Lemma Forall2_Forall_r {A B : Type} (R : A -> B -> Prop) (P : A -> Prop)
    (Q : B -> Prop) (l : list A) (k : list B) :
  Forall2 R l k -> Forall P l -> (forall x y, P x -> R x y -> Q y) -> Forall Q k.
Proof.
  intros H HP HQ. induction H as [| x y l k Hxy _ IH]; [constructor |].
  inversion HP as [| ? ? Hx Hl]; subst.
  constructor; [exact (HQ x y Hx Hxy) | exact (IH Hl)].
Qed.

Lemma truediv_Ok (a b : Z) (q : Q) :
  Binary64.truediv a b = Ok q ->
  b <> 0 /\ q = Binary64.round (inject_Z a / inject_Z b).
Proof.
  unfold Binary64.truediv. destruct (Z.eqb_spec b 0); [discriminate |].
  destruct (Qle_bool _ _); [discriminate |].
  intros H. injection H as <-. split; [assumption | reflexivity].
Qed.

(** The raw weights of the derivation in binary64: one for each floor,
    none below 2^-32 or above 5 in a building of at most 2^30 floors, and
    the weights are their shares of the float sum, rounded. *)
Lemma binary64_weights_inv (p : params) (weights : list Q) :
  0 < floor_number p <= 1073741824 ->
  Binary64.floor_weights_mapping p = Ok weights ->
  exists raws : list Q,
    length raws = length (floor_range p)
    /\ raws <> []
    /\ Forall (fun r => (1 # 4294967296) <= r <= 5)%Q raws
    /\ weights = (fun r => Binary64.round3
                             (Binary64.round (r / Binary64.sum raws))) <$> raws.
Proof.
  intros Hfn H. unfold Binary64.floor_weights_mapping in H. cbv zeta in H.
  invert_bind H. rename a into min_capacity.
  invert_bind H. rename a into max_capacity.
  invert_bind H. rename a into base_weight.
  invert_bind H. rename a into raws.
  exists raws.
  apply truediv_Ok in Hstep1 as [_ Hbase].
  (* the base weight *)
  assert (Hb : (1 # 2147483648 <= base_weight <= 2)%Q).
  { assert (Hq : (1 # 1073741824 <= inject_Z 1 / inject_Z (floor_number p) <= 1)%Q).
    { assert (Hden : (0 < inject_Z (floor_number p))%Q)
        by (change 0%Q with (inject_Z 0); rewrite <- Zlt_Qlt; lia).
      assert (Hle : (inject_Z (floor_number p) <= 1073741824)%Q)
        by (change 1073741824%Q with (inject_Z 1073741824); rewrite <- Zle_Qle; lia).
      assert (Hge : (1 <= inject_Z (floor_number p))%Q)
        by (change 1%Q with (inject_Z 1); rewrite <- Zle_Qle; lia).
      change (inject_Z 1) with 1%Q. split.
      - apply Qle_shift_div_l; [exact Hden | lra].
      - apply Qle_shift_div_r; [exact Hden | lra]. }
    rewrite Hbase. split; [| apply round_unit; lra].
    assert (Hn : (2 ^ (-1022) <= inject_Z 1 / inject_Z (floor_number p))%Q).
    { assert ((2 ^ (-1022) <= 1 # 1073741824)%Q) by (vm_compute; discriminate). lra. }
    destruct (round_normal _ Hn) as [Hlo _]. unfold roundoff in Hlo. lra. }
  (* the capacities are ints *)
  pose proof (for_each_Ok _ _ _ Hstep2) as Hraws.
  assert (Hlen : length raws = length (floor_range p)).
  { apply Forall2_length in Hraws. rewrite length_fmap in Hraws. congruence. }
  destruct (pyvals_None_or_ints (floor_capacity p <$> floor_range p))
    as [Hnone | [zs Hzs]].
  { exfalso. apply list_elem_of_lookup_1 in Hnone as [i Hi].
    destruct (Forall2_lookup_l _ _ _ _ _ Hraws Hi) as (r & _ & Hr).
    discriminate Hr. }
  rewrite Hzs in Hstep, Hstep0, Hraws.
  destruct zs as [| z zs]; [discriminate Hstep |].
  rewrite fmap_cons in Hstep, Hstep0. unfold py_min in Hstep. unfold py_max in Hstep0.
  rewrite min_from_ints in Hstep. rewrite max_from_ints in Hstep0.
  injection Hstep as <-. injection Hstep0 as <-.
  set (lo := foldl Z.min z zs) in *. set (hi := foldl Z.max z zs) in *.
  assert (Hbounds : Forall (fun x => lo <= x <= hi) (z :: zs)).
  { destruct (foldl_min_le z zs) as [Hm Hms], (foldl_max_ge z zs) as [HM HMs].
    constructor; [subst lo hi; lia |].
    apply List.Forall_forall. intros x Hx.
    rewrite List.Forall_forall in Hms, HMs.
    split; [apply Hms | apply HMs]; exact Hx. }
  assert (Hall : Forall (fun r => 1 # 4294967296 <= r <= 5)%Q raws).
  { apply Forall2_fmap_l in Hraws.
    apply (Forall2_Forall_r _ _ _ _ _ Hraws Hbounds).
    intros x r Hx Hr. unfold compose in Hr. cbn [py_sub bind] in Hr.
    invert_bind Hr. rename a into ratio. injection Hr as <-.
    apply truediv_Ok in Hstep as [Hden ->].
    assert (Hratio : (0 <= inject_Z (x - lo) / inject_Z (hi - lo) <= 1)%Q).
    { assert (Hpos : (0 < inject_Z (hi - lo))%Q)
        by (change 0%Q with (inject_Z 0); rewrite <- Zlt_Qlt; lia).
      split.
      - apply Qle_shift_div_l; [exact Hpos |]. rewrite Qmult_0_l.
        change 0%Q with (inject_Z 0). rewrite <- Zle_Qle. lia.
      - apply Qle_shift_div_r; [exact Hpos |]. rewrite Qmult_1_l.
        rewrite <- Zle_Qle. lia. }
    apply round_unit in Hratio.
    set (ratio := Binary64.round (inject_Z (x - lo) / inject_Z (hi - lo))) in *.
    unfold Binary64.add.
    assert (Hn : (2 ^ (-1022) <= base_weight + ratio)%Q).
    { assert ((2 ^ (-1022) <= 1 # 2147483648)%Q) by (vm_compute; discriminate). lra. }
    destruct (round_normal _ Hn) as [Hlo Hhi]. unfold roundoff in Hlo, Hhi. lra. }
  split; [exact Hlen |].
  split.
  { intros ->. apply Forall2_length in Hraws. discriminate Hraws. }
  split; [exact Hall |].
  apply for_each_Ok in H. apply Forall2_fmap_eq.
  eapply List.Forall2_impl; [| exact H].
  intros x y Hy. cbv beta in Hy. invert_bind Hy. injection Hy as <-.
  unfold Binary64.fdiv in Hstep. destruct (Qeq_bool _ _); [discriminate |].
  injection Hstep as <-. reflexivity.
Qed.

(** C8, as amended.  In binary64, for parameters that passed the
    validation, for which the derivation is defined, of a building of at
    most 2^30 floors, the floor weights, each the raw weight divided by the
    float sum of the raw weights and rounded to 3 decimals, sum to 1.0
    within 0.0005 and 2^-50 per floor; there is one weight per floor of
    the range. *)
Theorem binary64_floor_weights_sum (file : config_file) (p : params)
    (weights : list Q) :
  load_elevator_variables file = Ok p ->
  Binary64.floor_weights_mapping p = Ok weights ->
  floor_number p - negative_floor_number p <= 1073741824 ->
  (Qabs (sum weights - 1)
   <= inject_Z (Z.of_nat (length weights))
      * ((5 # 10000) + (1 # 1125899906842624)))%Q
  /\ length weights = length (floor_range p).
Proof.
  intros Hload H Hfloors. apply load_valid in Hload as [].
  destruct (binary64_weights_inv p weights ltac:(lia) H)
    as (raws & Hlen & Hne & Hraws & ->).
  rewrite length_fmap. split; [| exact Hlen].
  assert (Hcount : (count raws <= 1073741824)%Q).
  { unfold count. change 1073741824%Q with (inject_Z 1073741824).
    rewrite <- Zle_Qle, Hlen. unfold floor_range, range. rewrite length_seqZ. lia. }
  pose proof (float_weights_sum raws Hne Hraws Hcount) as Hsum.
  unfold count in Hsum.
  assert (E : ((5 # 10000) + (1 # 1125899906842624)
               == (1 # 2000) + (1 # 1125899906842624))%Q) by reflexivity.
  rewrite E. exact Hsum.
Qed.

Example binary64_five_floors :
  Binary64.floor_weights_mapping Sample.five_floors_params
  = Ok (Binary64.round <$> [0.6; 0.1; 0.1; 0.1; 0.1]%Q).
Proof. vm_compute. reflexivity. Qed.

Lemma binary64_floor_weights_sum_witness :
  load_elevator_variables (Parsed Sample.five_floors) = Ok Sample.five_floors_params
  /\ Binary64.floor_weights_mapping Sample.five_floors_params
     = Ok (Binary64.round <$> [0.6; 0.1; 0.1; 0.1; 0.1]%Q)
  /\ floor_number Sample.five_floors_params
     - negative_floor_number Sample.five_floors_params <= 1073741824
  /\ (Qabs (sum (Binary64.round <$> [0.6; 0.1; 0.1; 0.1; 0.1]%Q) - 1)
      <= inject_Z (Z.of_nat (length (Binary64.round <$> [0.6; 0.1; 0.1; 0.1; 0.1]%Q)))
         * ((5 # 10000) + (1 # 1125899906842624)))%Q
  /\ length (Binary64.round <$> [0.6; 0.1; 0.1; 0.1; 0.1]%Q)
     = length (floor_range Sample.five_floors_params).
Proof.
  split; [exact load_five_floors |]. split; [exact binary64_five_floors |].
  split; [simpl; lia |].
  apply (binary64_floor_weights_sum (Parsed Sample.five_floors)
           Sample.five_floors_params);
    [exact load_five_floors | exact binary64_five_floors | simpl; lia].
Defined.

Example load_seven_offices :
  load_elevator_variables (Parsed Sample.seven_offices)
  = Ok Sample.seven_offices_params.
Proof. reflexivity. Qed.

(** The weights of ten floors, seven of them offices: the shares are
    0.1375 and 0.0125 in exact arithmetic, where they round to 0.138 and
    0.012; in binary64 the shares are a little more, and round to 0.138 and
    0.013. *)
Example exact_seven_offices :
  floor_weights_mapping Sample.seven_offices_params
  = Ok [0.138; 0.138; 0.138; 0.138; 0.138; 0.138; 0.138; 0.012; 0.012; 0.012]%Q.
Proof. vm_compute. reflexivity. Qed.

Example binary64_seven_offices :
  Binary64.floor_weights_mapping Sample.seven_offices_params
  = Ok (Binary64.round <$> [0.138; 0.138; 0.138; 0.138; 0.138; 0.138; 0.138;
                            0.013; 0.013; 0.013]%Q).
Proof. vm_compute. reflexivity. Qed.

(** C8, as stated, fails: the weights of ten floors, seven of them
    offices, are seven times the double 0.138 and three times the double
    0.013, whose sum is more than 0.005 away from 1. *)
Lemma binary64_weights_exceed_tolerance :
  ~ (forall (file : config_file) (p : params) (weights : list Q),
       load_elevator_variables file = Ok p ->
       Binary64.floor_weights_mapping p = Ok weights ->
       (Qabs (sum weights - 1)
        <= inject_Z (Z.of_nat (length weights)) * (5 # 10000))%Q).
Proof.
  intros H.
  specialize (H _ _ _ load_seven_offices binary64_seven_offices).
  vm_compute in H. apply H. reflexivity.
Qed.

(** ** The generation loop *)

Lemma datetime_add_Ok (t delta t' : Z) :
  datetime_add t delta = Ok t' -> t' = t + delta.
Proof.
  unfold datetime_add. destruct (_ && _); [| discriminate].
  intros H. injection H as <-. reflexivity.
Qed.

Lemma randint_Ok (a b r : Z) (g g' : rng) :
  randint a b g = Ok (r, g') -> a <= r <= b.
Proof.
  unfold randint. destruct (Z.ltb_spec b a) as [| Hab]; [discriminate |].
  unfold next_raw. cbv beta iota. intros H. injection H as <- _.
  pose proof (Z.mod_pos_bound (Z.of_nat (raw g (pos g))) (b - a + 1)). lia.
Qed.

(** What one iteration creates and where it leaves the cursor. *)
Lemma generate_one_Ok (fuel : nat) (p : params) (weight_list : list Q)
    (c c' : cursor) (g g' : rng) (s : generated_state) :
  generate_one fuel p weight_list c g = Ok (s, c', g') ->
  exists (minutes : Q) (g1 g2 : rng),
    pick_next_door fuel p weight_list c g = Ok (nextFloor s, g1)
    /\ calculate_interval_minutes p c (nextFloor s) g1 = Ok (minutes, g2)
    /\ currentFloor s = current_floor c
    /\ demandFloor s = demand_floor c
    /\ callDatetime s = start_time c + timedelta_minutes minutes
    /\ date_str s = strftime (callDatetime s)
    /\ current_floor c' = nextFloor s
    /\ start_time c' = callDatetime s.
Proof.
  unfold generate_one. intros H.
  invert_bind H. destruct a as [next_floor g1].
  invert_bind H. destruct a as [minutes g2].
  invert_bind H. rename a into call_datetime.
  invert_bind H. destruct a as [df g3].
  injection H as <- <- <-. cbn.
  apply datetime_add_Ok in Hstep1.
  exists minutes, g1, g2. repeat split; assumption.
Qed.

(** The states of the loop are chained by whatever order every iteration
    keeps between the cursor's [start_time] and the [call_datetime] it
    creates; the first state starts from the cursor. *)
Lemma generate_rows_chained (later : datetime -> datetime -> Prop) (fuel : nat)
    (p : params) (weight_list : list Q) :
  (forall c g s c' g',
      generate_one fuel p weight_list c g = Ok (s, c', g') ->
      later (start_time c) (callDatetime s)) ->
  forall (rows : nat) (c : cursor) (g : rng) (states : list generated_state),
    generate_rows fuel rows p weight_list c g = Ok states ->
    chained later states
    /\ forall s, states !! 0%nat = Some s ->
                 currentFloor s = current_floor c
                 /\ later (start_time c) (callDatetime s).
Proof.
  intros Hstep. induction rows as [| rows IH]; intros c g states H; simpl in H.
  - injection H as <-. split; [intros i s s' Hs; inversion Hs | intros s Hs; inversion Hs].
  - invert_bind H. destruct a as [[s0 c'] g'].
    invert_bind H. rename a into others. injection H as <-.
    destruct (IH c' g' others Hstep1) as [Hchain Hfirst].
    pose proof (Hstep _ _ _ _ _ Hstep0) as Hlater.
    apply generate_one_Ok in Hstep0
      as (minutes & g1 & g2 & _ & _ & Hcur & _ & _ & _ & Hnext & Hstart).
    split.
    + intros [| i] s s' Hs Hs'; simpl in Hs, Hs'.
      * injection Hs as <-.
        destruct (Hfirst s' Hs') as [Hfloor Htime].
        rewrite Hfloor, Hnext, <- Hstart. split; [reflexivity | exact Htime].
      * exact (Hchain i s s' Hs Hs').
    + intros s Hs. simpl in Hs. injection Hs as <-. split; assumption.
Qed.

Section IntervalBounds.

Variable p : params.
Hypothesis Hvalid : valid_params p.

(** Each lag is at least [x / 60] for an [x] below the minimal interval,
    the maximal interval and twice the interval per floor. *)
Lemma lag_lower (x : Q) (d : Z) :
  (x <= inject_Z (min_time_interval_seconds p))%Q ->
  (x <= inject_Z (max_time_interval_seconds p))%Q ->
  (x <= 2 * interval_per_floor_seconds p)%Q ->
  (x / 60
   <= (if d <=? 1
       then inject_Z (min_time_interval_seconds p)
       else min2 (inject_Z (max_time_interval_seconds p))
                 (inject_Z d * interval_per_floor_seconds p)) / 60)%Q.
Proof using Hvalid.
  intros Hmin Hmax Hper. destruct Hvalid.
  apply Qdiv_60_le. destruct (Z.leb_spec d 1) as [_ | Hd]; [exact Hmin |].
  apply min2_glb; [exact Hmax |].
  assert (H2 : (2 * interval_per_floor_seconds p
                <= inject_Z d * interval_per_floor_seconds p)%Q).
  { apply Qmult_le_compat_r; [| assumption].
    change 2%Q with (inject_Z 2). rewrite <- Zle_Qle. lia. }
  lra.
Qed.

Lemma peak_interval_multiplier_nonneg (c : cursor) :
  (0 <= peak_interval_multiplier p c)%Q.
Proof using Hvalid.
  destruct Hvalid. unfold peak_interval_multiplier.
  destruct (existsb _ _); [tauto | discriminate].
Qed.

(** With non-negative random minutes the interval is at least [x / 30]
    minutes, for [x] as in [lag_lower]. *)
Lemma calculate_interval_minutes_lower (x : Q) (c : cursor) (next_floor : Z)
    (g g' : rng) (minutes : Q) :
  0 <= random_minutes_min p ->
  (x <= inject_Z (min_time_interval_seconds p))%Q ->
  (x <= inject_Z (max_time_interval_seconds p))%Q ->
  (x <= 2 * interval_per_floor_seconds p)%Q ->
  calculate_interval_minutes p c next_floor g = Ok (minutes, g') ->
  (x / 60 + x / 60 <= minutes)%Q.
Proof using Hvalid.
  intros Hrm Hmin Hmax Hper H. unfold calculate_interval_minutes in H.
  invert_bind H. destruct a as [r g1]. injection H as <- _.
  apply randint_Ok in Hstep.
  pose proof (lag_lower x (Z.abs (current_floor c - demand_floor c))
                Hmin Hmax Hper) as Hcur.
  pose proof (lag_lower x (Z.abs (next_floor - demand_floor c))
                Hmin Hmax Hper) as Hnext.
  fold (current_floor_interval_lag p c) in Hcur.
  fold (next_floor_interval_lag p c next_floor) in Hnext.
  assert (Hscaled : (0 <= inject_Z r * peak_interval_multiplier p c)%Q).
  { apply Qmult_le_0_compat; [| apply peak_interval_multiplier_nonneg].
    change 0%Q with (inject_Z 0). rewrite <- Zle_Qle. lia. }
  lra.
Qed.

(** With non-negative random minutes an iteration does not set the clock
    back. *)
Lemma generate_one_not_earlier (fuel : nat) (weight_list : list Q)
    (c c' : cursor) (g g' : rng) (s : generated_state) :
  0 <= random_minutes_min p ->
  generate_one fuel p weight_list c g = Ok (s, c', g') ->
  start_time c <= callDatetime s.
Proof using Hvalid.
  intros Hrm H. destruct Hvalid.
  apply generate_one_Ok in H
    as (minutes & g1 & g2 & _ & Hmin & _ & _ & -> & _).
  apply (calculate_interval_minutes_lower 0) in Hmin;
    [| assumption
     | change 0%Q with (inject_Z 0); rewrite <- Zle_Qle; lia
     | change 0%Q with (inject_Z 0); rewrite <- Zle_Qle; lia
     | lra ].
  assert (H0 : (0 / 60 == 0)%Q) by reflexivity. rewrite H0 in Hmin.
  assert (0 <= timedelta_minutes minutes); [| lia].
  apply round_half_even_lower. change (inject_Z 0) with 0%Q.
  apply Qmult_le_0_compat; [lra | discriminate].
Qed.

(** With, in addition, at least a microsecond per floor, an iteration
    moves the clock forward. *)
Lemma generate_one_later (fuel : nat) (weight_list : list Q)
    (c c' : cursor) (g g' : rng) (s : generated_state) :
  0 <= random_minutes_min p ->
  (1 # 1000000 <= interval_per_floor_seconds p)%Q ->
  generate_one fuel p weight_list c g = Ok (s, c', g') ->
  start_time c < callDatetime s.
Proof using Hvalid.
  intros Hrm Hper H. destruct Hvalid.
  apply generate_one_Ok in H
    as (minutes & g1 & g2 & _ & Hmin & _ & _ & -> & _).
  apply (calculate_interval_minutes_lower (2 # 1000000)) in Hmin;
    [| assumption
     | apply Qle_trans with (inject_Z 1);
       [discriminate | rewrite <- Zle_Qle; lia]
     | apply Qle_trans with (inject_Z 1);
       [discriminate | rewrite <- Zle_Qle; lia]
     | lra ].
  assert (H2 : ((2 # 1000000) / 60 == 1 # 30000000)%Q) by reflexivity.
  rewrite H2 in Hmin.
  assert (4 <= timedelta_minutes minutes); [| lia].
  apply round_half_even_lower.
  change (inject_Z (60 * us_per_second)) with (60000000 # 1)%Q.
  change (inject_Z 4) with 4%Q. lra.
Qed.

End IntervalBounds.

(** C1, as amended.  In the sequence of states of one generation run,
    every state's [currentFloor] is the [nextFloor] of the state before
    it; when the lower bound of the random minutes is not negative its
    [callDatetime] is not earlier than that of the state before it; and
    when in addition [interval_per_floor_seconds] is at least a
    microsecond, it is strictly later. *)
Theorem generated_states_chained (fuel : nat) (file : config_file)
    (last_state : option ElevatorState) (today : datetime) (g : rng)
    (p : params) (states : list generated_state) :
  load_elevator_variables file = Ok p ->
  generate_elevator_states fuel file last_state today g = Ok states ->
  chained (fun _ _ => True) states
  /\ (0 <= random_minutes_min p -> chained Z.le states)
  /\ (0 <= random_minutes_min p ->
      (1 # 1000000 <= interval_per_floor_seconds p)%Q ->
      chained Z.lt states).
Proof.
  intros Hload H. unfold generate_elevator_states in H. rewrite Hload in H.
  apply load_valid in Hload. cbn [bind] in H.
  invert_bind H. rename a into weight_list.
  invert_bind H. destruct a as [c g0].
  split; [| split].
  - eapply generate_rows_chained; [| exact H]. intros; exact I.
  - intros Hrm. eapply generate_rows_chained; [| exact H].
    intros c1 g1 s c2 g2. apply generate_one_not_earlier; assumption.
  - intros Hrm Hper. eapply generate_rows_chained; [| exact H].
    intros c1 g1 s c2 g2. apply generate_one_later; assumption.
Qed.

Example run_no_delay :
  generate_elevator_states 5 (Parsed Sample.no_delay) (Some Sample.last_state) 0
    Sample.up_and_down
  = Ok [ {| currentFloor := 0; demandFloor := 2; nextFloor := 4;
            date_str := "2024-01-01 00:00:00";
            callDatetime := 63839664000000000 |};
         {| currentFloor := 4; demandFloor := 2; nextFloor := 0;
            date_str := "2024-01-01 00:00:00";
            callDatetime := 63839664000000000 |} ].
Proof. vm_compute. reflexivity. Qed.

(** C1, as stated, fails: with no time per floor and no random minutes,
    two floors away from the demand floor, the interval is 0 and the
    second state has the [callDatetime] of the first. *)
Lemma call_datetime_can_stand_still :
  ~ (forall (fuel : nat) (file : config_file) (last_state : option ElevatorState)
            (today : datetime) (g : rng) (states : list generated_state),
       generate_elevator_states fuel file last_state today g = Ok states ->
       chained Z.lt states).
Proof.
  intros H. specialize (H _ _ _ _ _ _ run_no_delay 0%nat _ _ eq_refl eq_refl).
  destruct H as [_ H]. simpl in H. lia.
Qed.

Example run_five_floors :
  generate_elevator_states 5 (Parsed Sample.five_floors) None
    Sample.new_year_2024 Sample.counting
  = Ok [ {| currentFloor := 0; demandFloor := 1; nextFloor := 2;
            date_str := "2024-01-01 00:01:10";
            callDatetime := 63839664070000000 |};
         {| currentFloor := 2; demandFloor := 4; nextFloor := 0;
            date_str := "2024-01-01 00:03:10";
            callDatetime := 63839664190000000 |} ].
Proof. vm_compute. reflexivity. Qed.

Lemma generated_states_chained_witness :
  exists states,
    load_elevator_variables (Parsed Sample.five_floors)
    = Ok Sample.five_floors_params
    /\ generate_elevator_states 5 (Parsed Sample.five_floors) None
         Sample.new_year_2024 Sample.counting = Ok states
    /\ length states = 2%nat
    /\ chained (fun _ _ => True) states
    /\ (0 <= random_minutes_min Sample.five_floors_params ->
        chained Z.le states)
    /\ (0 <= random_minutes_min Sample.five_floors_params ->
        (1 # 1000000 <= interval_per_floor_seconds Sample.five_floors_params)%Q ->
        chained Z.lt states).
Proof.
  eexists.
  split; [exact load_five_floors |]. split; [exact run_five_floors |].
  split; [reflexivity |].
  exact (generated_states_chained 5 (Parsed Sample.five_floors) None
           Sample.new_year_2024 Sample.counting _ _
           load_five_floors run_five_floors).
Defined.

(** ** The timestamp given to the store *)

(** [strftime] reads the whole seconds of a datetime and nothing below. *)
Lemma strftime_whole_seconds (t1 t2 : datetime) :
  t1 / us_per_second = t2 / us_per_second -> strftime t1 = strftime t2.
Proof.
  intros H. unfold strftime.
  assert (Hday : forall t, t / us_per_day = t / us_per_second / 86400).
  { intros t. rewrite Z.div_div by (unfold us_per_second; lia). reflexivity. }
  assert (Hsec : forall t,
             t mod us_per_day / us_per_second = (t / us_per_second) mod 86400).
  { intros t. change us_per_day with (us_per_second * 86400).
    rewrite Z.rem_mul_r by (unfold us_per_second; lia).
    rewrite Z.mul_comm, Z.div_add by (unfold us_per_second; lia).
    rewrite Z.div_small; [reflexivity |].
    apply Z.mod_pos_bound. unfold us_per_second. lia. }
  rewrite (Hday t1), (Hday t2), (Hsec t1), (Hsec t2), H. reflexivity.
Qed.

Lemma generate_rows_Forall (P : generated_state -> Prop) (fuel : nat)
    (p : params) (weight_list : list Q) :
  (forall c g s c' g',
      generate_one fuel p weight_list c g = Ok (s, c', g') -> P s) ->
  forall (rows : nat) (c : cursor) (g : rng) (states : list generated_state),
    generate_rows fuel rows p weight_list c g = Ok states -> Forall P states.
Proof.
  intros Hstep. induction rows as [| rows IH]; intros c g states H; simpl in H.
  - injection H as <-. constructor.
  - invert_bind H. destruct a as [[s0 c'] g'].
    invert_bind H. injection H as <-.
    constructor; [exact (Hstep _ _ _ _ _ Hstep0) | exact (IH _ _ _ Hstep1)].
Qed.

Example run_millisecond_per_floor :
  generate_elevator_states 5 (Parsed Sample.millisecond_per_floor)
    (Some Sample.last_state) 0 Sample.up_and_down
  = Ok [ {| currentFloor := 0; demandFloor := 2; nextFloor := 4;
            date_str := "2024-01-01 00:00:00";
            callDatetime := 63839664000004000 |};
         {| currentFloor := 4; demandFloor := 2; nextFloor := 0;
            date_str := "2024-01-01 00:00:00";
            callDatetime := 63839664000008000 |} ].
Proof. vm_compute. reflexivity. Qed.

(** ** Reading a timestamp back *)

Lemma checked_below (check : Z -> bool) (bound : nat) :
  forallb (fun k => check (Z.of_nat k)) (seq 0 bound) = true ->
  forall r : Z, 0 <= r < Z.of_nat bound -> check r = true.
Proof.
  intros Hall r Hr. rewrite List.forallb_forall in Hall.
  specialize (Hall (Z.to_nat r)). rewrite Z2Nat.id in Hall by lia.
  apply Hall, in_seq. lia.
Qed.

Lemma month_day_spec (leap : bool) (r : Z) :
  0 <= r < (if leap then 366 else 365) ->
  month_day_checked leap r = true.
Proof.
  intros Hr. destruct leap.
  - apply (checked_below (month_day_checked true) 366); [vm_compute; reflexivity | lia].
  - apply (checked_below (month_day_checked false) 365); [vm_compute; reflexivity | lia].
Qed.

Lemma ymd_ymd2ord (n : Z) :
  0 <= n ->
  let '(year, month, day) := ymd n in
  1 <= month <= 12 /\ 1 <= day <= days_in_month year month
  /\ ymd2ord year month day = n + 1
  /\ (364877 <= n -> 1000 <= year) /\ (n < 3652059 -> year <= 9999).
Proof.
  intros Hn. unfold ymd. cbv zeta.
  set (n400 := n / 146097). set (r400 := n mod 146097).
  set (n100 := r400 / 36524). set (r100 := r400 mod 36524).
  set (n4 := r100 / 1461). set (r4 := r100 mod 1461).
  set (n1 := r4 / 365). set (r1 := r4 mod 365).
  assert (H400 : n = 146097 * n400 + r400 /\ 0 <= r400 < 146097)
    by (subst n400 r400; split; [apply Z.div_mod | apply Z.mod_pos_bound]; lia).
  assert (H100 : r400 = 36524 * n100 + r100 /\ 0 <= r100 < 36524)
    by (subst n100 r100; split; [apply Z.div_mod | apply Z.mod_pos_bound]; lia).
  assert (H4 : r100 = 1461 * n4 + r4 /\ 0 <= r4 < 1461)
    by (subst n4 r4; split; [apply Z.div_mod | apply Z.mod_pos_bound]; lia).
  assert (H1 : r4 = 365 * n1 + r1 /\ 0 <= r1 < 365)
    by (subst n1 r1; split; [apply Z.div_mod | apply Z.mod_pos_bound]; lia).
  clearbody n400 r400 n100 r100 n4 r4 n1 r1.
  assert (0 <= n400 /\ 0 <= n100 <= 4 /\ 0 <= n4 <= 24 /\ 0 <= n1 <= 4) by lia.
  destruct ((n1 =? 4) || (n100 =? 4)) eqn:Elast.
  - (* the last day of a leap year *)
    set (year := n400 * 400 + n100 * 100 + n4 * 4 + n1 + 1 - 1).
    assert (Hyear : exists k, year = 4 * k /\ (n100 = 4 \/ (n1 = 4 /\ n100 < 4))).
    { apply orb_true_iff in Elast as [E | E]; apply Z.eqb_eq in E.
      - exists (n400 * 100 + n100 * 25 + n4 + 1). subst year. lia.
      - exists (n400 * 100 + 100). subst year. lia. }
    destruct Hyear as (k & Hk & Hcase).
    assert (Hleap : is_leap year = true).
    { unfold is_leap.
      assert (E4 : year mod 4 = 0) by (rewrite Hk, Z.mul_comm; apply Z.mod_mul; lia).
      rewrite E4. simpl.
      destruct (Z.eqb_spec (year mod 100) 0) as [E100 | _]; [| reflexivity].
      simpl. apply Z.eqb_eq.
      subst year. clear Hk Elast.
      pose proof (Z.div_mod (n400 * 400 + n100 * 100 + n4 * 4 + n1 + 1 - 1) 400).
      pose proof (Z.mod_pos_bound (n400 * 400 + n100 * 100 + n4 * 4 + n1 + 1 - 1) 400).
      pose proof (Z.div_mod (n400 * 400 + n100 * 100 + n4 * 4 + n1 + 1 - 1) 100).
      pose proof (Z.mod_pos_bound (n400 * 400 + n100 * 100 + n4 * 4 + n1 + 1 - 1) 100).
      lia. }
    unfold days_in_month, ymd2ord, days_before_month, days_before_year.
    rewrite Hleap. simpl nth. cbv zeta.
    change ((2 <? 12) && true) with true. cbv iota.
    split; [lia |]. split; [lia |].
    subst year.
    pose proof (Z.div_mod (n400 * 400 + n100 * 100 + n4 * 4 + n1 + 1 - 1 - 1) 4).
    pose proof (Z.mod_pos_bound (n400 * 400 + n100 * 100 + n4 * 4 + n1 + 1 - 1 - 1) 4).
    pose proof (Z.div_mod (n400 * 400 + n100 * 100 + n4 * 4 + n1 + 1 - 1 - 1) 100).
    pose proof (Z.mod_pos_bound (n400 * 400 + n100 * 100 + n4 * 4 + n1 + 1 - 1 - 1) 100).
    pose proof (Z.div_mod (n400 * 400 + n100 * 100 + n4 * 4 + n1 + 1 - 1 - 1) 400).
    pose proof (Z.mod_pos_bound (n400 * 400 + n100 * 100 + n4 * 4 + n1 + 1 - 1 - 1) 400).
    lia.
  - apply orb_false_iff in Elast as [E1 E100].
    apply Z.eqb_neq in E1, E100.
    set (year := n400 * 400 + n100 * 100 + n4 * 4 + n1 + 1).
    set (leap := (n1 =? 3) && (negb (n4 =? 24) || (n100 =? 3))).
    assert (Hleap : is_leap year = leap).
    { unfold is_leap, leap. subst year.
      pose proof (Z.div_mod (n400 * 400 + n100 * 100 + n4 * 4 + n1 + 1) 4).
      pose proof (Z.mod_pos_bound (n400 * 400 + n100 * 100 + n4 * 4 + n1 + 1) 4).
      pose proof (Z.div_mod (n400 * 400 + n100 * 100 + n4 * 4 + n1 + 1) 100).
      pose proof (Z.mod_pos_bound (n400 * 400 + n100 * 100 + n4 * 4 + n1 + 1) 100).
      pose proof (Z.div_mod (n400 * 400 + n100 * 100 + n4 * 4 + n1 + 1) 400).
      pose proof (Z.mod_pos_bound (n400 * 400 + n100 * 100 + n4 * 4 + n1 + 1) 400).
      destruct (Z.eqb_spec n1 3), (Z.eqb_spec n4 24), (Z.eqb_spec n100 3),
        (Z.eqb_spec ((n400 * 400 + n100 * 100 + n4 * 4 + n1 + 1) mod 4) 0),
        (Z.eqb_spec ((n400 * 400 + n100 * 100 + n4 * 4 + n1 + 1) mod 100) 0),
        (Z.eqb_spec ((n400 * 400 + n100 * 100 + n4 * 4 + n1 + 1) mod 400) 0);
        simpl; try reflexivity; exfalso; lia. }
    pose proof (month_day_spec leap r1 ltac:(destruct leap; lia)) as Hmd.
    unfold month_day_checked in Hmd.
    destruct (month_day (days_in_months leap) 1 r1) as [month day].
    repeat (apply andb_true_iff in Hmd as [Hmd ?]).
    repeat match goal with
           | H : (_ <=? _) = true |- _ => apply Z.leb_le in H
           | H : (_ =? _) = true |- _ => apply Z.eqb_eq in H
           end.
    unfold days_in_month, ymd2ord, days_before_month, days_before_year.
    rewrite Hleap. cbv zeta.
    split; [lia |]. split; [lia |].
    subst year.
    pose proof (Z.div_mod (n400 * 400 + n100 * 100 + n4 * 4 + n1 + 1 - 1) 4).
    pose proof (Z.mod_pos_bound (n400 * 400 + n100 * 100 + n4 * 4 + n1 + 1 - 1) 4).
    pose proof (Z.div_mod (n400 * 400 + n100 * 100 + n4 * 4 + n1 + 1 - 1) 100).
    pose proof (Z.mod_pos_bound (n400 * 400 + n100 * 100 + n4 * 4 + n1 + 1 - 1) 100).
    pose proof (Z.div_mod (n400 * 400 + n100 * 100 + n4 * 4 + n1 + 1 - 1) 400).
    pose proof (Z.mod_pos_bound (n400 * 400 + n100 * 100 + n4 * 4 + n1 + 1 - 1) 400).
    lia.
Qed.

(** The digits of a year from 1000 to 9999 and of a two-digit field, read
    back. *)
Lemma str_four_digits (n : Z) :
  1000 <= n <= 9999 ->
  exists c1 c2 c3 c4 : ascii,
    str n = String c1 (String c2 (String c3 (String c4 EmptyString)))
    /\ Spec.number 0 [c1; c2; c3; c4] = Some n.
Proof.
  intros Hn.
  pose proof (checked_below (fun r => four_digits_checked (1000 + r))
                (Z.to_nat 9000) ltac:(vm_compute; reflexivity)
                (n - 1000) ltac:(lia)) as H.
  cbv beta in H. replace (1000 + (n - 1000)) with n in H by lia.
  unfold four_digits_checked in H.
  destruct (str n) as [| c1 [| c2 [| c3 [| c4 [| c5 rest]]]]]; try discriminate.
  destruct (Spec.number 0 [c1; c2; c3; c4]) as [v |] eqn:Hv; [| discriminate].
  apply Z.eqb_eq in H as ->. exists c1, c2, c3, c4. split; [reflexivity | exact Hv].
Qed.

Lemma zfill_two_digits (n : Z) :
  0 <= n <= 99 ->
  exists c1 c2 : ascii,
    zfill 2 n = String c1 (String c2 EmptyString)
    /\ Spec.number 0 [c1; c2] = Some n.
Proof.
  intros Hn.
  pose proof (checked_below two_digits_checked 100
                ltac:(vm_compute; reflexivity) n ltac:(lia)) as H.
  unfold two_digits_checked in H.
  destruct (zfill 2 n) as [| c1 [| c2 [| c3 rest]]]; try discriminate.
  destruct (Spec.number 0 [c1; c2]) as [v |] eqn:Hv; [| discriminate].
  apply Z.eqb_eq in H as ->. exists c1, c2. split; [reflexivity | exact Hv].
Qed.


(** For a datetime from the year 1000 on, the timestamp has the nineteen
    characters of YYYY-MM-DD HH:MM:SS and stands for the datetime without
    its microseconds. *)
Lemma strftime_read_back (t : datetime) :
  year_1000 <= t < datetime_end ->
  String.length (strftime t) = 19%nat
  /\ Spec.timestamp_datetime (strftime t) = Some (t - t mod us_per_second).
Proof.
  intros Ht. unfold year_1000 in Ht. unfold strftime.
  set (n := t / us_per_day). set (seconds := t mod us_per_day / us_per_second).
  assert (Hday : t = us_per_day * n + t mod us_per_day
                 /\ 0 <= t mod us_per_day < us_per_day).
  { subst n. split; [apply Z.div_mod | apply Z.mod_pos_bound];
      unfold us_per_day, us_per_hour, us_per_second; lia. }
  assert (Hsec : t mod us_per_day = us_per_second * seconds
                                    + (t mod us_per_day) mod us_per_second
                 /\ 0 <= (t mod us_per_day) mod us_per_second < us_per_second).
  { subst seconds. split; [apply Z.div_mod | apply Z.mod_pos_bound];
      unfold us_per_second; lia. }
  assert (Hwhole : t - t mod us_per_second
                   = (n * 86400 + seconds) * us_per_second).
  { pose proof (Z.div_mod t us_per_second ltac:(unfold us_per_second; lia)) as Hdm.
    pose proof (Z.mod_pos_bound t us_per_second ltac:(unfold us_per_second; lia)).
    assert (t / us_per_second = n * 86400 + seconds).
    { symmetry. apply (Z.div_unique _ _ _ ((t mod us_per_day) mod us_per_second));
        [left; tauto |].
      revert Hday Hsec. unfold us_per_day, us_per_hour, us_per_second. lia. }
    revert Hday Hsec. unfold us_per_day, us_per_hour, us_per_second in *. lia. }
  assert (Hn : 364877 <= n < 3652059).
  { revert Ht Hday. unfold datetime_end, us_per_day, us_per_hour, us_per_second.
    change (ymd2ord 1000 1 1 - 1) with 364877. lia. }
  assert (Hs : 0 <= seconds < 86400).
  { revert Hday Hsec. unfold us_per_day, us_per_hour, us_per_second. lia. }
  clearbody n seconds.
  pose proof (ymd_ymd2ord n ltac:(lia)) as Hymd.
  destruct (ymd n) as [[year month] day].
  destruct Hymd as (Hmonth & Hdayr & Hord & Hlo & Hhi).
  specialize (Hlo ltac:(lia)). specialize (Hhi ltac:(lia)).
  assert (Hdim : days_in_month year month <= 31).
  { unfold days_in_month.
    destruct (is_leap year);
      destruct (Z.to_nat (month - 1)) as [| [| [| [| [| [| [| [| [| [| [| [| k]]]]]]]]]]]];
      simpl; try lia; destruct k; simpl; lia. }
  pose proof (Z.div_mod seconds 3600 ltac:(lia)) as Hh.
  pose proof (Z.mod_pos_bound seconds 3600 ltac:(lia)).
  pose proof (Z.div_mod seconds 60 ltac:(lia)) as Hm.
  pose proof (Z.mod_pos_bound seconds 60 ltac:(lia)).
  pose proof (Z.div_mod (seconds / 60) 60 ltac:(lia)) as Hmm.
  pose proof (Z.mod_pos_bound (seconds / 60) 60 ltac:(lia)).
  assert (Hhm : seconds / 60 / 60 = seconds / 3600)
    by (rewrite Z.div_div by lia; reflexivity).
  set (hour := seconds / 3600) in *. set (minute := (seconds / 60) mod 60) in *.
  set (second := seconds mod 60) in *.
  assert (Hfields : hour * 3600 + minute * 60 + second = seconds
                    /\ 0 <= hour <= 23 /\ 0 <= minute <= 59 /\ 0 <= second <= 59)
    by lia.
  clearbody hour minute second.
  destruct (str_four_digits year ltac:(lia)) as (y1 & y2 & y3 & y4 & -> & Hy).
  destruct (zfill_two_digits month ltac:(lia)) as (m1 & m2 & -> & Hmo).
  destruct (zfill_two_digits day ltac:(lia)) as (d1 & d2 & -> & Hd).
  destruct (zfill_two_digits hour ltac:(lia)) as (h1 & h2 & -> & Hho).
  destruct (zfill_two_digits minute ltac:(lia)) as (n1 & n2 & -> & Hmi).
  destruct (zfill_two_digits second ltac:(lia)) as (s1 & s2 & -> & Hse).
  split; [reflexivity |].
  unfold Spec.timestamp_datetime, Spec.timestamp_fields.
  cbv [String.append list_ascii_of_string].
  change (("-" =? "-")%char && ("-" =? "-")%char && (" " =? " ")%char
          && (":" =? ":")%char && (":" =? ":")%char) with true.
  cbv iota. rewrite Hy, Hmo, Hd, Hho, Hmi, Hse.
  unfold datetime_of, require.
  rewrite (proj2 (Z.leb_le 1 year)), (proj2 (Z.leb_le year 9999)),
    (proj2 (Z.leb_le 1 month)), (proj2 (Z.leb_le month 12)),
    (proj2 (Z.leb_le 1 day)), (proj2 (Z.leb_le day (days_in_month year month))),
    (proj2 (Z.leb_le 0 hour)), (proj2 (Z.leb_le hour 23)),
    (proj2 (Z.leb_le 0 minute)), (proj2 (Z.leb_le minute 59)),
    (proj2 (Z.leb_le 0 second)), (proj2 (Z.leb_le second 59)) by lia.
  cbn [andb bind]. f_equal. rewrite Hord, Hwhole. lia.
Qed.

(** The datetime an iteration creates is a datetime: [datetime.__add__]
    raises outside the years 1 to 9999. *)
Lemma generate_one_datetime (fuel : nat) (p : params) (weight_list : list Q)
    (c c' : cursor) (g g' : rng) (s : generated_state) :
  generate_one fuel p weight_list c g = Ok (s, c', g') ->
  0 <= callDatetime s < datetime_end /\ date_str s = strftime (callDatetime s).
Proof.
  unfold generate_one. intros H.
  invert_bind H. destruct a as [next_floor g1].
  invert_bind H. destruct a as [minutes g2].
  invert_bind H. rename a into call_datetime.
  invert_bind H. destruct a as [df g3].
  injection H as <- <- <-. cbn.
  unfold datetime_add in Hstep1.
  destruct (Z.leb_spec 0 (start_time c + timedelta_minutes minutes));
    destruct (Z.ltb_spec (start_time c + timedelta_minutes minutes) datetime_end);
    try discriminate.
  injection Hstep1 as <-. split; [lia | reflexivity].
Qed.

Example run_back_in_time :
  generate_elevator_states 5 (Parsed Sample.back_in_time) None
    Sample.new_year_2024 Sample.counting
  = Ok [ {| currentFloor := 0; demandFloor := 1; nextFloor := 2;
            date_str := "997-04-14 00:00:10";
            callDatetime := 31439664010000000 |} ].
Proof. vm_compute. reflexivity. Qed.

(** C9, as stated, fails: the year of the format is written without
    padding, so a state before the year 1000, which random minutes below
    zero reach, is stored under a timestamp of fewer than nineteen
    characters, which is not of the form YYYY-MM-DD HH:MM:SS. *)
Lemma timestamp_before_year_1000 :
  ~ (forall (fuel : nat) (file : config_file) (last_state : option ElevatorState)
            (today : datetime) (g : rng) (states : list generated_state),
       generate_elevator_states fuel file last_state today g = Ok states ->
       Forall (fun s => is_Some (Spec.timestamp_fields (date_str s))) states).
Proof.
  intros H. specialize (H _ _ _ _ _ _ run_back_in_time).
  apply List.Forall_inv in H as [fields Hfields]. discriminate Hfields.
Qed.

(** C9, as amended.  The timestamp given to the store for each generated
    state is the [call_datetime] of the iteration formatted by
    [strftime]; from the year 1000 on it has the nineteen characters of
    YYYY-MM-DD HH:MM:SS and stands for the [call_datetime] without its
    microseconds.  The format keeps the whole seconds only, while the
    cursor carries the microseconds on; so two consecutive states of a run
    can be stored under the same timestamp although the second
    [call_datetime] is strictly later than the first. *)
Theorem stored_timestamp_whole_seconds :
  (forall (fuel : nat) (file : config_file) (last_state : option ElevatorState)
          (today : datetime) (g : rng) (states : list generated_state),
      generate_elevator_states fuel file last_state today g = Ok states ->
      Forall (fun s =>
                date_str s = strftime (callDatetime s)
                /\ (year_1000 <= callDatetime s ->
                    String.length (date_str s) = 19%nat
                    /\ Spec.timestamp_datetime (date_str s)
                       = Some (callDatetime s - callDatetime s mod us_per_second)))
             states)
  /\ (forall t1 t2 : datetime,
         t1 / us_per_second = t2 / us_per_second -> strftime t1 = strftime t2)
  /\ (exists (fuel : nat) (file : config_file) (last_state : option ElevatorState)
             (today : datetime) (g : rng) (s1 s2 : generated_state),
         generate_elevator_states fuel file last_state today g = Ok [s1; s2]
         /\ callDatetime s1 < callDatetime s2
         /\ date_str s1 = date_str s2).
Proof.
  split; [| split].
  - intros fuel file last_state today g states H.
    unfold generate_elevator_states in H.
    invert_bind H. invert_bind H. invert_bind H. destruct a1 as [c g0].
    eapply generate_rows_Forall; [| exact H].
    intros c1 g1 s c2 g2 Hone.
    apply generate_one_datetime in Hone as [Hrange Hstr].
    split; [exact Hstr |]. intros Hyear. rewrite Hstr.
    apply strftime_read_back. lia.
  - exact strftime_whole_seconds.
  - do 7 eexists. split; [exact run_millisecond_per_floor |].
    split; [simpl; lia | reflexivity].
Qed.

(** * Further properties of the engine *)

(** ** The loader *)

(** X1.  Parameters that [load_elevator_variables] accepts are in the
    ranges its checks enforce: capacities, rows, [floor_number] and both
    interval bounds are positive, [negative_floor_number] is at most 0,
    [interval_per_floor_seconds] is not negative and [peak_multiplier]
    lies between 0 and 1; so the floor range has
    [floor_number - negative_floor_number] floors, floor 0 among them. *)
Theorem load_accepts_only_valid (file : config_file) (p : params) :
  load_elevator_variables file = Ok p ->
  valid_params p
  /\ 0 ∈ floor_range p
  /\ Z.of_nat (length (floor_range p)) = floor_number p - negative_floor_number p.
Proof.
  intros H. pose proof (load_valid file p H) as Hvalid.
  split; [exact Hvalid |]. destruct Hvalid.
  unfold floor_range, range. split.
  - apply elem_of_seqZ. lia.
  - rewrite length_seqZ. lia.
Qed.

Lemma load_accepts_only_valid_witness :
  load_elevator_variables (Parsed Sample.five_floors)
  = Ok Sample.five_floors_params
  /\ valid_params Sample.five_floors_params
  /\ 0 ∈ floor_range Sample.five_floors_params
  /\ Z.of_nat (length (floor_range Sample.five_floors_params))
     = floor_number Sample.five_floors_params
       - negative_floor_number Sample.five_floors_params.
Proof.
  split; [reflexivity |].
  apply (load_accepts_only_valid (Parsed Sample.five_floors)). reflexivity.
Defined.

(** X2.  A JSON object that lacks one of the nine keys of the presence
    check is reported by ValueError("Invalid JSON structure."), whatever
    else it holds: the presence check comes before every other check. *)
Theorem load_reports_missing_checked_key (members : list (string * json))
    (key : string) :
  key ∈ required_keys ->
  dict_get members key = None ->
  load_elevator_variables (Parsed (JDict members))
  = Raise (ValueError "Invalid JSON structure.").
Proof. intros Hkey Hnone. simpl. apply (validate_missing_checked_key _ key); assumption. Qed.

Lemma load_reports_missing_checked_key_witness :
  load_elevator_variables
    (Parsed (JDict [("floor_number", JStr "five"); ("rows_generated", JInt (-1))]))
  = Raise (ValueError "Invalid JSON structure.").
Proof.
  apply (load_reports_missing_checked_key _ "peak_hours").
  - apply list_elem_of_In. simpl. tauto.
  - reflexivity.
Defined.

(** [key in data] on a list or a str gives a truth value. *)
Lemma all_in_list (items : list json) (keys : list string) :
  exists b, all_in (JList items) keys = Ok b.
Proof.
  induction keys as [| k rest [b Hb]]; simpl; [eauto |].
  destruct (existsb _ items); eauto.
Qed.

Lemma all_in_str (s : string) (keys : list string) :
  exists b, all_in (JStr s) keys = Ok b.
Proof.
  induction keys as [| k rest [b Hb]]; simpl; [eauto |].
  destruct (is_substring k s); eauto.
Qed.

(** X3.  Only a JSON object is accepted: a document whose top level is a
    list, a string, a number, a boolean or null makes the loader raise
    (ValueError from the presence check, or TypeError from the membership
    test or the first subscript), never return parameters. *)
Theorem load_needs_an_object (data : json) (p : params) :
  load_elevator_variables (Parsed data) = Ok p ->
  exists members, data = JDict members.
Proof.
  simpl. unfold validate. intros H.
  destruct data as [| b | z | q | s | items | members];
    try (simpl in H; discriminate); [| | eauto].
  - destruct (all_in_str s required_keys) as [b Hb]. rewrite Hb in H.
    destruct b; simpl in H; discriminate.
  - destruct (all_in_list items required_keys) as [b Hb]. rewrite Hb in H.
    destruct b; simpl in H; discriminate.
Qed.

Lemma load_needs_an_object_witness :
  load_elevator_variables (Parsed Sample.five_floors)
  = Ok Sample.five_floors_params
  /\ exists members, Sample.five_floors = JDict members.
Proof.
  split; [reflexivity |].
  apply (load_needs_an_object Sample.five_floors Sample.five_floors_params).
  reflexivity.
Defined.

(** A list that holds all nine key names passes the presence check and
    fails at the first subscript. *)
Example load_list_of_key_names :
  load_elevator_variables (Parsed (JList (JStr <$> required_keys)))
  = Raise TypeError.
Proof. reflexivity. Qed.

Lemma validate_peak_hours_value_or_ValueError
    (intervals : list (list (string * json))) :
  value_or_ValueError (validate_peak_hours intervals).
Proof.
  induction intervals as [| d rest IH]; simpl; [left; eauto |].
  assert (Hone : value_or_ValueError (validate_peak_interval d)).
  { unfold validate_peak_interval.
    destruct (dict_get d "start") as [s |], (dict_get d "end") as [e |];
      try solve [right; eauto].
    destruct (as_int s), (as_int e); try solve [right; eauto]. left. eauto. }
  destruct Hone as [[i ->] | [msg ->]]; simpl; [| right; eauto].
  destruct IH as [[others ->] | [msg ->]]; simpl; [left | right]; eauto.
Qed.

Lemma validate_random_minutes_range_value_or_ValueError (v : json) :
  value_or_ValueError (validate_random_minutes_range v).
Proof.
  unfold validate_random_minutes_range.
  destruct (as_dict v) as [members |]; [| right; eauto].
  destruct (dict_get members "min") as [lo |], (dict_get members "max") as [hi |];
    try solve [right; eauto].
  destruct (as_int lo), (as_int hi); try solve [right; eauto]. left. eauto.
Qed.

(** One check of the validator that passes or raises ValueError. *)
Ltac check_or_ValueError lemma :=
  let x := fresh "x" in
  let msg := fresh "msg" in
  destruct lemma as [[x ->] | [msg ->]];
  [cbn [bind] | right; simpl; eauto].

(** X4.  For a JSON object that holds [negative_floor_number] and
    [interval_per_floor_seconds], the loader either returns parameters or
    raises ValueError: every failed check of a document with all its keys
    is reported by the validator's own error. *)
Theorem load_rejects_with_ValueError (members : list (string * json)) :
  is_Some (dict_get members "negative_floor_number") ->
  is_Some (dict_get members "interval_per_floor_seconds") ->
  (exists p, load_elevator_variables (Parsed (JDict members)) = Ok p)
  \/ (exists msg,
         load_elevator_variables (Parsed (JDict members)) = Raise (ValueError msg)).
Proof.
  intros Hneg Hipf. simpl. unfold validate.
  destruct (all_in_dict members required_keys) as (b & -> & Hkeys).
  destruct b; [| right; simpl; eauto]. cbn [bind require].
  specialize (Hkeys eq_refl). rewrite Forall_forall in Hkeys.
  assert (Hkey : forall k, In k required_keys -> is_Some (dict_get members k))
    by exact Hkeys.
  assert (Hpos : forall k msg, In k required_keys ->
                   value_or_ValueError (positive_int (JDict members) k msg)).
  { intros k msg Hk. apply positive_int_value_or_ValueError, Hkey, Hk. }
  (* floor_capacities *)
  destruct (getitem_present members "floor_capacities") as [fc ->];
    [apply Hkey; simpl; tauto |]. cbn [bind].
  destruct (as_dict fc) as [fc_members |]; [| right; simpl; eauto]. cbn [bind].
  check_or_ValueError (validate_capacities_value_or_ValueError fc_members).
  (* floor_types *)
  destruct (getitem_present members "floor_types") as [ft ->];
    [apply Hkey; simpl; tauto |]. cbn [bind].
  destruct (as_dict ft) as [ft_members |]; [| right; simpl; eauto]. cbn [bind].
  check_or_ValueError (validate_floor_types_value_or_ValueError ft_members).
  (* rows_generated, floor_number *)
  check_or_ValueError (Hpos "rows_generated" "Invalid 'rows_generated' value."
                         ltac:(simpl; tauto)).
  check_or_ValueError (Hpos "floor_number" "Invalid 'floor_number' value."
                         ltac:(simpl; tauto)).
  (* negative_floor_number *)
  destruct (getitem_present members "negative_floor_number" Hneg) as [nf ->].
  cbn [bind].
  destruct (as_int nf) as [z |]; [| right; simpl; eauto].
  destruct (0 <? z); [right; simpl; eauto |]. cbn [bind].
  (* time intervals *)
  check_or_ValueError (Hpos "min_time_interval_seconds"
                         "Invalid 'min_time_interval_seconds' value."
                         ltac:(simpl; tauto)).
  check_or_ValueError (Hpos "max_time_interval_seconds"
                         "Invalid 'max_time_interval_seconds' value."
                         ltac:(simpl; tauto)).
  (* interval_per_floor_seconds *)
  destruct (getitem_present members "interval_per_floor_seconds" Hipf) as [ipf ->].
  cbn [bind].
  destruct (as_num ipf) as [q |]; [| right; simpl; eauto].
  destruct (Qle_bool 0 q); [| right; simpl; eauto]. cbn [bind].
  (* peak_hours *)
  destruct (getitem_present members "peak_hours") as [ph ->];
    [apply Hkey; simpl; tauto |]. cbn [bind].
  destruct (as_list ph) as [items |]; [| right; simpl; eauto].
  destruct (all_dicts items) as [ds |]; [| right; simpl; eauto]. cbn [bind].
  check_or_ValueError (validate_peak_hours_value_or_ValueError ds).
  (* peak_multiplier *)
  destruct (getitem_present members "peak_multiplier") as [pm ->];
    [apply Hkey; simpl; tauto |]. cbn [bind].
  destruct (as_num pm) as [m |]; [| right; simpl; eauto].
  destruct (Qle_bool 0 m && Qle_bool m 1); [| right; simpl; eauto]. cbn [bind].
  (* random_minutes_range *)
  destruct (getitem_present members "random_minutes_range") as [rm ->];
    [apply Hkey; simpl; tauto |]. cbn [bind].
  check_or_ValueError (validate_random_minutes_range_value_or_ValueError rm).
  destruct x6 as [rm_min rm_max]. left. eauto.
Qed.

Lemma load_rejects_with_ValueError_witness :
  (exists p,
      load_elevator_variables
        (Parsed (JDict (Sample.config Sample.office_at_0 5 0 (JInt 0) 5 300
                          (JInt 10) (JFloat (3 # 2)) 1 3)))
      = Ok p)
  \/ (exists msg,
         load_elevator_variables
           (Parsed (JDict (Sample.config Sample.office_at_0 5 0 (JInt 0) 5 300
                             (JInt 10) (JFloat (3 # 2)) 1 3)))
         = Raise (ValueError msg)).
Proof.
  apply (load_rejects_with_ValueError
           (Sample.config Sample.office_at_0 5 0 (JInt 0) 5 300
              (JInt 10) (JFloat (3 # 2)) 1 3));
    eexists; reflexivity.
Defined.

(** X5.  A JSON object that lacks [negative_floor_number] or
    [interval_per_floor_seconds] is never accepted: the loader raises
    ValueError when an earlier check fails, and otherwise the KeyError of
    the lookup of the missing key. *)
Theorem load_without_unchecked_key (members : list (string * json))
    (key : string) :
  key = "negative_floor_number" \/ key = "interval_per_floor_seconds" ->
  dict_get members key = None ->
  (exists msg,
      load_elevator_variables (Parsed (JDict members)) = Raise (ValueError msg))
  \/ (exists missing,
         load_elevator_variables (Parsed (JDict members))
         = Raise (KeyError missing)
         /\ dict_get members missing = None
         /\ (missing = "negative_floor_number"
             \/ missing = "interval_per_floor_seconds")).
Proof.
  intros Hwhich Hnone. simpl.
  destruct (dict_get members "negative_floor_number") as [nf |] eqn:Hneg.
  - (* the key is interval_per_floor_seconds *)
    destruct Hwhich as [-> | ->]; [congruence |].
    unfold validate.
    destruct (all_in_dict members required_keys) as (b & -> & Hkeys).
    destruct b; [| left; simpl; eauto]. cbn [bind require].
    specialize (Hkeys eq_refl). rewrite Forall_forall in Hkeys.
    assert (Hkey : forall k, In k required_keys -> is_Some (dict_get members k))
      by exact Hkeys.
    assert (Hpos : forall k msg, In k required_keys ->
                     value_or_ValueError (positive_int (JDict members) k msg)).
    { intros k msg Hk. apply positive_int_value_or_ValueError, Hkey, Hk. }
    destruct (getitem_present members "floor_capacities") as [fc ->];
      [apply Hkey; simpl; tauto |]. cbn [bind].
    destruct (as_dict fc) as [fc_members |]; [| left; simpl; eauto]. cbn [bind].
    destruct (validate_capacities_value_or_ValueError fc_members)
      as [[cs ->] | [msg ->]]; [| left; simpl; eauto]. cbn [bind].
    destruct (getitem_present members "floor_types") as [ft ->];
      [apply Hkey; simpl; tauto |]. cbn [bind].
    destruct (as_dict ft) as [ft_members |]; [| left; simpl; eauto]. cbn [bind].
    destruct (validate_floor_types_value_or_ValueError ft_members)
      as [[ts ->] | [msg ->]]; [| left; simpl; eauto]. cbn [bind].
    destruct (Hpos "rows_generated" "Invalid 'rows_generated' value."
                ltac:(simpl; tauto))
      as [[rows ->] | [msg ->]]; [| left; simpl; eauto]. cbn [bind].
    destruct (Hpos "floor_number" "Invalid 'floor_number' value."
                ltac:(simpl; tauto))
      as [[floors ->] | [msg ->]]; [| left; simpl; eauto]. cbn [bind].
    destruct (getitem_present members "negative_floor_number") as [nf' ->];
      [rewrite Hneg; eauto |]. cbn [bind].
    destruct (as_int nf') as [z |]; [| left; simpl; eauto].
    destruct (0 <? z); [left; simpl; eauto |]. cbn [bind].
    destruct (Hpos "min_time_interval_seconds"
                "Invalid 'min_time_interval_seconds' value." ltac:(simpl; tauto))
      as [[min_s ->] | [msg ->]]; [| left; simpl; eauto]. cbn [bind].
    destruct (Hpos "max_time_interval_seconds"
                "Invalid 'max_time_interval_seconds' value." ltac:(simpl; tauto))
      as [[max_s ->] | [msg ->]]; [| left; simpl; eauto]. cbn [bind].
    assert (Hget : getitem (JDict members) "interval_per_floor_seconds"
                   = Raise (KeyError "interval_per_floor_seconds"))
      by (simpl; rewrite Hnone; reflexivity).
    rewrite Hget. cbn [bind].
    right. exists "interval_per_floor_seconds".
    split; [reflexivity | split; [exact Hnone | right; reflexivity]].
  - (* negative_floor_number is missing *)
    destruct (validate_without_negative_floor_number members Hneg) as [Hv | Hk].
    + left. exact Hv.
    + right. exists "negative_floor_number".
      split; [exact Hk | split; [exact Hneg | left; reflexivity]].
Qed.

Lemma load_without_unchecked_key_witness :
  dict_get (Sample.without "interval_per_floor_seconds"
              (Sample.config Sample.office_at_0 5 0 (JInt 2) 5 300 (JInt 10)
                 (JFloat (1 # 2)) 1 3))
    "interval_per_floor_seconds" = None
  /\ ((exists msg,
          load_elevator_variables (Parsed Sample.no_interval_per_floor)
          = Raise (ValueError msg))
      \/ (exists missing,
             load_elevator_variables (Parsed Sample.no_interval_per_floor)
             = Raise (KeyError missing)
             /\ dict_get (Sample.without "interval_per_floor_seconds"
                            (Sample.config Sample.office_at_0 5 0 (JInt 2) 5 300
                               (JInt 10) (JFloat (1 # 2)) 1 3)) missing = None
             /\ (missing = "negative_floor_number"
                 \/ missing = "interval_per_floor_seconds"))).
Proof.
  split; [reflexivity |].
  apply (load_without_unchecked_key _ "interval_per_floor_seconds").
  - right. reflexivity.
  - reflexivity.
Defined.

(** ** The floor weights *)

Lemma round_half_even_upper (q : Q) (k : Z) :
  (q <= inject_Z k)%Q -> round_half_even q <= k.
Proof.
  intros H. unfold round_half_even.
  pose proof (Qfloor_le q) as Hlo.
  assert (Hfloor : Qfloor q <= k).
  { rewrite <- (Qfloor_Z k). apply Qfloor_resp_le, H. }
  destruct (Z.eq_dec (Qfloor q) k) as [Heq | Hne].
  - subst k.
    assert (Hlt : (q - inject_Z (Qfloor q) ?= 1 # 2)%Q = Lt).
    { apply (proj1 (Qlt_alt _ _)). lra. }
    rewrite Hlt. lia.
  - destruct (q - inject_Z (Qfloor q) ?= 1 # 2)%Q; [destruct (Z.even _) | |]; lia.
Qed.

(** Rounding to the nearest integer keeps the order. *)
Lemma round_half_even_mono (x y : Q) :
  (x <= y)%Q -> round_half_even x <= round_half_even y.
Proof.
  intros H.
  pose proof (Qfloor_resp_le x y H) as Hfloor.
  destruct (Z.eq_dec (Qfloor x) (Qfloor y)) as [Heq | Hne].
  - unfold round_half_even. rewrite Heq.
    destruct (x - inject_Z (Qfloor y) ?= 1 # 2)%Q eqn:Ex;
      destruct (y - inject_Z (Qfloor y) ?= 1 # 2)%Q eqn:Ey;
      first
        [ lia
        | destruct (Z.even (Qfloor y)); lia
        | exfalso;
          first [apply Qeq_alt in Ex | apply Qlt_alt in Ex | apply Qgt_alt in Ex];
          first [apply Qeq_alt in Ey | apply Qlt_alt in Ey | apply Qgt_alt in Ey];
          lra ].
  - assert (Hx : round_half_even x <= Qfloor x + 1).
    { unfold round_half_even.
      destruct (x - inject_Z (Qfloor x) ?= 1 # 2)%Q; [destruct (Z.even _) | |]; lia. }
    assert (Hy : Qfloor y <= round_half_even y).
    { unfold round_half_even.
      destruct (y - inject_Z (Qfloor y) ?= 1 # 2)%Q; [destruct (Z.even _) | |]; lia. }
    lia.
Qed.

Lemma round3_mono (x y : Q) : (x <= y)%Q -> (round3 x <= round3 y)%Q.
Proof.
  intros H. unfold round3. apply Qmult_le_compat_r; [| discriminate].
  rewrite <- Zle_Qle. apply round_half_even_mono.
  apply Qmult_le_compat_r; [exact H | discriminate].
Qed.

Lemma round_half_even_proper (x y : Q) :
  (x == y)%Q -> round_half_even x = round_half_even y.
Proof.
  intros H. apply Z.le_antisymm; apply round_half_even_mono; rewrite H; apply Qle_refl.
Qed.

Lemma sum_ge_element (l : list Q) (x : Q) :
  Forall (fun y => 0 < y)%Q l -> x ∈ l -> (x <= sum l)%Q.
Proof.
  induction 1 as [| y rest Hy Hrest IH]; intros Hin; [inversion Hin |].
  rewrite sum_cons.
  assert (Hsum : (0 <= sum rest)%Q).
  { destruct rest as [| z rest']; [discriminate |].
    apply Qlt_le_weak, sum_positive; [exact Hrest | discriminate]. }
  apply elem_of_cons in Hin as [-> | Hin]; [lra |].
  specialize (IH Hin). lra.
Qed.

Lemma sum_le_bound (l : list Q) (m : Q) :
  Forall (fun y => y <= m)%Q l ->
  (sum l <= inject_Z (Z.of_nat (length l)) * m)%Q.
Proof.
  induction 1 as [| y rest Hy _ IH].
  - change (sum []) with 0%Q.
    change (inject_Z (Z.of_nat (@length Q []))) with 0%Q. lra.
  - rewrite sum_cons. cbn [length].
    rewrite Nat2Z.inj_succ, <- Z.add_1_r, inject_Z_plus.
    change (inject_Z 1) with 1%Q. lra.
Qed.

Lemma foldl_min_in (x : Z) (zs : list Z) : foldl Z.min x zs ∈ x :: zs.
Proof.
  revert x. induction zs as [| z zs IH]; intros x; simpl.
  - apply elem_of_cons. left. reflexivity.
  - specialize (IH (Z.min x z)). apply elem_of_cons in IH as [Heq | Hin].
    + rewrite Heq. destruct (Z.min_spec x z) as [[_ ->] | [_ ->]].
      * apply elem_of_cons. left. reflexivity.
      * apply elem_of_cons. right. apply elem_of_cons. left. reflexivity.
    + apply elem_of_cons. right. apply elem_of_cons. right. exact Hin.
Qed.

Lemma foldl_max_in (x : Z) (zs : list Z) : foldl Z.max x zs ∈ x :: zs.
Proof.
  revert x. induction zs as [| z zs IH]; intros x; simpl.
  - apply elem_of_cons. left. reflexivity.
  - specialize (IH (Z.max x z)). apply elem_of_cons in IH as [Heq | Hin].
    + rewrite Heq. destruct (Z.max_spec x z) as [[_ ->] | [_ ->]].
      * apply elem_of_cons. right. apply elem_of_cons. left. reflexivity.
      * apply elem_of_cons. left. reflexivity.
    + apply elem_of_cons. right. apply elem_of_cons. right. exact Hin.
Qed.

(** A range that holds a floor without capacity gives TypeError. *)
Lemma floor_weights_mapping_None (p : params) :
  floor_number p <> 0 ->
  None ∈ (floor_capacity p <$> floor_range p : list pyval) ->
  floor_weights_mapping p = Raise TypeError.
Proof.
  intros Hfn Hnone. unfold floor_weights_mapping.
  destruct (floor_capacity p <$> floor_range p) as [| v rest]; [inversion Hnone |].
  apply elem_of_cons in Hnone as [<- | Hin].
  - destruct rest as [| x rest].
    + simpl. unfold py_truediv.
      destruct (Z.eqb_spec (floor_number p) 0); [contradiction | reflexivity].
    + unfold py_min. rewrite min_from_None; [reflexivity |].
      left. split; [reflexivity | discriminate].
  - unfold py_min. rewrite min_from_None; [reflexivity |]. right. exact Hin.
Qed.

(** A range whose floors all have the least capacity gives
    ZeroDivisionError. *)
Lemma floor_weights_mapping_flat (p : params) (z : Z) (zs : list Z) :
  floor_capacity p <$> floor_range p = Some <$> z :: zs ->
  foldl Z.max z zs <= foldl Z.min z zs ->
  floor_weights_mapping p = Raise ZeroDivisionError.
Proof.
  intros Hzs Hflat. unfold floor_weights_mapping. rewrite Hzs, fmap_cons.
  unfold py_min, py_max. rewrite min_from_ints, max_from_ints. cbn [bind].
  destruct (foldl_min_le z zs) as [Hm _], (foldl_max_ge z zs) as [HM _].
  unfold py_truediv at 1.
  destruct (floor_number p =? 0); [reflexivity |]. cbn [bind for_each py_sub].
  unfold py_truediv.
  destruct (Z.eqb_spec (foldl Z.max z zs - foldl Z.min z zs) 0); [reflexivity | lia].
Qed.

(** The weights that the derivation returns, in closed form. *)
Lemma floor_weights_mapping_Ok_inv (p : params) (weights : list Q) :
  0 < floor_number p ->
  floor_weights_mapping p = Ok weights ->
  exists (z : Z) (zs : list Z),
    floor_capacity p <$> floor_range p = Some <$> z :: zs
    /\ foldl Z.min z zs < foldl Z.max z zs
    /\ weights = normalized (raw_weight (floor_number p) (foldl Z.min z zs)
                               (foldl Z.max z zs) <$> z :: zs).
Proof.
  intros Hfn H.
  destruct (pyvals_None_or_ints (floor_capacity p <$> floor_range p))
    as [Hnone | [zs Hzs]].
  { rewrite floor_weights_mapping_None in H; [discriminate | lia | exact Hnone]. }
  destruct zs as [| z zs].
  { unfold floor_weights_mapping in H. rewrite Hzs in H. discriminate. }
  exists z, zs. split; [exact Hzs |].
  destruct (Z_lt_le_dec (foldl Z.min z zs) (foldl Z.max z zs)) as [Hlt | Hge].
  - split; [exact Hlt |].
    rewrite (floor_weights_mapping_ints p z zs Hfn Hzs Hlt) in H.
    injection H as <-. reflexivity.
  - rewrite (floor_weights_mapping_flat p z zs Hzs Hge) in H. discriminate.
Qed.

(** The weights floor by floor: the weight at the place of a floor is its
    raw weight over the sum of the raw weights, rounded, and depends on
    the floor's capacity only. *)
Lemma floor_weights_by_floor (p : params) (weights : list Q) :
  0 < floor_number p ->
  floor_weights_mapping p = Ok weights ->
  exists (lo hi : Z) (raws : list Q),
    lo < hi
    /\ Forall (fun r => 0 < r <= raw_weight (floor_number p) lo hi hi)%Q raws
    /\ length raws = length (floor_range p)
    /\ weights = normalized raws
    /\ (forall (i : nat) (floor : Z),
           floor_range p !! i = Some floor ->
           exists a : Z,
             floor_capacity p floor = Some a /\ lo <= a <= hi
             /\ weights !! i
                = Some (round3 (raw_weight (floor_number p) lo hi a / sum raws)))
    /\ (exists floor, floor ∈ floor_range p /\ floor_capacity p floor = Some lo)
    /\ (exists floor, floor ∈ floor_range p /\ floor_capacity p floor = Some hi).
Proof.
  intros Hfn H.
  destruct (floor_weights_mapping_Ok_inv p weights Hfn H)
    as (z & zs & Hzs & Hlohi & ->).
  set (lo := foldl Z.min z zs) in *. set (hi := foldl Z.max z zs) in *.
  assert (Hbounds : Forall (fun x => lo <= x <= hi) (z :: zs)).
  { destruct (foldl_min_le z zs) as [Hm Hms], (foldl_max_ge z zs) as [HM HMs].
    constructor; [subst lo hi; lia |].
    apply Forall_forall. intros x Hx. rewrite Forall_forall in Hms, HMs.
    split; [apply Hms | apply HMs]; exact Hx. }
  assert (Hratio : forall a, lo <= a <= hi ->
             (0 <= inject_Z (a - lo) / inject_Z (hi - lo) <= 1)%Q).
  { intros a Ha.
    assert (Hden : (0 < inject_Z (hi - lo))%Q)
      by (change 0%Q with (inject_Z 0); rewrite <- Zlt_Qlt; lia).
    split.
    - apply Qle_shift_div_l; [exact Hden |]. rewrite Qmult_0_l.
      change 0%Q with (inject_Z 0). rewrite <- Zle_Qle. lia.
    - apply Qle_shift_div_r; [exact Hden |]. rewrite Qmult_1_l.
      rewrite <- Zle_Qle. lia. }
  assert (Hself : (inject_Z (hi - lo) / inject_Z (hi - lo) == 1)%Q).
  { assert (Hden : (0 < inject_Z (hi - lo))%Q)
      by (change 0%Q with (inject_Z 0); rewrite <- Zlt_Qlt; lia).
    field. intros H0. rewrite H0 in Hden. discriminate. }
  assert (Hbase : (0 < inject_Z 1 / inject_Z (floor_number p))%Q).
  { apply Qlt_shift_div_l; [change 0%Q with (inject_Z 0); rewrite <- Zlt_Qlt; lia |].
    rewrite Qmult_0_l. reflexivity. }
  assert (Hfrom : forall (i : nat) (floor : Z),
             floor_range p !! i = Some floor ->
             exists a, floor_capacity p floor = Some a /\ (z :: zs) !! i = Some a).
  { intros i floor Hi.
    assert (Hcap : (floor_capacity p <$> floor_range p) !! i
                   = Some (floor_capacity p floor))
      by (rewrite list_lookup_fmap, Hi; reflexivity).
    rewrite Hzs, list_lookup_fmap in Hcap.
    destruct ((z :: zs) !! i) as [a |]; [| discriminate].
    injection Hcap as Hcap. eauto. }
  assert (Hback : forall a, a ∈ z :: zs ->
             exists floor, floor ∈ floor_range p /\ floor_capacity p floor = Some a).
  { intros a Ha.
    assert (Hmem : Some a ∈ (floor_capacity p <$> floor_range p : list pyval)).
    { rewrite Hzs. apply list_elem_of_fmap. eauto. }
    apply list_elem_of_fmap in Hmem as (floor & Hcap & Hin). eauto. }
  exists lo, hi, (raw_weight (floor_number p) lo hi <$> z :: zs).
  split; [exact Hlohi |]. split; [| split; [| split; [reflexivity | split; [| split]]]].
  - apply Forall_fmap. eapply Forall_impl; [| exact Hbounds].
    intros a Ha. cbv beta in Ha. simpl. unfold raw_weight.
    pose proof (Hratio a Ha) as [H0 H1]. rewrite Hself. lra.
  - rewrite length_fmap.
    rewrite <- (length_fmap Some (z :: zs)), <- Hzs, length_fmap. reflexivity.
  - intros i floor Hi. destruct (Hfrom i floor Hi) as (a & Hcap & Ha).
    exists a. split; [exact Hcap |]. split.
    + rewrite Forall_forall in Hbounds. apply Hbounds, list_elem_of_In.
      eapply list_elem_of_lookup_2, Ha.
    + unfold normalized. rewrite !list_lookup_fmap, Ha. reflexivity.
  - apply Hback, foldl_min_in.
  - apply Hback, foldl_max_in.
Qed.

(** X6.  For parameters that passed the validation, [floor_weights_mapping]
    returns weights exactly when every floor of the range resolves to a
    capacity and two floors resolve to different capacities. *)
Theorem floor_weights_mapping_returns_iff (file : config_file) (p : params) :
  load_elevator_variables file = Ok p ->
  (exists weights, floor_weights_mapping p = Ok weights)
  <-> (forall floor, floor ∈ floor_range p -> is_Some (floor_capacity p floor))
      /\ (exists f1 f2, f1 ∈ floor_range p /\ f2 ∈ floor_range p
                        /\ floor_capacity p f1 <> floor_capacity p f2).
Proof.
  intros Hload. split.
  - intros [weights H]. apply load_valid in Hload as [].
    destruct (floor_weights_by_floor p weights ltac:(assumption) H)
      as (lo & hi & raws & Hlohi & _ & _ & _ & Hat
          & (f1 & Hf1 & Hc1) & (f2 & Hf2 & Hc2)).
    split.
    + intros floor Hin. apply list_elem_of_lookup_1 in Hin as [i Hi].
      destruct (Hat i floor Hi) as (a & -> & _). eauto.
    + exists f1, f2. repeat split; try assumption.
      rewrite Hc1, Hc2. intros Heq. injection Heq as Heq. lia.
  - intros [Hknown Hdiff].
    exact (floor_weights_mapping_defined file p Hload Hknown Hdiff).
Qed.

Lemma floor_weights_mapping_returns_iff_witness :
  load_elevator_variables (Parsed Sample.five_floors)
  = Ok Sample.five_floors_params
  /\ ((exists weights, floor_weights_mapping Sample.five_floors_params = Ok weights)
      <-> (forall floor, floor ∈ floor_range Sample.five_floors_params ->
                         is_Some (floor_capacity Sample.five_floors_params floor))
          /\ (exists f1 f2,
                 f1 ∈ floor_range Sample.five_floors_params
                 /\ f2 ∈ floor_range Sample.five_floors_params
                 /\ floor_capacity Sample.five_floors_params f1
                    <> floor_capacity Sample.five_floors_params f2)).
Proof.
  split; [reflexivity |].
  apply (floor_weights_mapping_returns_iff (Parsed Sample.five_floors)).
  reflexivity.
Defined.

(** X7.  Every weight that the derivation returns for validated
    parameters is one of 0.000, 0.001, ..., 1.000: a whole number of
    thousandths between 0 and 1. *)
Theorem floor_weights_are_thousandths (file : config_file) (p : params)
    (weights : list Q) (w : Q) :
  load_elevator_variables file = Ok p ->
  floor_weights_mapping p = Ok weights ->
  w ∈ weights ->
  exists k : Z, 0 <= k <= 1000 /\ w = (inject_Z k / 1000)%Q.
Proof.
  intros Hload H Hw. apply load_valid in Hload as [].
  destruct (floor_weights_by_floor p weights ltac:(assumption) H)
    as (lo & hi & raws & _ & Hraws & _ & -> & _).
  unfold normalized in Hw. apply list_elem_of_fmap in Hw as (r & -> & Hr).
  assert (Hpos : Forall (fun y => 0 < y)%Q raws).
  { eapply Forall_impl; [| exact Hraws]. intros y Hy. cbv beta in Hy. tauto. }
  assert (Hr0 : (0 < r)%Q).
  { rewrite Forall_forall in Hpos. apply Hpos, list_elem_of_In, Hr. }
  pose proof (sum_ge_element raws r Hpos Hr) as Hle.
  assert (Htotal : (0 < sum raws)%Q) by lra.
  assert (Hlow : (0 <= r / sum raws)%Q).
  { apply Qle_shift_div_l; [exact Htotal | lra]. }
  assert (Hhigh : (r / sum raws <= 1)%Q).
  { apply Qle_shift_div_r; [exact Htotal | lra]. }
  exists (round_half_even (r / sum raws * 1000)). split; [| reflexivity].
  split.
  - apply round_half_even_lower. change (inject_Z 0) with 0%Q. lra.
  - apply round_half_even_upper. change (inject_Z 1000) with 1000%Q. lra.
Qed.

Lemma floor_weights_are_thousandths_witness :
  load_elevator_variables (Parsed Sample.five_floors)
  = Ok Sample.five_floors_params
  /\ exists k : Z, 0 <= k <= 1000 /\ (600 # 1000)%Q = (inject_Z k / 1000)%Q.
Proof.
  split; [reflexivity |].
  apply (floor_weights_are_thousandths (Parsed Sample.five_floors)
           Sample.five_floors_params
           [0.600; 0.100; 0.100; 0.100; 0.100]%Q (600 # 1000)%Q).
  - reflexivity.
  - vm_compute. reflexivity.
  - apply elem_of_cons. left. reflexivity.
Defined.

(** X8.  The weight of a floor grows with its capacity: of two floors of
    the range, the one of the greater capacity has a weight at least as
    great, and floors of the same capacity have the same weight. *)
Theorem floor_weights_follow_capacity (file : config_file) (p : params)
    (weights : list Q) (i j : nat) (f1 f2 a b : Z) :
  load_elevator_variables file = Ok p ->
  floor_weights_mapping p = Ok weights ->
  floor_range p !! i = Some f1 -> floor_range p !! j = Some f2 ->
  floor_capacity p f1 = Some a -> floor_capacity p f2 = Some b ->
  a <= b ->
  exists w1 w2 : Q,
    weights !! i = Some w1 /\ weights !! j = Some w2
    /\ (w1 <= w2)%Q /\ (a = b -> w1 = w2).
Proof.
  intros Hload H Hi Hj Ha Hb Hab. apply load_valid in Hload as [].
  destruct (floor_weights_by_floor p weights ltac:(assumption) H)
    as (lo & hi & raws & Hlohi & Hraws & Hlen & _ & Hat & _).
  destruct (Hat i f1 Hi) as (a' & Ha' & Hbounds_a & Hw1).
  destruct (Hat j f2 Hj) as (b' & Hb' & Hbounds_b & Hw2).
  assert (a' = a) by congruence. assert (b' = b) by congruence. subst a' b'.
  eexists. eexists. split; [exact Hw1 |]. split; [exact Hw2 |].
  split; [| intros ->; reflexivity].
  assert (Hpos : Forall (fun y => 0 < y)%Q raws).
  { eapply Forall_impl; [| exact Hraws]. intros y Hy. cbv beta in Hy. tauto. }
  assert (Htotal : (0 < sum raws)%Q).
  { apply sum_positive; [exact Hpos |]. intros ->.
    apply lookup_lt_Some in Hi. rewrite <- Hlen in Hi. simpl in Hi. lia. }
  apply round3_mono. unfold Qdiv. apply Qmult_le_compat_r.
  - unfold raw_weight.
    assert (Hratio : (inject_Z (a - lo) / inject_Z (hi - lo)
                      <= inject_Z (b - lo) / inject_Z (hi - lo))%Q).
    { unfold Qdiv. apply Qmult_le_compat_r; [rewrite <- Zle_Qle; lia |].
      apply Qlt_le_weak, Qinv_lt_0_compat.
      change 0%Q with (inject_Z 0). rewrite <- Zlt_Qlt. lia. }
    lra.
  - apply Qlt_le_weak, Qinv_lt_0_compat, Htotal.
Qed.

Lemma floor_weights_follow_capacity_witness :
  load_elevator_variables (Parsed Sample.five_floors)
  = Ok Sample.five_floors_params
  /\ exists w1 w2 : Q,
       [0.600; 0.100; 0.100; 0.100; 0.100]%Q !! 3%nat = Some w1
       /\ [0.600; 0.100; 0.100; 0.100; 0.100]%Q !! 0%nat = Some w2
       /\ (w1 <= w2)%Q /\ (10 = 40 -> w1 = w2).
Proof.
  split; [reflexivity |].
  apply (floor_weights_follow_capacity (Parsed Sample.five_floors)
           Sample.five_floors_params
           [0.600; 0.100; 0.100; 0.100; 0.100]%Q 3 0 3 0 10 40);
    [reflexivity | vm_compute; reflexivity | reflexivity | reflexivity
    | reflexivity | reflexivity | lia].
Defined.

(** ** The weighted draws *)

(** The support of a weighted draw: the population elements at the places
    of the positive weights. *)
Lemma support_elem (population : list Z) (weights : list Q) (x : Z) :
  x ∈ support population weights
  <-> exists (i : nat) (w : Q),
        population !! i = Some x /\ weights !! i = Some w /\ (0 < w)%Q.
Proof.
  unfold support. revert weights.
  induction population as [| x0 population IH]; intros [| w0 weights]; simpl.
  - split; [intros H; inversion H | intros (i & w & H & _); discriminate].
  - split; [intros H; inversion H | intros (i & w & H & _); discriminate].
  - split; [intros H; inversion H | intros (i & w & _ & H & _); discriminate].
  - destruct (Qltb 0 w0) eqn:E; simpl.
    + rewrite elem_of_cons, IH. split.
      * intros [-> | (i & w & Hp & Hw & Hpos)].
        -- exists 0%nat, w0. apply Qltb_lt in E. auto.
        -- exists (S i), w. auto.
      * intros ([| i] & w & Hp & Hw & Hpos); simpl in Hp, Hw.
        -- left. congruence.
        -- right. eauto.
    + rewrite IH. split.
      * intros (i & w & Hp & Hw & Hpos). exists (S i), w. auto.
      * intros ([| i] & w & Hp & Hw & Hpos); simpl in Hp, Hw.
        -- injection Hw as <-. apply Qltb_ge in E. lra.
        -- eauto.
Qed.

(** A draw takes one raw number from the generator. *)
Lemma choices_advances (population : list Z) (weights : list Q) (g g' : rng)
    (x : Z) :
  choices population weights g = Ok (x, g') -> g' = snd (next_raw g).
Proof.
  unfold choices. destruct (negb _); [discriminate |].
  destruct (_ =? _)%nat; [discriminate |].
  destruct (negb _); [discriminate |].
  destruct (support population weights) as [| y ys]; [discriminate |].
  unfold next_raw. cbv beta iota. intros H. injection H as _ <-. reflexivity.
Qed.

(** A draw that returns had a positive total of weights. *)
Lemma choices_total (population : list Z) (weights : list Q) (g g' : rng)
    (x : Z) :
  choices population weights g = Ok (x, g') ->
  length weights = length population /\ (0 < sum weights)%Q.
Proof.
  unfold choices.
  destruct (Nat.eqb_spec (length weights) (length population)) as [Hlen | _];
    [| discriminate].
  cbn [negb]. destruct (_ =? _)%nat; [discriminate |].
  destruct (Qltb 0 (sum weights)) eqn:E; [| discriminate].
  intros _. split; [exact Hlen | apply Qltb_lt, E].
Qed.

(** Weights none of which is negative add up to at least each of
    them. *)
Lemma sum_ge_lookup (l : list Q) (i : nat) (w : Q) :
  Forall (fun y => 0 <= y)%Q l -> l !! i = Some w -> (w <= sum l)%Q.
Proof.
  intros Hall. revert i. induction Hall as [| y rest Hy Hrest IH]; intros i Hi.
  - inversion Hi.
  - rewrite sum_cons. pose proof (sum_nonneg rest Hrest) as Hsum.
    destruct i as [| i]; simpl in Hi.
    + injection Hi as ->. lra.
    + pose proof (IH i Hi). lra.
Qed.

(** X9.  A floor that [pick_random_floor_weighted] returns is a floor of
    the building, [negative_floor_number <= floor < floor_number], and the
    weight at its place in [weight_list] is positive; the draw takes one
    number from the random source. *)
Theorem pick_random_floor_weighted_in_range (p : params) (weight_list : list Q)
    (g g' : rng) (floor : Z) :
  pick_random_floor_weighted p weight_list g = Ok (floor, g') ->
  negative_floor_number p <= floor < floor_number p
  /\ (exists w, weight_list !! Z.to_nat (floor - negative_floor_number p) = Some w
                /\ (0 < w)%Q)
  /\ pos g' = S (pos g).
Proof.
  unfold pick_random_floor_weighted. intros H.
  pose proof (choices_advances _ _ _ _ _ H) as ->.
  apply choices_in_support, support_elem in H as (i & w & Hi & Hw & Hpos).
  unfold floor_range, range in Hi. apply lookup_seqZ in Hi as [-> Hlt].
  split; [lia |]. split; [| reflexivity].
  exists w. split; [| exact Hpos].
  replace (Z.to_nat (negative_floor_number p + Z.of_nat i
                     - negative_floor_number p)) with i by lia.
  exact Hw.
Qed.

Lemma pick_random_floor_weighted_in_range_witness :
  pick_random_floor_weighted Sample.five_floors_params
    [0.6; 0.1; 0.1; 0.1; 0.1]%Q (Sample.scripted [3]%nat)
  = Ok (3, {| raw := fun n => nth n [3]%nat O; pos := 1 |})
  /\ negative_floor_number Sample.five_floors_params <= 3
     < floor_number Sample.five_floors_params
  /\ (exists w,
         [0.6; 0.1; 0.1; 0.1; 0.1]%Q
           !! Z.to_nat (3 - negative_floor_number Sample.five_floors_params)
         = Some w
         /\ (0 < w)%Q)
  /\ pos {| raw := fun n => nth n [3]%nat O; pos := 1 |}
     = S (pos (Sample.scripted [3]%nat)).
Proof.
  split; [reflexivity |].
  apply (pick_random_floor_weighted_in_range Sample.five_floors_params
           [0.6; 0.1; 0.1; 0.1; 0.1]%Q (Sample.scripted [3]%nat)).
  reflexivity.
Defined.

(** A floor is drawn exactly when there is one weight per floor, the
    total of the weights is positive and some weight is positive. *)
Lemma pick_random_floor_weighted_returns_iff (p : params)
    (weight_list : list Q) (g : rng) :
  (exists floor,
      pick_random_floor_weighted p weight_list g = Ok (floor, snd (next_raw g)))
  <-> length weight_list = length (floor_range p)
      /\ (0 < sum weight_list)%Q
      /\ exists (i : nat) (w : Q), (i < length (floor_range p))%nat
                                   /\ weight_list !! i = Some w /\ (0 < w)%Q.
Proof.
  unfold pick_random_floor_weighted. split.
  - intros [floor H].
    destruct (choices_total _ _ _ _ _ H) as [Hlen Htotal].
    split; [exact Hlen |]. split; [exact Htotal |].
    apply choices_in_support, support_elem in H as (i & w & Hi & Hw & Hpos).
    exists i, w. split; [eapply lookup_lt_Some, Hi | auto].
  - intros (Hlen & Htotal & i & w & Hi & Hw & Hpos).
    apply choices_returns; [exact Hlen | exact Htotal |].
    apply lookup_lt_is_Some in Hi as [x Hx].
    intros Hnil.
    assert (Hin : x ∈ support (floor_range p) weight_list)
      by (apply support_elem; eauto).
    rewrite Hnil in Hin. inversion Hin.
Qed.

(** The weight of a floor of the greatest capacity, in a building of at
    most 1000 floors, and the draws it allows. *)
Lemma floor_weights_top_weight (p : params) (weights : list Q) :
  valid_params p ->
  floor_weights_mapping p = Ok weights ->
  floor_number p - negative_floor_number p <= 1000 ->
  (exists (i : nat) (floor : Z) (w : Q),
      floor_range p !! i = Some floor /\ weights !! i = Some w
      /\ (1 # 1000 <= w)%Q)
  /\ forall g : rng,
       exists floor,
         pick_random_floor_weighted p weights g = Ok (floor, snd (next_raw g)).
Proof.
  intros [] H Hsmall.
  destruct (floor_weights_by_floor p weights ltac:(assumption) H)
    as (lo & hi & raws & Hlohi & Hraws & Hlen & Hnorm & Hat & _ & (f & Hf & Hcap)).
  apply list_elem_of_lookup_1 in Hf as [i Hi].
  destruct (Hat i f Hi) as (a & Ha & _ & Hw).
  assert (a = hi) by congruence. subst a.
  set (top := raw_weight (floor_number p) lo hi hi) in *.
  assert (Hpos : Forall (fun y => 0 < y)%Q raws).
  { eapply Forall_impl; [| exact Hraws]. intros y Hy. cbv beta in Hy. tauto. }
  assert (Hle : Forall (fun y => y <= top)%Q raws).
  { eapply Forall_impl; [| exact Hraws]. intros y Hy. cbv beta in Hy. tauto. }
  assert (Hne : raws <> []).
  { intros ->. apply lookup_lt_Some in Hi. rewrite <- Hlen in Hi. simpl in Hi. lia. }
  pose proof (sum_positive raws Hpos Hne) as Htotal.
  pose proof (sum_le_bound raws top Hle) as Hbound.
  assert (Htop : (0 < top)%Q).
  { unfold top, raw_weight. apply raw_weight_positive; lia. }
  assert (Hcount : (inject_Z (Z.of_nat (length raws)) <= 1000)%Q).
  { change 1000%Q with (inject_Z 1000). rewrite <- Zle_Qle.
    rewrite Hlen. unfold floor_range, range. rewrite length_seqZ. lia. }
  assert (Hscale : (inject_Z (Z.of_nat (length raws)) * top <= 1000 * top)%Q).
  { apply Qmult_le_compat_r; [exact Hcount | lra]. }
  assert (Hshare : (1 # 1000 <= top / sum raws)%Q).
  { apply Qle_shift_div_l; [exact Htotal | lra]. }
  assert (Hweight : (1 # 1000 <= round3 (top / sum raws))%Q).
  { unfold round3.
    assert (Hk : 1 <= round_half_even (top / sum raws * 1000)).
    { apply round_half_even_lower. change (inject_Z 1) with 1%Q. lra. }
    apply Qle_shift_div_l; [reflexivity |].
    rewrite Zle_Qle in Hk. change (inject_Z 1) with 1%Q in Hk. lra. }
  split.
  - exists i, f, (round3 (top / sum raws)). auto.
  - intros g. apply pick_random_floor_weighted_returns_iff. split.
    + rewrite Hnorm. unfold normalized. rewrite length_fmap. exact Hlen.
    + split.
      * assert (Hnonneg : Forall (fun y => 0 <= y)%Q weights).
        { rewrite Hnorm. unfold normalized. apply Forall_fmap.
          eapply Forall_impl; [| exact Hpos]. intros y Hy. cbv beta in Hy.
          unfold compose, round3.
          assert (Hk : 0 <= round_half_even (y / sum raws * 1000)).
          { apply round_half_even_lower. change (inject_Z 0) with 0%Q.
            apply Qmult_le_0_compat; [| discriminate].
            apply Qle_shift_div_l; [exact Htotal | lra]. }
          apply Qle_shift_div_l; [reflexivity |].
          rewrite Zle_Qle in Hk. change (inject_Z 0) with 0%Q in Hk. lra. }
        pose proof (sum_ge_lookup weights i _ Hnonneg Hw). lra.
      * exists i, (round3 (top / sum raws)).
        split; [eapply lookup_lt_Some, Hi |]. split; [exact Hw | lra].
Qed.

(** X10.  In a building of at most 1000 floors the derived weights let
    every draw succeed: the weight of a floor of the greatest capacity is
    at least 0.001, so [pick_random_floor_weighted] returns a floor for
    every state of the random source. *)
Theorem floor_weights_allow_draws (file : config_file) (p : params)
    (weights : list Q) :
  load_elevator_variables file = Ok p ->
  floor_weights_mapping p = Ok weights ->
  floor_number p - negative_floor_number p <= 1000 ->
  (exists (i : nat) (floor : Z) (w : Q),
      floor_range p !! i = Some floor /\ weights !! i = Some w
      /\ (1 # 1000 <= w)%Q)
  /\ forall g : rng,
       exists floor,
         pick_random_floor_weighted p weights g = Ok (floor, snd (next_raw g)).
Proof.
  intros Hload. apply floor_weights_top_weight. exact (load_valid _ _ Hload).
Qed.

Lemma floor_weights_allow_draws_witness :
  load_elevator_variables (Parsed Sample.five_floors)
  = Ok Sample.five_floors_params
  /\ (exists (i : nat) (floor : Z) (w : Q),
         floor_range Sample.five_floors_params !! i = Some floor
         /\ [0.600; 0.100; 0.100; 0.100; 0.100]%Q !! i = Some w
         /\ (1 # 1000 <= w)%Q)
  /\ forall g : rng,
       exists floor,
         pick_random_floor_weighted Sample.five_floors_params
           [0.600; 0.100; 0.100; 0.100; 0.100]%Q g
         = Ok (floor, snd (next_raw g)).
Proof.
  split; [reflexivity |].
  apply (floor_weights_allow_draws (Parsed Sample.five_floors)
           Sample.five_floors_params [0.600; 0.100; 0.100; 0.100; 0.100]%Q);
    [reflexivity | vm_compute; reflexivity | simpl; lia].
Defined.

(** What the draws of [pick_next_door] give: a floor of positive weight
    that is not the demand floor, after one raw number per draw. *)
Lemma first_other_facts (p : params) (weight_list : list Q) (c : cursor)
    (g g' : rng) (n : nat) (floor : Z) :
  first_other p weight_list c g n floor g' ->
  floor ∈ support (floor_range p) weight_list
  /\ floor <> demand_floor c
  /\ pos g' = (pos g + S n)%nat.
Proof.
  induction 1 as [g g' floor Hdraw Hne | g g1 g' n floor Hdraw _ IH].
  - split; [exact (choices_in_support _ _ _ _ _ Hdraw) |].
    split; [exact Hne |].
    rewrite (choices_advances _ _ _ _ _ Hdraw). simpl. lia.
  - destruct IH as (Hin & Hne & Hpos). split; [exact Hin |].
    split; [exact Hne |].
    rewrite Hpos, (choices_advances _ _ _ _ _ Hdraw). simpl. lia.
Qed.

(** X11.  A floor that [pick_next_door] returns is a floor of the
    building whose weight is positive, and the loop has taken at least one
    and at most [fuel] numbers from the random source, one per
    iteration. *)
Theorem pick_next_door_in_range (fuel : nat) (p : params) (weight_list : list Q)
    (c : cursor) (g g' : rng) (floor : Z) :
  pick_next_door fuel p weight_list c g = Ok (floor, g') ->
  negative_floor_number p <= floor < floor_number p
  /\ (exists w, weight_list !! Z.to_nat (floor - negative_floor_number p) = Some w
                /\ (0 < w)%Q)
  /\ (pos g < pos g' <= pos g + fuel)%nat.
Proof.
  intros H. apply pick_next_door_Ok in H as (n & Hn & Hfirst).
  apply first_other_facts in Hfirst as (Hin & _ & Hpos).
  apply support_elem in Hin as (i & w & Hi & Hw & Hw0).
  unfold floor_range, range in Hi. apply lookup_seqZ in Hi as [-> Hlt].
  split; [lia |]. split; [| lia].
  exists w. split; [| exact Hw0].
  replace (Z.to_nat (negative_floor_number p + Z.of_nat i
                     - negative_floor_number p)) with i by lia.
  exact Hw.
Qed.

Lemma pick_next_door_in_range_witness :
  pick_next_door 3 Sample.five_floors_params [0.6; 0.1; 0.1; 0.1; 0.1]%Q
    Sample.at_floor_0 (Sample.scripted [2; 2; 4]%nat)
  = Ok (4, {| raw := fun n => nth n [2; 2; 4]%nat O; pos := 3 |})
  /\ negative_floor_number Sample.five_floors_params <= 4
     < floor_number Sample.five_floors_params
  /\ (exists w,
         [0.6; 0.1; 0.1; 0.1; 0.1]%Q
           !! Z.to_nat (4 - negative_floor_number Sample.five_floors_params)
         = Some w
         /\ (0 < w)%Q)
  /\ (pos (Sample.scripted [2; 2; 4]%nat) < 3
      <= pos (Sample.scripted [2; 2; 4]%nat) + 3)%nat.
Proof.
  split; [reflexivity |].
  apply (pick_next_door_in_range 3 Sample.five_floors_params
           [0.6; 0.1; 0.1; 0.1; 0.1]%Q Sample.at_floor_0
           (Sample.scripted [2; 2; 4]%nat)
           {| raw := fun n => nth n [2; 2; 4]%nat O; pos := 3 |} 4).
  reflexivity.
Defined.

(** X12.  [pick_next_door] returns a floor exactly when the draws are
    some draws of the demand floor, fewer than the fuel, followed by a
    draw of that floor, which is not the demand floor: it returns the
    first drawn floor that differs from the demand floor.  More fuel does
    not change what it returns. *)
Theorem pick_next_door_first_other (fuel : nat) (p : params)
    (weight_list : list Q) (c : cursor) (g g' : rng) (floor : Z) :
  (pick_next_door fuel p weight_list c g = Ok (floor, g')
   <-> exists n : nat, (n < fuel)%nat /\ first_other p weight_list c g n floor g')
  /\ (pick_next_door fuel p weight_list c g = Ok (floor, g') ->
      forall more : nat,
        pick_next_door (fuel + more) p weight_list c g = Ok (floor, g')).
Proof.
  split; [split |].
  - apply pick_next_door_Ok.
  - intros (n & Hn & Hfirst).
    exact (pick_next_door_enough_fuel p weight_list c g g' n floor Hfirst fuel Hn).
  - intros H more. apply pick_next_door_Ok in H as (n & Hn & Hfirst).
    apply (pick_next_door_enough_fuel p weight_list c g g' n floor Hfirst). lia.
Qed.

(** X13.  When no weight is negative and the demand floor is the only
    floor whose weight is positive, [pick_next_door] never returns: every
    draw is the demand floor, whatever the fuel and the random source. *)
Theorem pick_next_door_only_demand_floor_loops (fuel : nat) (p : params)
    (weight_list : list Q) (c : cursor) (g : rng) :
  length weight_list = length (floor_range p) ->
  Forall (fun w => 0 <= w)%Q weight_list ->
  (exists (i : nat) (w : Q), (i < length (floor_range p))%nat
                             /\ weight_list !! i = Some w /\ (0 < w)%Q) ->
  (forall (i : nat) (floor : Z) (w : Q),
      floor_range p !! i = Some floor -> weight_list !! i = Some w ->
      (0 < w)%Q -> floor = demand_floor c) ->
  pick_next_door fuel p weight_list c g = OutOfFuel.
Proof.
  intros Hlen Hnonneg (i & w & Hi & Hw & Hpos) Honly.
  apply pick_next_door_no_other_floor; [exact Hlen | | |].
  - pose proof (sum_ge_lookup weight_list i w Hnonneg Hw). lra.
  - apply lookup_lt_is_Some in Hi as [x Hx]. intros Hnil.
    assert (Hin : x ∈ support (floor_range p) weight_list)
      by (apply support_elem; eauto).
    rewrite Hnil in Hin. inversion Hin.
  - intros x Hx. apply support_elem in Hx as (j & w' & Hj & Hw' & Hpos').
    exact (Honly j x w' Hj Hw' Hpos').
Qed.

Lemma pick_next_door_only_demand_floor_loops_witness :
  pick_next_door 50 Sample.five_floors_params [0; 0; 1; 0; 0]%Q
    Sample.at_floor_0 Sample.counting
  = OutOfFuel.
Proof.
  apply (pick_next_door_only_demand_floor_loops 50 Sample.five_floors_params
           [0; 0; 1; 0; 0]%Q Sample.at_floor_0 Sample.counting).
  - reflexivity.
  - repeat constructor; discriminate.
  - exists 2%nat, 1%Q. split; [simpl; lia | split; reflexivity].
  - intros i floor w Hi Hw Hpos.
    destruct i as [| [| [| [| [| i]]]]]; simpl in Hi, Hw;
      try discriminate; injection Hi as <-; injection Hw as <-;
      try reflexivity; discriminate.
Defined.

(** ** The cursor and the run *)

(** A drawn floor is a floor of the building; the draw takes one raw
    number. *)
Lemma drawn_floor_in_range (p : params) (weight_list : list Q)
    (g g' : rng) (floor : Z) :
  pick_random_floor_weighted p weight_list g = Ok (floor, g') ->
  negative_floor_number p <= floor < floor_number p /\ pos g' = S (pos g).
Proof.
  unfold pick_random_floor_weighted. intros H.
  pose proof (choices_advances _ _ _ _ _ H) as ->.
  apply choices_in_support, support_elem in H as (i & w & Hi & _).
  unfold floor_range, range in Hi. apply lookup_seqZ in Hi as [-> Hlt].
  split; [lia | reflexivity].
Qed.

(** X14.  On an empty store [obtain_table_last_state] seeds the cursor
    with two drawn floors of the building and the time of the call, and
    takes two numbers from the random source. *)
Theorem cold_start_cursor (p : params) (weight_list : list Q) (today : datetime)
    (g g' : rng) (c : cursor) :
  obtain_table_last_state p weight_list None today g = Ok (c, g') ->
  negative_floor_number p <= current_floor c < floor_number p
  /\ negative_floor_number p <= demand_floor c < floor_number p
  /\ start_time c = today
  /\ pos g' = S (S (pos g)).
Proof.
  unfold obtain_table_last_state. intros H.
  invert_bind H. destruct a as [cf g1].
  invert_bind H. destruct a as [df g2]. injection H as <- <-. simpl.
  apply drawn_floor_in_range in Hstep as [Hcf Hg1].
  apply drawn_floor_in_range in Hstep0 as [Hdf Hg2].
  split; [exact Hcf |]. split; [exact Hdf |]. split; [reflexivity |].
  rewrite Hg2, Hg1. reflexivity.
Qed.

Lemma cold_start_cursor_witness :
  obtain_table_last_state Sample.five_floors_params
    [0.6; 0.1; 0.1; 0.1; 0.1]%Q None Sample.new_year_2024 Sample.counting
  = Ok ({| current_floor := 0; demand_floor := 1;
           start_time := Sample.new_year_2024 |},
        {| raw := fun n => n; pos := 2 |})
  /\ negative_floor_number Sample.five_floors_params <= 0
     < floor_number Sample.five_floors_params
  /\ negative_floor_number Sample.five_floors_params <= 1
     < floor_number Sample.five_floors_params
  /\ Sample.new_year_2024 = Sample.new_year_2024
  /\ 2%nat = S (S (pos Sample.counting)).
Proof.
  split; [reflexivity |].
  apply (cold_start_cursor Sample.five_floors_params
           [0.6; 0.1; 0.1; 0.1; 0.1]%Q Sample.new_year_2024 Sample.counting
           {| raw := fun n => n; pos := 2 |}
           {| current_floor := 0; demand_floor := 1;
              start_time := Sample.new_year_2024 |}).
  reflexivity.
Defined.

(** Where one iteration leaves the cursor, and the floor it moves to. *)
Lemma generate_one_cursor (fuel : nat) (p : params) (weight_list : list Q)
    (c c' : cursor) (g g' : rng) (s : generated_state) :
  generate_one fuel p weight_list c g = Ok (s, c', g') ->
  negative_floor_number p <= nextFloor s < floor_number p
  /\ nextFloor s <> demandFloor s
  /\ current_floor c' = nextFloor s
  /\ negative_floor_number p <= demand_floor c' < floor_number p.
Proof.
  unfold generate_one. intros H.
  invert_bind H. destruct a as [next_floor g1].
  invert_bind H. destruct a as [minutes g2].
  invert_bind H. rename a into call_datetime.
  invert_bind H. destruct a as [df g3].
  injection H as <- <- <-. cbn.
  apply pick_next_door_Ok in Hstep as (n & _ & Hfirst).
  apply first_other_facts in Hfirst as (Hin & Hne & _).
  apply support_elem in Hin as (i & w0 & Hi & _).
  unfold floor_range, range in Hi. apply lookup_seqZ in Hi as [Hnext Hlt].
  apply drawn_floor_in_range in Hstep2 as [Hdf _].
  split; [lia |]. split; [exact Hne |]. split; [reflexivity | exact Hdf].
Qed.

Lemma generate_rows_length (fuel : nat) (p : params) (weight_list : list Q)
    (rows : nat) (c : cursor) (g : rng) (states : list generated_state) :
  generate_rows fuel rows p weight_list c g = Ok states ->
  length states = rows.
Proof.
  revert c g states. induction rows as [| rows IH]; intros c g states H;
    simpl in H.
  - injection H as <-. reflexivity.
  - invert_bind H. destruct a as [[s0 c'] g'].
    invert_bind H. injection H as <-.
    simpl. rewrite (IH _ _ _ Hstep0). reflexivity.
Qed.

(** The floors of the states of the loop: every state moves to a floor
    of the building other than its demand floor; the first state starts
    from the cursor and every later one from floors of the building. *)
Lemma generate_rows_floors (fuel : nat) (p : params) (weight_list : list Q)
    (rows : nat) (c : cursor) (g : rng) (states : list generated_state) :
  generate_rows fuel rows p weight_list c g = Ok states ->
  Forall (fun s => negative_floor_number p <= nextFloor s < floor_number p
                   /\ nextFloor s <> demandFloor s) states
  /\ (forall s, states !! 0%nat = Some s ->
                currentFloor s = current_floor c
                /\ demandFloor s = demand_floor c)
  /\ (forall i s, states !! S i = Some s ->
                  negative_floor_number p <= currentFloor s < floor_number p
                  /\ negative_floor_number p <= demandFloor s < floor_number p).
Proof.
  revert c g states. induction rows as [| rows IH]; intros c g states H;
    simpl in H.
  - injection H as <-.
    split; [constructor |].
    split; [intros s Hs; inversion Hs | intros i s Hs; inversion Hs].
  - invert_bind H. destruct a as [[s0 c'] g'].
    invert_bind H. rename a into others. injection H as <-.
    destruct (IH c' g' others Hstep0) as (Hall & Hfirst & Hlater).
    destruct (generate_one_cursor _ _ _ _ _ _ _ _ Hstep)
      as (Hnext & Hne & Hcur & Hdem).
    apply generate_one_Ok in Hstep
      as (minutes & g1 & g2 & _ & _ & Hcur0 & Hdem0 & _).
    split; [constructor; [split; assumption | exact Hall] |].
    split.
    + intros s Hs. simpl in Hs. injection Hs as <-. split; assumption.
    + intros [| i] s Hs; simpl in Hs.
      * destruct (Hfirst s Hs) as [-> ->]. rewrite Hcur. split; assumption.
      * exact (Hlater i s Hs).
Qed.

(** A run that returns has gone through its configuration, its weights
    and its cursor. *)
Lemma generate_elevator_states_Ok (fuel : nat) (file : config_file)
    (last_state : option ElevatorState) (today : datetime) (g : rng)
    (p : params) (states : list generated_state) :
  load_elevator_variables file = Ok p ->
  generate_elevator_states fuel file last_state today g = Ok states ->
  exists (weight_list : list Q) (c : cursor) (g0 : rng),
    floor_weights_mapping p = Ok weight_list
    /\ obtain_table_last_state p weight_list last_state today g = Ok (c, g0)
    /\ generate_rows fuel (Z.to_nat (rows_generated p)) p weight_list c g0
       = Ok states.
Proof.
  intros Hload H. unfold generate_elevator_states in H. rewrite Hload in H.
  cbn [bind] in H.
  invert_bind H. rename a into weight_list.
  invert_bind H. destruct a as [c g0].
  exists weight_list, c, g0. auto.
Qed.

(** X15.  A run that returns has created exactly [rows_generated]
    states. *)
Theorem generated_states_count (fuel : nat) (file : config_file)
    (last_state : option ElevatorState) (today : datetime) (g : rng)
    (p : params) (states : list generated_state) :
  load_elevator_variables file = Ok p ->
  generate_elevator_states fuel file last_state today g = Ok states ->
  Z.of_nat (length states) = rows_generated p.
Proof.
  intros Hload H.
  destruct (generate_elevator_states_Ok _ _ _ _ _ _ _ Hload H)
    as (weight_list & c & g0 & _ & _ & Hrows).
  apply load_valid in Hload as [].
  rewrite (generate_rows_length _ _ _ _ _ _ _ Hrows). lia.
Qed.

Lemma generated_states_count_witness :
  exists states,
    load_elevator_variables (Parsed Sample.five_floors)
    = Ok Sample.five_floors_params
    /\ generate_elevator_states 5 (Parsed Sample.five_floors) None
         Sample.new_year_2024 Sample.counting = Ok states
    /\ Z.of_nat (length states) = rows_generated Sample.five_floors_params.
Proof.
  eexists. split; [exact load_five_floors |]. split; [exact run_five_floors |].
  exact (generated_states_count 5 (Parsed Sample.five_floors) None
           Sample.new_year_2024 Sample.counting _ _
           load_five_floors run_five_floors).
Defined.

(** X16.  On a store that has a last state, the first state of a run
    starts at the floor the last state moved to, keeps its demand floor,
    and, when the random minutes are not negative, is not called before
    it. *)
Theorem generated_states_continue_last_state (fuel : nat) (file : config_file)
    (last : ElevatorState) (today : datetime) (g : rng)
    (p : params) (states : list generated_state) :
  load_elevator_variables file = Ok p ->
  generate_elevator_states fuel file (Some last) today g = Ok states ->
  exists (s : generated_state) (rest : list generated_state),
    states = s :: rest
    /\ currentFloor s = last_next_floor last
    /\ demandFloor s = last_demand_floor last
    /\ (0 <= random_minutes_min p -> last_call_datetime last <= callDatetime s).
Proof.
  intros Hload H.
  destruct (generate_elevator_states_Ok _ _ _ _ _ _ _ Hload H)
    as (weight_list & c & g0 & _ & Hseed & Hrows).
  pose proof (load_valid _ _ Hload) as Hvalid.
  simpl in Hseed. injection Hseed as <- <-.
  destruct (Z.to_nat (rows_generated p)) as [| rows] eqn:Hn.
  { destruct Hvalid. lia. }
  simpl in Hrows. invert_bind Hrows. destruct a as [[s c'] g'].
  invert_bind Hrows. rename a into rest. injection Hrows as <-.
  exists s, rest. split; [reflexivity |].
  apply generate_one_Ok in Hstep as Hone.
  destruct Hone as (minutes & g1 & g2 & _ & _ & Hcur & Hdem & _).
  split; [exact Hcur |]. split; [exact Hdem |].
  intros Hrm.
  exact (generate_one_not_earlier p Hvalid _ _ _ _ _ _ _ Hrm Hstep).
Qed.

Lemma generated_states_continue_last_state_witness :
  exists p states,
    load_elevator_variables (Parsed Sample.millisecond_per_floor) = Ok p
    /\ generate_elevator_states 5 (Parsed Sample.millisecond_per_floor)
         (Some Sample.last_state) 0 Sample.up_and_down = Ok states
    /\ exists s rest,
         states = s :: rest
         /\ currentFloor s = last_next_floor Sample.last_state
         /\ demandFloor s = last_demand_floor Sample.last_state
         /\ (0 <= random_minutes_min p ->
             last_call_datetime Sample.last_state <= callDatetime s).
Proof.
  eexists. eexists. split; [reflexivity |]. split; [exact run_millisecond_per_floor |].
  exact (generated_states_continue_last_state 5
           (Parsed Sample.millisecond_per_floor) Sample.last_state 0
           Sample.up_and_down _ _ eq_refl run_millisecond_per_floor).
Defined.

(** X17.  Every state of a run moves to a floor of the building that is
    not its demand floor; every state after the first, and on an empty
    store the first one too, starts from floors of the building. *)
Theorem generated_states_floors (fuel : nat) (file : config_file)
    (last_state : option ElevatorState) (today : datetime) (g : rng)
    (p : params) (states : list generated_state) :
  load_elevator_variables file = Ok p ->
  generate_elevator_states fuel file last_state today g = Ok states ->
  Forall (fun s => negative_floor_number p <= nextFloor s < floor_number p
                   /\ nextFloor s <> demandFloor s) states
  /\ (forall (i : nat) (s : generated_state),
        states !! i = Some s ->
        i <> 0%nat \/ last_state = None ->
        negative_floor_number p <= currentFloor s < floor_number p
        /\ negative_floor_number p <= demandFloor s < floor_number p).
Proof.
  intros Hload H.
  destruct (generate_elevator_states_Ok _ _ _ _ _ _ _ Hload H)
    as (weight_list & c & g0 & _ & Hseed & Hrows).
  destruct (generate_rows_floors _ _ _ _ _ _ _ Hrows)
    as (Hall & Hfirst & Hlater).
  split; [exact Hall |].
  intros [| i] s Hs Hcase.
  - destruct Hcase as [Hi | ->]; [contradiction |].
    destruct (Hfirst s Hs) as [-> ->].
    unfold obtain_table_last_state in Hseed.
    invert_bind Hseed. destruct a as [cf g1].
    invert_bind Hseed. destruct a as [df g2]. injection Hseed as <- _. simpl.
    apply drawn_floor_in_range in Hstep as [Hcf _].
    apply drawn_floor_in_range in Hstep0 as [Hdf _].
    split; assumption.
  - exact (Hlater i s Hs).
Qed.

Lemma generated_states_floors_witness :
  exists states,
    load_elevator_variables (Parsed Sample.five_floors)
    = Ok Sample.five_floors_params
    /\ generate_elevator_states 5 (Parsed Sample.five_floors) None
         Sample.new_year_2024 Sample.counting = Ok states
    /\ Forall (fun s => negative_floor_number Sample.five_floors_params
                        <= nextFloor s < floor_number Sample.five_floors_params
                        /\ nextFloor s <> demandFloor s) states
    /\ (forall (i : nat) (s : generated_state),
          states !! i = Some s ->
          i <> 0%nat \/ @None ElevatorState = None ->
          negative_floor_number Sample.five_floors_params <= currentFloor s
          < floor_number Sample.five_floors_params
          /\ negative_floor_number Sample.five_floors_params <= demandFloor s
             < floor_number Sample.five_floors_params).
Proof.
  eexists. split; [exact load_five_floors |]. split; [exact run_five_floors |].
  exact (generated_states_floors 5 (Parsed Sample.five_floors) None
           Sample.new_year_2024 Sample.counting _ _
           load_five_floors run_five_floors).
Defined.

(** X18.  A run returns only if the range of the random minutes is not
    empty: [load_elevator_variables] does not compare its two ends, and
    [random.randint] of the first iteration raises on an empty range. *)
Theorem generated_states_need_ordered_minutes (fuel : nat) (file : config_file)
    (last_state : option ElevatorState) (today : datetime) (g : rng)
    (p : params) (states : list generated_state) :
  load_elevator_variables file = Ok p ->
  generate_elevator_states fuel file last_state today g = Ok states ->
  random_minutes_min p <= random_minutes_max p.
Proof.
  intros Hload H.
  destruct (generate_elevator_states_Ok _ _ _ _ _ _ _ Hload H)
    as (weight_list & c & g0 & _ & _ & Hrows).
  pose proof (load_valid _ _ Hload) as Hvalid.
  destruct (Z.to_nat (rows_generated p)) as [| rows] eqn:Hn.
  { destruct Hvalid. lia. }
  simpl in Hrows. invert_bind Hrows. destruct a as [[s c'] g'].
  apply generate_one_Ok in Hstep
    as (minutes & g1 & g2 & _ & Hminutes & _).
  unfold calculate_interval_minutes in Hminutes.
  invert_bind Hminutes. destruct a as [r g3].
  apply randint_Ok in Hstep. lia.
Qed.

Lemma generated_states_need_ordered_minutes_witness :
  exists states,
    load_elevator_variables (Parsed Sample.five_floors)
    = Ok Sample.five_floors_params
    /\ generate_elevator_states 5 (Parsed Sample.five_floors) None
         Sample.new_year_2024 Sample.counting = Ok states
    /\ random_minutes_min Sample.five_floors_params
       <= random_minutes_max Sample.five_floors_params.
Proof.
  eexists. split; [exact load_five_floors |]. split; [exact run_five_floors |].
  exact (generated_states_need_ordered_minutes 5 (Parsed Sample.five_floors) None
           Sample.new_year_2024 Sample.counting _ _
           load_five_floors run_five_floors).
Defined.

(** ** How long an interval can be *)

(** Each lag is at most the greater of the two interval settings. *)
Lemma lag_upper (p : params) (d : Z) :
  ((if d <=? 1
    then inject_Z (min_time_interval_seconds p)
    else min2 (inject_Z (max_time_interval_seconds p))
              (inject_Z d * interval_per_floor_seconds p)) / 60
   <= inject_Z (Z.max (min_time_interval_seconds p)
                      (max_time_interval_seconds p)) / 60)%Q.
Proof.
  apply Qdiv_60_le. destruct (d <=? 1).
  - rewrite <- Zle_Qle. lia.
  - eapply Qle_trans; [apply min2_le_l |]. rewrite <- Zle_Qle. lia.
Qed.

(** The random minutes after scaling: a multiplier between 0 and 1 moves
    them towards 0. *)
Lemma scaled_minutes_bounds (lo hi r : Z) (m : Q) :
  lo <= r <= hi -> (0 <= m <= 1)%Q ->
  (inject_Z (Z.min 0 lo) <= inject_Z r * m <= inject_Z (Z.max 0 hi))%Q.
Proof.
  intros Hr Hm.
  assert (Hlo : (inject_Z (Z.min 0 lo) <= inject_Z r)%Q)
    by (rewrite <- Zle_Qle; lia).
  assert (Hlo0 : (inject_Z (Z.min 0 lo) <= 0)%Q)
    by (change 0%Q with (inject_Z 0); rewrite <- Zle_Qle; lia).
  assert (Hhi : (inject_Z r <= inject_Z (Z.max 0 hi))%Q)
    by (rewrite <- Zle_Qle; lia).
  assert (Hhi0 : (0 <= inject_Z (Z.max 0 hi))%Q)
    by (change 0%Q with (inject_Z 0); rewrite <- Zle_Qle; lia).
  split; nra.
Qed.

Lemma calculate_interval_minutes_range (p : params) (c : cursor)
    (next_floor : Z) (g g' : rng) (minutes : Q) :
  valid_params p ->
  calculate_interval_minutes p c next_floor g = Ok (minutes, g') ->
  (inject_Z (Z.min 0 (random_minutes_min p)) <= minutes
   <= inject_Z (Z.max 0 (random_minutes_max p))
      + 2 * (inject_Z (Z.max (min_time_interval_seconds p)
                             (max_time_interval_seconds p)) / 60))%Q.
Proof.
  intros Hvalid H. unfold calculate_interval_minutes in H.
  invert_bind H. destruct a as [r g1]. injection H as <- _.
  apply randint_Ok in Hstep.
  assert (Hmult : (0 <= peak_interval_multiplier p c <= 1)%Q).
  { destruct Hvalid. unfold peak_interval_multiplier.
    destruct (existsb _ _); [assumption | split; discriminate]. }
  pose proof (scaled_minutes_bounds _ _ _ _ Hstep Hmult) as [Hlo Hhi].
  assert (H0min : (0 <= inject_Z (min_time_interval_seconds p))%Q)
    by (destruct Hvalid; change 0%Q with (inject_Z 0); rewrite <- Zle_Qle; lia).
  assert (H0max : (0 <= inject_Z (max_time_interval_seconds p))%Q)
    by (destruct Hvalid; change 0%Q with (inject_Z 0); rewrite <- Zle_Qle; lia).
  assert (H0per : (0 <= 2 * interval_per_floor_seconds p)%Q)
    by (destruct Hvalid; lra).
  pose proof (lag_lower p Hvalid 0 (Z.abs (current_floor c - demand_floor c))
                H0min H0max H0per) as Hcur.
  pose proof (lag_lower p Hvalid 0 (Z.abs (next_floor - demand_floor c))
                H0min H0max H0per) as Hnext.
  pose proof (lag_upper p (Z.abs (current_floor c - demand_floor c))) as Hcur'.
  pose proof (lag_upper p (Z.abs (next_floor - demand_floor c))) as Hnext'.
  fold (current_floor_interval_lag p c) in Hcur, Hcur'.
  fold (next_floor_interval_lag p c next_floor) in Hnext, Hnext'.
  assert (H0 : (0 / 60 == 0)%Q) by reflexivity. rewrite H0 in Hcur, Hnext.
  split; lra.
Qed.



(** The time an interval adds to the clock is at most [longest_step]. *)
Lemma timedelta_minutes_upper (p : params) (minutes : Q) :
  (minutes
   <= inject_Z (Z.max 0 (random_minutes_max p))
      + 2 * (inject_Z (Z.max (min_time_interval_seconds p)
                             (max_time_interval_seconds p)) / 60))%Q ->
  timedelta_minutes minutes <= longest_step p.
Proof.
  intros H. unfold timedelta_minutes, longest_step, us_per_second.
  apply round_half_even_upper.
  change (60 * 1000000) with 60000000.
  rewrite inject_Z_plus, !inject_Z_mult.
  remember (inject_Z (Z.max 0 (random_minutes_max p))) as r eqn:Hr.
  remember (inject_Z (Z.max (min_time_interval_seconds p)
                            (max_time_interval_seconds p))) as y eqn:Hy.
  clear Hr Hy.
  assert (E : (y / 60 == y * (1 # 60))%Q) by reflexivity. rewrite E in H.
  unfold inject_Z. lra.
Qed.

Lemma generate_one_step (fuel : nat) (p : params) (weight_list : list Q)
    (c c' : cursor) (g g' : rng) (s : generated_state) :
  valid_params p ->
  generate_one fuel p weight_list c g = Ok (s, c', g') ->
  callDatetime s <= start_time c + longest_step p.
Proof.
  intros Hvalid H.
  apply generate_one_Ok in H
    as (minutes & g1 & g2 & _ & Hmin & _ & _ & -> & _).
  apply (calculate_interval_minutes_range _ _ _ _ _ _ Hvalid) in Hmin as [_ Hhi].
  apply timedelta_minutes_upper in Hhi. lia.
Qed.

(** X20.  Between two consecutive states of a run the clock advances by
    at most [longest_step], the greatest random minutes, or none if they
    are negative, and twice the greater of the two interval settings, up
    to the rounding of float arithmetic: one part in 2^50 of that step and
    one microsecond. *)
Theorem generated_states_step_bounded (fuel : nat) (file : config_file)
    (last_state : option ElevatorState) (today : datetime) (g : rng)
    (p : params) (states : list generated_state) :
  load_elevator_variables file = Ok p ->
  generate_elevator_states fuel file last_state today g = Ok states ->
  chained (fun t t' => t' <= t + longest_step p + longest_step p / 2 ^ 50 + 1)
    states.
Proof.
  intros Hload H.
  destruct (generate_elevator_states_Ok _ _ _ _ _ _ _ Hload H)
    as (weight_list & c & g0 & _ & _ & Hrows).
  pose proof (load_valid _ _ Hload) as Hvalid.
  eapply generate_rows_chained; [| exact Hrows].
  intros c1 g1 s c1' g1' Hone. cbv beta.
  pose proof (generate_one_step _ _ _ _ _ _ _ _ Hvalid Hone) as Hstep.
  assert (Hpos : 0 <= longest_step p).
  { destruct Hvalid. unfold longest_step, us_per_second. lia. }
  pose proof (Z.div_pos (longest_step p) (2 ^ 50) Hpos ltac:(lia)). lia.
Qed.

Lemma generated_states_step_bounded_witness :
  exists states,
    load_elevator_variables (Parsed Sample.five_floors)
    = Ok Sample.five_floors_params
    /\ generate_elevator_states 5 (Parsed Sample.five_floors) None
         Sample.new_year_2024 Sample.counting = Ok states
    /\ chained (fun t t' => t' <= t + longest_step Sample.five_floors_params
                                 + longest_step Sample.five_floors_params / 2 ^ 50
                                 + 1)
         states.
Proof.
  eexists. split; [exact load_five_floors |]. split; [exact run_five_floors |].
  exact (generated_states_step_bounded 5 (Parsed Sample.five_floors) None
           Sample.new_year_2024 Sample.counting _ _
           load_five_floors run_five_floors).
Defined.

(** ** How a run can fail *)

Section Failures.

Variable p : params.
Variable weight_list : list Q.
Hypothesis Hdraw : forall g : rng,
  exists floor,
    pick_random_floor_weighted p weight_list g = Ok (floor, snd (next_raw g)).
Hypothesis Hminutes : random_minutes_min p <= random_minutes_max p.

(** When every draw returns, the loop of [pick_next_door] returns or goes
    on. *)
Lemma pick_next_door_returns_or_goes_on (fuel : nat) (c : cursor) (g : rng) :
  (exists r, pick_next_door fuel p weight_list c g = Ok r)
  \/ pick_next_door fuel p weight_list c g = OutOfFuel.
Proof using Hdraw.
  revert g. induction fuel as [| fuel IH]; intros g; [right; reflexivity |].
  simpl. destruct (Hdraw g) as [floor Hfloor].
  unfold pick_random_floor_weighted in Hfloor. rewrite Hfloor. cbn [bind].
  destruct (negb (floor =? demand_floor c)); [left; eauto | apply IH].
Qed.

Lemma calculate_interval_minutes_returns (c : cursor) (next_floor : Z) (g : rng) :
  exists minutes,
    calculate_interval_minutes p c next_floor g = Ok (minutes, snd (next_raw g)).
Proof using Hminutes.
  unfold calculate_interval_minutes, randint.
  destruct (Z.ltb_spec (random_minutes_max p) (random_minutes_min p)); [lia |].
  unfold next_raw. cbv beta iota. cbn [bind snd]. eauto.
Qed.

Lemma generate_one_failures (fuel : nat) (c : cursor) (g : rng) :
  (exists r, generate_one fuel p weight_list c g = Ok r)
  \/ generate_one fuel p weight_list c g = OutOfFuel
  \/ generate_one fuel p weight_list c g = Raise OverflowError.
Proof using Hdraw Hminutes.
  unfold generate_one.
  destruct (pick_next_door_returns_or_goes_on fuel c g) as [[[nf g1] ->] | ->];
    [| right; left; reflexivity].
  cbn [bind].
  destruct (calculate_interval_minutes_returns c nf g1) as [minutes ->].
  cbn [bind]. unfold datetime_add.
  destruct (_ && _); [| right; right; reflexivity].
  cbn [bind].
  destruct (Hdraw (snd (next_raw g1))) as [df ->]. cbn [bind].
  left. eauto.
Qed.

Lemma generate_rows_failures (fuel rows : nat) (c : cursor) (g : rng) :
  (exists states, generate_rows fuel rows p weight_list c g = Ok states)
  \/ generate_rows fuel rows p weight_list c g = OutOfFuel
  \/ generate_rows fuel rows p weight_list c g = Raise OverflowError.
Proof using Hdraw Hminutes.
  revert c g. induction rows as [| rows IH]; intros c g; [left; simpl; eauto |].
  simpl.
  destruct (generate_one_failures fuel c g) as [[[[s c'] g'] ->] | [-> | ->]];
    [| right; left; reflexivity | right; right; reflexivity].
  cbn [bind].
  destruct (IH c' g') as [[states ->] | [-> | ->]];
    [left; cbn [bind]; eauto | right; left; reflexivity
     | right; right; reflexivity].
Qed.

End Failures.

(** X21.  In a building of at most 1000 floors whose weights were
    derived, with a range of random minutes that is not empty, a run
    creates its states unless the loop of [pick_next_door] does not end or
    the clock leaves the years 1 to 9999: no draw and no other step of the
    loop raises. *)
Theorem generated_states_or_failure (fuel : nat) (file : config_file)
    (last_state : option ElevatorState) (today : datetime) (g : rng)
    (p : params) (weights : list Q) :
  load_elevator_variables file = Ok p ->
  floor_weights_mapping p = Ok weights ->
  floor_number p - negative_floor_number p <= 1000 ->
  random_minutes_min p <= random_minutes_max p ->
  (exists states,
      generate_elevator_states fuel file last_state today g = Ok states)
  \/ generate_elevator_states fuel file last_state today g = OutOfFuel
  \/ generate_elevator_states fuel file last_state today g = Raise OverflowError.
Proof.
  intros Hload Hweights Hsmall Hminutes.
  destruct (floor_weights_top_weight p weights (load_valid _ _ Hload)
              Hweights Hsmall) as [_ Hdraw].
  unfold generate_elevator_states. rewrite Hload. cbn [bind].
  rewrite Hweights. cbn [bind].
  assert (Hseed : exists c g0,
             obtain_table_last_state p weights last_state today g = Ok (c, g0)).
  { unfold obtain_table_last_state. destruct last_state as [last |]; [eauto |].
    destruct (Hdraw g) as [cf ->]. cbn [bind].
    destruct (Hdraw (snd (next_raw g))) as [df ->]. cbn [bind]. eauto. }
  destruct Hseed as (c & g0 & ->). cbn [bind].
  apply generate_rows_failures; assumption.
Qed.

Lemma generated_states_or_failure_witness :
  (exists states,
      generate_elevator_states 5 (Parsed Sample.five_floors) None
        Sample.new_year_2024 Sample.counting = Ok states)
  \/ generate_elevator_states 5 (Parsed Sample.five_floors) None
       Sample.new_year_2024 Sample.counting = OutOfFuel
  \/ generate_elevator_states 5 (Parsed Sample.five_floors) None
       Sample.new_year_2024 Sample.counting = Raise OverflowError.
Proof.
  apply (generated_states_or_failure 5 (Parsed Sample.five_floors) None
           Sample.new_year_2024 Sample.counting Sample.five_floors_params
           [0.600; 0.100; 0.100; 0.100; 0.100]%Q);
    [reflexivity | vm_compute; reflexivity | simpl; lia | simpl; lia].
Defined.
